(** * Heart-attack prediction pipeline: preprocessing, aggregation, scoring

    A shallow embedding of the business logic of the repository:

    - [src/lambda/lambda_function.py]  ([load_feature_list], [preprocess_row],
      [lambda_handler]) with its constants of [src/lambda/config.py];
    - [src/sagemaker/preprocess.py]    ([preprocess_health_data],
      [prepare_train_test_split]);
    - [src/emr/main.py]                (the [agg], [hist_clean] and [final]
      tables of the Spark job);
    - [src/phase1_sim/gen_simulated_vitals.py] (the simulated table).

    The pandas, Spark and boto3 calls the code makes are modelled by what
    they do to the values the code passes to them; what is external to the
    repository (number parsing, the clock, the cloud services) is an explicit
    parameter. *)

From Stdlib Require Import String Ascii List Bool Arith ZArith QArith Qround Qabs Lia Lqa.
From Stdlib Require Import DecimalString DecimalZ DecimalPos Sorted OrderedTypeEx.
Import ListNotations.
Close Scope Q_scope.
Open Scope string_scope.

Set Implicit Arguments.

(* ================================================================== *)
(** ** Python exceptions and results *)

Inductive exn : Type :=
| KeyError (column : string)     (* df["Sex"] on a frame without that column *)
| KeyErrorPos (position : nat)   (* bp[1] on a frame without column 1 *)
| NoSuchKey (key : string)       (* s3.get_object on an absent object *)
| ValueError (text : string)     (* float(raw_result) on a non-number,
                                    pd.concat of no frame *)
| TypeError                      (* len(None) *)
| EndpointError                  (* runtime.invoke_endpoint failed *)
| PutError                       (* s3.put_object failed *)
| SnsError (text : string).      (* sns.publish failed *)

Inductive result (A : Type) : Type :=
| Ok (a : A)
| Raise (e : exn).
Arguments Ok {A} a.
Arguments Raise {A} e.

Definition bind {A B} (r : result A) (k : A -> result B) : result B :=
  match r with
  | Ok a => k a
  | Raise e => Raise e
  end.

Notation "x <- e ;; k" := (bind e (fun x => k))
  (at level 61, e at next level, right associativity).

(* ================================================================== *)
(** ** Python [str] methods used by the code *)

Module Str.

(** [c.lower()] on one byte: ASCII upper-case letters are shifted, every
    other byte is kept.  (The words the code compares with, "male",
    "healthy" and "unhealthy", have no letter that a non-ASCII character
    lower-cases to.) *)
Definition lower_ascii (c : ascii) : ascii :=
  let n := nat_of_ascii c in
  if ((65 <=? n) && (n <=? 90))%nat then ascii_of_nat (n + 32) else c.

Fixpoint lower (s : string) : string :=
  match s with
  | EmptyString => EmptyString
  | String c r => String (lower_ascii c) (lower r)
  end.

(** [s.split(sep, 1)] for a one-character separator: the text before the
    first separator, and the text after it when there is one. *)
Fixpoint split1 (sep : ascii) (s : string) : string * option string :=
  match s with
  | EmptyString => (EmptyString, None)
  | String c r =>
      if Ascii.eqb c sep then (EmptyString, Some r)
      else let (l, o) := split1 sep r in (String c l, o)
  end.

Fixpoint contains (sep : ascii) (s : string) : bool :=
  match s with
  | EmptyString => false
  | String c r => Ascii.eqb c sep || contains sep r
  end.

(** [s.endswith(suffix)] *)
Definition endswith (s suffix : string) : bool :=
  let n := String.length s in
  let m := String.length suffix in
  (m <=? n)%nat && String.eqb (substring (n - m) m s) suffix.

(** [s.startswith(p)] *)
Definition startswith (s p : string) : bool := String.prefix p s.

Definition mem (x : string) (l : list string) : bool :=
  existsb (String.eqb x) l.

(** [x < y], the order in which values are sorted. *)
Definition before (x y : string) : Prop := String.ltb x y = true.

End Str.

(* ================================================================== *)
(** ** The numbers of a data frame

    pandas keeps int64 and float64 numbers; [pd.to_numeric] and Python's
    [str] are library code.  The embedding is generic in them: [to_numeric]
    answers [None] where pandas, under [errors="coerce"], answers NaN. *)

Class Numeric (num : Type) : Type := {
  zero : num;
  one : num;
  to_numeric : string -> option num;
  num_str : num -> string
}.

(** The integers as numbers: decimal literals with an optional sign.
    Text that pandas reads as a number that is no integer (a decimal
    point, an exponent, blanks around it) is outside this instance; it is
    used on integer literals only. *)
Definition Z_to_numeric (s : string) : option Z :=
  match s with
  | String "+" r => option_map Z.of_uint (NilZero.uint_of_string r)
  | _ => option_map Z.of_int (NilZero.int_of_string s)
  end.

#[export] Instance Z_numeric : Numeric Z := {
  zero := 0%Z;
  one := 1%Z;
  to_numeric := Z_to_numeric;
  num_str := fun z => NilZero.string_of_int (Z.to_int z)
}.

(* ================================================================== *)
(** ** A small model of pandas data frames *)

Module Pandas.
Section Frames.

Context {num : Type} {N : Numeric num}.

(** One cell: text, a number, Python's [None] (an absent CSV field) or
    the float NaN. *)
Inductive cell : Type :=
| CStr (s : string)
| CNum (n : num)
| CNone
| CNaN.

Definition series : Type := list cell.

(** A frame: the number of rows and the columns in order. *)
Record DataFrame : Type := {
  index : nat;
  data : list (string * series)
}.

Definition columns (df : DataFrame) : list string := map fst (data df).

(** [col in df.columns] *)
Definition has_column (df : DataFrame) (col : string) : bool :=
  Str.mem col (columns df).

Fixpoint assoc (col : string) (l : list (string * series)) : option series :=
  match l with
  | [] => None
  | (c, s) :: r => if String.eqb col c then Some s else assoc col r
  end.

(** [df.get(col)] *)
Definition df_get (df : DataFrame) (col : string) : option series :=
  assoc col (data df).

(** [df[col]]: a missing column is a [KeyError]. *)
Definition getitem (df : DataFrame) (col : string) : result series :=
  match df_get df col with
  | Some s => Ok s
  | None => Raise (KeyError col)
  end.

Fixpoint assign (col : string) (s : series) (l : list (string * series))
  : list (string * series) :=
  match l with
  | [] => [(col, s)]
  | (c, s') :: r =>
      if String.eqb col c then (c, s) :: r else (c, s') :: assign col s r
  end.

(** [df[col] = s]: an existing column is replaced where it stands, a new
    one is appended. *)
Definition setitem (df : DataFrame) (col : string) (s : series) : DataFrame :=
  {| index := index df; data := assign col s (data df) |}.

(** [df.drop(columns=cols, errors="ignore")] *)
Definition drop (df : DataFrame) (cols : list string) : DataFrame :=
  {| index := index df;
     data := filter (fun cs => negb (Str.mem (fst cs) cols)) (data df) |}.

(** [df[cols]] for a list of names: the named columns in the order of the
    list; a name that is not a column is a [KeyError]. *)
Fixpoint pick (l : list (string * series)) (cols : list string)
  : result (list (string * series)) :=
  match cols with
  | [] => Ok []
  | c :: r =>
      match assoc c l with
      | Some s => rest <- pick l r ;; Ok ((c, s) :: rest)
      | None => Raise (KeyError c)
      end
  end.

Definition select (df : DataFrame) (cols : list string) : result DataFrame :=
  d <- pick (data df) cols ;; Ok {| index := index df; data := d |}.

(** A Python dict as its items in insertion order. *)
Definition dict : Type := list (string * cell).

Definition keys (d : dict) : list string := map fst d.

(** [d.get(key)] *)
Fixpoint assoc_cell (key : string) (d : dict) : option cell :=
  match d with
  | [] => None
  | (k, v) :: r =>
      match assoc_cell key r with
      | Some w => Some w
      | None => if String.eqb key k then Some v else None
      end
  end.

(** [pd.DataFrame([row])]: one row, one column per key.  A later item
    with a key already seen overwrites the value, as in a dict. *)
Definition DataFrame_of_row (row : dict) : DataFrame :=
  {| index := 1;
     data := fold_left (fun l kv => assign (fst kv) [snd kv] l) row [] |}.

(** [.astype(str)] on one cell *)
Definition astype_str (c : cell) : string :=
  match c with
  | CStr s => s
  | CNum n => num_str n
  | CNone => "None"
  | CNaN => "nan"
  end.

(** [pd.to_numeric(_, errors="coerce")] on one cell *)
Definition coerce (c : cell) : cell :=
  match c with
  | CStr s => match to_numeric s with Some n => CNum n | None => CNaN end
  | CNum n => CNum n
  | CNone => CNaN
  | CNaN => CNaN
  end.

(** [.fillna(0)] on one cell *)
Definition fillna0 (c : cell) : cell :=
  match c with
  | CNone => CNum zero
  | CNaN => CNum zero
  | _ => c
  end.

Definition map_cells (f : cell -> cell) (df : DataFrame) : DataFrame :=
  {| index := index df;
     data := map (fun cs => (fst cs, map f (snd cs))) (data df) |}.

(** [(s.astype(str).str.lower() == word).astype(int)] *)
Definition indicator (word : string) (s : series) : series :=
  map (fun c => if String.eqb (Str.lower (astype_str c)) word
                then CNum one else CNum zero) s.

(** [s.astype(str).str.split("/", n=1, expand=True)]: a frame with
    positional columns 0, 1, ...; it has as many columns as the longest
    split of a row, and a row with a shorter split has [None] there. *)
Definition split_expand (s : series) : list (string * option string) :=
  map (fun c => Str.split1 "/" (astype_str c)) s.

Definition expand_width (parts : list (string * option string)) : nat :=
  match parts with
  | [] => 0
  | _ => if existsb (fun p => match snd p with Some _ => true | None => false end) parts
         then 2 else 1
  end.

Definition text_cell (o : option string) : cell :=
  match o with
  | Some s => CStr s
  | None => CNone
  end.

(** [bp[i]] for [i] = 0, 1 *)
Definition expand_col (parts : list (string * option string)) (i : nat)
  : result series :=
  if (i <? expand_width parts)%nat then
    Ok (map (fun p => match i with
                      | 0 => CStr (fst p)
                      | _ => text_cell (snd p)
                      end) parts)
  else Raise (KeyErrorPos i).

(** The "Split Blood Pressure" block, the same text in [preprocess_row]
    (lines 70-75) and in [preprocess_health_data] (lines 27-32). *)
Definition split_blood_pressure (df : DataFrame) : result DataFrame :=
  if has_column df "Blood Pressure" then
    col <- getitem df "Blood Pressure" ;;
    let bp := split_expand col in
    bp0 <- expand_col bp 0 ;;
    let df := setitem df "BP_Systolic" (map coerce bp0) in
    bp1 <- expand_col bp 1 ;;
    let df := setitem df "BP_Diastolic" (map coerce bp1) in
    Ok (drop df ["Blood Pressure"])
  else Ok df.

Definition identifiers : list string :=
  ["Patient ID"; "Country"; "Continent"; "Hemisphere"].

(** *** [pd.get_dummies(df, drop_first=True)] *)

(** A column is encoded when its dtype is object: it holds text or
    [None].  Columns of numbers (NaN included) are kept as they are. *)
Definition is_object (s : series) : bool :=
  existsb (fun c => match c with
                    | CStr _ | CNone => true
                    | CNum _ | CNaN => false
                    end) s.

(** The category a cell belongs to; a missing cell belongs to none
    ([dummy_na=False]). *)
Definition label (c : cell) : option string :=
  match c with
  | CStr v => Some v
  | CNum n => Some (num_str n)
  | CNone | CNaN => None
  end.

Fixpoint insert_sorted (x : string) (l : list string) : list string :=
  match l with
  | [] => [x]
  | y :: r => if String.leb x y then x :: l else y :: insert_sorted x r
  end.

Fixpoint labels (s : series) : list string :=
  match s with
  | [] => []
  | c :: r => match label c with
              | Some v => v :: labels r
              | None => labels r
              end
  end.

(** The categories of a column: its distinct values in sorted order, the
    order of text, as for a column of text.  (In a column that mixes
    numbers with text pandas puts the numbers first, in their own order;
    no statement below is about the indicators of such a column.) *)
Definition categories (s : series) : list string :=
  fold_right insert_sorted [] (nodup string_dec (labels s)).

(** One 0/1 column per category but the first, named [<column>_<value>]. *)
Definition dummies_of (col : string) (s : series) : list (string * series) :=
  map (fun v =>
         (col ++ "_" ++ v,
          map (fun c => match label c with
                        | Some w => if String.eqb w v then CNum one else CNum zero
                        | None => CNum zero
                        end) s))
      (tl (categories s)).

(** The frames [get_dummies] concatenates: the columns that are not
    encoded, then the indicators of each encoded column. *)
Definition with_dummies (df : DataFrame) : DataFrame :=
  {| index := index df;
     data := filter (fun cs => negb (is_object (snd cs))) (data df)
             ++ flat_map (fun cs => if is_object (snd cs)
                                    then dummies_of (fst cs) (snd cs)
                                    else []) (data df) |}.

(** On a frame without a column there is no frame to concatenate, and
    [pd.concat] raises ValueError. *)
Definition get_dummies_drop_first (df : DataFrame) : result DataFrame :=
  match data df with
  | [] => Raise (ValueError "No objects to concatenate")
  | _ => Ok (with_dummies df)
  end.

End Frames.

Arguments cell num : clear implicits.
Arguments series num : clear implicits.
Arguments DataFrame num : clear implicits.
Arguments dict num : clear implicits.

End Pandas.

(* ================================================================== *)
(** ** src/sagemaker/preprocess.py *)

Module Sagemaker.
Import Pandas.
Section Training.

Context {num : Type} {N : Numeric num}.

(** [preprocess_health_data(df)] *)
Definition preprocess_health_data (df : DataFrame num) : result (DataFrame num) :=
  (* Split blood pressure *)
  df <- split_blood_pressure df ;;
  (* Drop identifiers *)
  let df := drop df identifiers in
  (* One-hot encode categoricals *)
  df <- get_dummies_drop_first df ;;
  Ok (map_cells fillna0 df).

End Training.
End Sagemaker.

(* ================================================================== *)
(** ** src/lambda/lambda_function.py: preprocessing *)

Module Lambda.
Import Pandas.
Section Scoring.

Context {num : Type} {N : Numeric num}.

(** Lines 80-86 of [preprocess_row]: the manual encoding of "Sex" and
    "Diet", then the drop of the two columns. *)
Definition encode_categoricals (df : DataFrame num) : result (DataFrame num) :=
  sex <- getitem df "Sex" ;;
  let df := setitem df "Sex_Male" (indicator "male" sex) in
  diet <- getitem df "Diet" ;;
  let df := setitem df "Diet_Healthy" (indicator "healthy" diet) in
  diet <- getitem df "Diet" ;;
  let df := setitem df "Diet_Unhealthy" (indicator "unhealthy" diet) in
  Ok (drop df ["Sex"; "Diet"]).

(** Lines 68-89 of [preprocess_row]: everything before the alignment. *)
Definition encode_row (df_row : dict num) : result (DataFrame num) :=
  let df := DataFrame_of_row df_row in
  (* Split Blood Pressure *)
  df <- split_blood_pressure df ;;
  (* Drop non-feature columns *)
  let df := drop df identifiers in
  (* Manual encoding for categorical columns, drop originals *)
  df <- encode_categoricals df ;;
  (* Convert numeric & fill missing *)
  Ok (map_cells fillna0 (map_cells coerce df)).

(** Lines 91-96 of [preprocess_row]: align with the expected features. *)
Definition add_missing (df : DataFrame num) (col : string) : DataFrame num :=
  if has_column df col then df
  else setitem df col (repeat (CNum zero) (index df)).

Definition align (df : DataFrame num) (expected_features : list string)
  : result (DataFrame num) :=
  let df := fold_left add_missing expected_features df in
  select df expected_features.

(** [preprocess_row(df_row, expected_features)] *)
Definition preprocess_row (df_row : dict num) (expected_features : list string)
  : result (DataFrame num) :=
  df <- encode_row df_row ;;
  align df expected_features.

End Scoring.
End Lambda.


(* ================================================================== *)
(** ** src/emr/main.py: the aggregation job

    Spark's [avg] and [round] work on doubles.  The heart rates and the
    pressures are integers: while their sum stays below 2^53 the double sum
    is the exact one, the quotient is the double nearest to the exact mean,
    and its HALF_UP rounding is that of the exact mean.  The mean of such
    columns is modelled on exact rationals, and the statements about it are
    about tables within these bounds ([readable] below).  The sleep hours
    are not integers; their mean is not computed here. *)

Module EMR.
Local Open Scope Q_scope.

(** One row of the simulated-vitals table ([sim]).  An empty pressure
    cell is read as null ([None]); the heart rate and the activity are
    taken as filled in every row. *)
Record vitals : Type := {
  v_patient : string;          (* "Patient ID" *)
  v_heart_rate : Z;            (* "Heart Rate" *)
  v_bp_systolic : option Z;    (* "BP_Systolic" *)
  v_bp_diastolic : option Z;   (* "BP_Diastolic" *)
  v_sleep : Q;                 (* "Sleep Hours Per Day" *)
  v_activity : Z               (* "Physical Activity Per day" *)
}.

(** One row of the historical table ([hist]): the entity and its other
    columns by name. *)
Record history : Type := {
  h_patient : string;
  h_fields : list (string * string)
}.

Definition total (l : list Q) : Q := fold_right Qplus 0 l.

(** [avg(col)] over a group *)
Definition avg (l : list Q) : Q :=
  total l / inject_Z (Z.of_nat (List.length l)).

(** Rounding to an integer, ties away from zero (HALF_UP). *)
Definition half_up (x : Q) : Z :=
  if Qle_bool 0 x then Qfloor (x + (1 # 2))
  else (- Qfloor (- x + (1 # 2)))%Z.

(** [round(x, scale)] *)
Definition round (x : Q) (scale : nat) : Q :=
  let unit := inject_Z (10 ^ Z.of_nat scale) in
  inject_Z (half_up (x * unit)) / unit.

(** [x.cast(IntegerType())]: truncation toward zero, into the 32-bit
    integers: a value beyond them gives the nearest bound. *)
Definition cast_int (x : Q) : Z :=
  Z.max (- 2147483648) (Z.min 2147483647 (Z.quot (Qnum x) (Zpos (Qden x)))).

Definition show (z : Z) : string := NilZero.string_of_int (Z.to_int z).

(** One row of [agg], after "Blood Pressure" has replaced the two
    averaged pressures. *)
Record weekly : Type := {
  w_patient : string;
  w_heart_rate : Q;            (* "Heart Rate" *)
  w_sleep_of : list Q;         (* "Sleep Hours Per Day": the readings of
                                  which the column holds the mean
                                  rounded to two places *)
  w_activity_days : Z;         (* "Physical Activity Days Per Week" *)
  w_blood_pressure : string    (* "Blood Pressure" *)
}.

(** The keys of [groupBy("Patient ID")]: each entity once. *)
Fixpoint distinct (l : list string) : list string :=
  match l with
  | [] => []
  | x :: r => x :: filter (fun y => negb (String.eqb x y)) (distinct r)
  end.

Definition group (sim : list vitals) (pid : string) : list vitals :=
  filter (fun v => String.eqb (v_patient v) pid) sim.

(** The values of a column over a group: the aggregates skip nulls. *)
Definition column (f : vitals -> option Z) (g : list vitals) : list Z :=
  flat_map (fun v => match f v with Some z => [z] | None => [] end) g.

(** [round(avg(col), 0)]: null over no value *)
Definition round_avg (values : list Z) : option Q :=
  match values with
  | [] => None
  | _ => Some (round (avg (map inject_Z values)) 0)
  end.

(** [concat_ws(sep, a, b)]: the texts that are not null, [sep] between
    them. *)
Definition concat_ws (sep : string) (texts : list (option string)) : string :=
  String.concat sep
    (flat_map (fun o => match o with Some t => [t] | None => [] end) texts).

(** [round(avg(col("Heart Rate")), 0)] on the readings of one entity *)
Definition heart_rate_feature (readings : list Z) : Q :=
  round (avg (map inject_Z readings)) 0.

Definition aggregate (pid : string) (g : list vitals) : weekly :=
  let AvgBP_Systolic := round_avg (column v_bp_systolic g) in
  let AvgBP_Diastolic := round_avg (column v_bp_diastolic g) in
  {| w_patient := pid;
     w_heart_rate := heart_rate_feature (map v_heart_rate g);
     w_sleep_of := map v_sleep g;
     w_activity_days := fold_right Z.add 0%Z (map v_activity g);
     w_blood_pressure :=
       concat_ws "/"
         [option_map (fun x => show (cast_int x)) AvgBP_Systolic;
          option_map (fun x => show (cast_int x)) AvgBP_Diastolic] |}.

(** [agg] *)
Definition agg (sim : list vitals) : list weekly :=
  map (fun pid => aggregate pid (group sim pid))
      (distinct (map v_patient sim)).

Definition dropped : list string :=
  ["Heart Rate"; "Blood Pressure"; "Sleep Hours Per Day";
   "Physical Activity Days Per Week"; "Heart Attack Risk"].

(** [hist_clean] *)
Definition hist_clean (hist : list history) : list history :=
  map (fun h =>
         {| h_patient := h_patient h;
            h_fields := filter (fun kv => negb (Str.mem (fst kv) dropped))
                               (h_fields h) |}) hist.

(** One row of [final]: a row of [agg] and the columns of the matching
    historical row, or nulls ([None]) when there is none. *)
Record combined : Type := {
  c_weekly : weekly;
  c_history : option (list (string * string))
}.

Definition c_patient (c : combined) : string := w_patient (c_weekly c).

(** [left.join(right, on="Patient ID", how="left")] *)
Definition left_join (left : list weekly) (right : list history)
  : list combined :=
  flat_map (fun a =>
              match filter (fun h => String.eqb (h_patient h) (w_patient a)) right with
              | [] => [{| c_weekly := a; c_history := None |}]
              | matches =>
                  map (fun h => {| c_weekly := a;
                                   c_history := Some (h_fields h) |}) matches
              end) left.

(** [final] *)
Definition final (sim : list vitals) (hist : list history) : list combined :=
  left_join (agg sim) (hist_clean hist).

(** A table within the bounds of the header: no entity has 2^20 rows or
    more, and the heart rates and pressures are integers from 0 to
    2^31 - 1, as Spark infers a 32-bit integer column. *)
Definition readable (sim : list vitals) : Prop :=
  (forall pid,
      Z.of_nat (List.length
                  (filter (fun v => String.eqb (v_patient v) pid) sim))
      < 1048576)%Z
  /\ forall v, In v sim ->
       (0 <= v_heart_rate v < 2147483648)%Z
       /\ forall z, v_bp_systolic v = Some z \/ v_bp_diastolic v = Some z ->
                    (0 <= z < 2147483648)%Z.

End EMR.

(* ================================================================== *)
(** ** src/lambda/config.py *)

Module Config.

Definition ENDPOINT_NAME : string :=
  "xgb-heart-attack-endpoint-2025-11-24-01-04-04".
Definition BUCKET_NAME : string := "healthcare-project-data-jayesh-devre".
Definition PROCESSED_PREFIX : string := "processed/final_health_dataset_csv/".
Definition FEATURE_LIST_KEY : string := "preprocess/feature_list.txt".
Definition ALERT_TOPIC_ARN : string :=
  "arn:aws:sns:us-east-1:381492296417:jayesh-devre-health-alerts".
Definition ALERT_THRESHOLD : Q := 0.45%Q.
Definition MAX_ROWS_TO_PROCESS : nat := 50.

End Config.

(* ================================================================== *)
(** ** src/lambda/lambda_function.py: the handler

    Scores are rationals: the decimal numbers the endpoint answers, compared
    as Python compares the floats read from them. *)

Module Handler.
Import Pandas Lambda Config.

Inductive status : Type := HIGH_RISK | LOW_RISK.

(** [score > ALERT_THRESHOLD] *)
Definition exceeds (score threshold : Q) : bool :=
  negb (Qle_bool score threshold).

(** ["HIGH_RISK" if score > ALERT_THRESHOLD else "LOW_RISK"] *)
Definition Risk_Status (score : Q) : status :=
  if exceeds score ALERT_THRESHOLD then HIGH_RISK else LOW_RISK.

Section Run.

Context {num : Type} {N : Numeric num}.

(** One row of the predictions table. *)
Record prediction : Type := {
  p_patient : cell num;       (* "Patient ID" *)
  p_risk : Q;                 (* "Heart Attack Risk" *)
  p_status : status;          (* "Risk_Status" *)
  p_scored_at : string        (* "ScoredAt" *)
}.

(** One entry of [alert_details]. *)
Record alert : Type := {
  a_patient : cell num;       (* "patient_id" *)
  a_risk_score : Q;           (* "risk_score" *)
  a_status : status           (* "status" *)
}.

(** The text of the notification: the number of alerts and one line
    "<patient_id>: <risk_score>" per entry of [alert_details]. *)
Record notice : Type := {
  n_count : nat;
  n_lines : list (cell num * Q)
}.

Inductive body : Type :=
| ErrorBody (error : string)
| SummaryBody (processed_rows alerts_triggered : nat)
              (alert_details : list alert) (all_scores : list Q).

Record response : Type := {
  statusCode : nat;
  response_body : body
}.

(** The [print] calls of the handler, in the order of the source. *)
Inductive line : Type :=
| LogInvoked
| LogLoaded (features : nat)
| LogUsing (csv_key : string)
| LogColumns (fieldnames : list string)
| LogScore (patient : cell num) (score : Q)
| LogAlert (patient : cell num) (score : Q)
| LogSaved (pred_key : string)
| LogSnsSent
| LogSnsFailed (error : string)
| LogProcessed (rows alerts : nat).

(** What a run does to the outside, in order. *)
Inductive event : Type :=
| Print (l : line)
| Invoke (endpoint payload : string)
| Put (key : string) (rows : list prediction)
| Publish (topic subject : string) (message : notice).

(** Library code the handler calls: [str.splitlines], [str.strip],
    [csv.DictReader] (its rows and its [fieldnames], [None] for an empty
    file), [DataFrame.to_csv(index=False, header=False)], [float] ([None]
    where it raises ValueError) and [round]. *)
Record Library : Type := {
  splitlines : string -> list string;
  strip : string -> string;
  DictReader : list string -> list (dict num);
  fieldnames : list string -> option (list string);
  to_csv : DataFrame num -> string;
  float : string -> option Q;
  py_round : Q -> nat -> Q
}.

(** The services of one run: the objects of the bucket in listing order,
    the endpoint ([None] where the invocation raises), whether
    [put_object] raises, the error [sns.publish] raises if any, and the
    clock readings. *)
Record Cloud : Type := {
  objects : list (string * string);
  endpoint : string -> option string;
  put_fails : bool;
  publish_error : notice -> option string;
  scored_at : nat -> string;
  stamp : string
}.

Variable lib : Library.
Variable aws : Cloud.

(** Computations that print and call services and may raise. *)
Definition M (A : Type) : Type := (list event * result A)%type.

Definition ret {A} (a : A) : M A := ([], Ok a).
Definition throw {A} (e : exn) : M A := ([], Raise e).
Definition emit (ev : event) : M unit := ([ev], Ok tt).
Definition lift {A} (r : result A) : M A := ([], r).

Definition bindM {A B} (m : M A) (k : A -> M B) : M B :=
  match m with
  | (t, Ok a) => let (t', r) := k a in ((t ++ t')%list, r)
  | (t, Raise e) => (t, Raise e)
  end.

(** [try: m  except Exception as e: h e] *)
Definition try_except {A} (m : M A) (h : exn -> M A) : M A :=
  match m with
  | (t, Ok a) => (t, Ok a)
  | (t, Raise e) => let (t', r) := h e in ((t ++ t')%list, r)
  end.

Notation "x <~ e ;; k" := (bindM e (fun x => k))
  (at level 61, e at next level, right associativity).
Notation "e ;;; k" := (bindM e (fun _ => k))
  (at level 61, right associativity).

(** [s3.get_object(Bucket=BUCKET_NAME, Key=key)["Body"].read().decode()] *)
Fixpoint lookup (key : string) (l : list (string * string)) : option string :=
  match l with
  | [] => None
  | (k, v) :: r => if String.eqb key k then Some v else lookup key r
  end.

Definition get_object (key : string) : M string :=
  match lookup key (objects aws) with
  | Some text => ret text
  | None => throw (NoSuchKey key)
  end.

(** The keys of [s3.list_objects_v2(Bucket=BUCKET_NAME, Prefix=prefix)] *)
Definition list_objects (prefix : string) : list string :=
  filter (fun k => Str.startswith k prefix) (map fst (objects aws)).

(** [l.remove(x)]: the first occurrence goes. *)
Fixpoint remove_first (x : string) (l : list string) : list string :=
  match l with
  | [] => []
  | y :: r => if String.eqb x y then r else y :: remove_first x r
  end.

Definition nonempty (s : string) : bool :=
  negb (String.eqb s "").

(** [load_feature_list()] *)
Definition load_feature_list : M (list string) :=
  text <~ get_object FEATURE_LIST_KEY ;;
  let features := splitlines lib text in
  let features := map (strip lib) (filter (fun f => nonempty (strip lib f)) features) in
  (* Remove target variable if present *)
  let features :=
    if Str.mem "Heart Attack Risk" features
    then remove_first "Heart Attack Risk" features
    else features in
  ret features.

(** The accumulators of the scoring loop. *)
Record tally : Type := {
  results : list Q;
  alerts : nat;
  alert_details : list alert;
  predictions : list prediction
}.

Definition show_nat (n : nat) : string :=
  NilZero.string_of_uint (Nat.to_uint n).

(** [row.get("Patient ID", f"Row{i+1}")] *)
Definition patient_of (row : dict num) (i : nat)
  : cell num :=
  match assoc_cell "Patient ID" row with
  | Some c => c
  | None => CStr ("Row" ++ show_nat (i + 1))
  end.

(** The body of the loop for row [i]. *)
Definition score_row (expected_features : list string) (i : nat)
    (row : dict num) (acc : tally) : M tally :=
  let patient_id := patient_of row i in
  (* Preprocess row to match training features *)
  df_row <~ lift (preprocess_row row expected_features) ;;
  (* Convert to CSV format for SageMaker *)
  let csv_payload := to_csv lib df_row in
  (* Invoke SageMaker endpoint *)
  emit (Invoke ENDPOINT_NAME csv_payload) ;;;
  answer <~ match endpoint aws csv_payload with
            | Some text => ret text
            | None => throw EndpointError
            end ;;
  let raw_result := strip lib answer in
  if nonempty raw_result then
    score <~ match float lib raw_result with
             | Some x => ret x
             | None => throw (ValueError raw_result)
             end ;;
    emit (Print (LogScore patient_id score)) ;;;
    let acc :=
      {| results := (results acc ++ [score])%list;
         alerts := alerts acc;
         alert_details := alert_details acc;
         predictions :=
           (predictions acc
            ++ [{| p_patient := patient_id;
                   p_risk := py_round lib score 6;
                   p_status := Risk_Status score;
                   p_scored_at := scored_at aws i |}])%list |} in
    (* Check for high-risk alerts *)
    if exceeds score ALERT_THRESHOLD then
      emit (Print (LogAlert patient_id score)) ;;;
      ret {| results := results acc;
             alerts := alerts acc + 1;
             alert_details :=
               (alert_details acc
                ++ [{| a_patient := patient_id;
                       a_risk_score := py_round lib score 3;
                       a_status := HIGH_RISK |}])%list;
             predictions := predictions acc |}
    else ret acc
  else ret acc.

(** [for i, row in enumerate(rows): ...] from index [i] on *)
Fixpoint score_rows (expected_features : list string) (i : nat)
    (rows : list (dict num)) (acc : tally) : M tally :=
  match rows with
  | [] => ret acc
  | row :: rest =>
      acc <~ score_row expected_features i row acc ;;
      score_rows expected_features (S i) rest acc
  end.

(** Lines 191-204: save the predictions summary. *)
Definition save_predictions (preds : list prediction) : M unit :=
  let pred_key :=
    "predictions/heart_attack_predictions_" ++ stamp aws ++ ".csv" in
  match preds with
  | [] => ret tt
  | _ =>
      emit (Put pred_key preds) ;;;
      (if put_fails aws then throw PutError else ret tt) ;;;
      emit (Print (LogSaved pred_key))
  end.

Definition notice_of (n : nat) (details : list alert) : notice :=
  {| n_count := n;
     n_lines := map (fun a => (a_patient a, a_risk_score a)) details |}.

Definition exn_text (e : exn) : string :=
  match e with
  | KeyError c => c
  | KeyErrorPos _ => "position"
  | NoSuchKey k => k
  | ValueError t => t
  | TypeError => "TypeError"
  | EndpointError => "EndpointError"
  | PutError => "PutError"
  | SnsError text => text
  end.

(** Lines 206-217: the notification for high-risk patients. *)
Definition notify (acc : tally) : M unit :=
  if (0 <? alerts acc)%nat then
    try_except
      (let message := notice_of (alerts acc) (alert_details acc) in
       emit (Publish ALERT_TOPIC_ARN "Heart Health Alert Triggered" message) ;;;
       match publish_error aws message with
       | Some text => throw (SnsError text)
       | None => ret tt
       end ;;;
       emit (Print LogSnsSent))
      (fun e => emit (Print (LogSnsFailed (exn_text e))))
  else ret tt.

(** [lambda_handler(event, context)] *)
Definition lambda_handler : M response :=
  emit (Print LogInvoked) ;;;
  (* Load expected features from training *)
  expected_features <~ load_feature_list ;;
  emit (Print (LogLoaded (List.length expected_features))) ;;;
  (* Get latest processed CSV *)
  let csv_files :=
    filter (fun k => Str.endswith k ".csv") (list_objects PROCESSED_PREFIX) in
  match csv_files with
  | [] =>
      ret {| statusCode := 404;
             response_body := ErrorBody "No CSV file found." |}
  | csv_key :: _ =>
      emit (Print (LogUsing csv_key)) ;;;
      (* Read CSV *)
      text <~ get_object csv_key ;;
      let data := splitlines lib text in
      let rows := DictReader lib data in
      names <~ match fieldnames lib data with
               | Some names => ret names
               | None => throw TypeError
               end ;;
      emit (Print (LogColumns names)) ;;;
      (* Process rows (limit to avoid timeout) *)
      acc <~ score_rows expected_features 0
               (firstn MAX_ROWS_TO_PROCESS rows)
               {| results := []; alerts := 0; alert_details := [];
                  predictions := [] |} ;;
      (* Save predictions summary to S3 *)
      save_predictions (predictions acc) ;;;
      (* Send SNS notification for high-risk patients *)
      notify acc ;;;
      emit (Print (LogProcessed (List.length rows) (alerts acc))) ;;;
      ret {| statusCode := 200;
             response_body :=
               SummaryBody (List.length rows) (alerts acc)
                           (alert_details acc) (results acc) |}
  end.

(** *** Reading a run *)

(** The notifications of a trace, and the tables it saved. *)
Definition publishes (t : list event) : list (string * string * notice) :=
  flat_map (fun ev => match ev with
                      | Publish topic subject message => [(topic, subject, message)]
                      | _ => []
                      end) t.

Definition puts (t : list event) : list (string * list prediction) :=
  flat_map (fun ev => match ev with
                      | Put key rows => [(key, rows)]
                      | _ => []
                      end) t.

(** A row that was scored: the entity, the score the endpoint answered
    and the clock reading. *)
Record scoring : Type := {
  s_patient : cell num;
  s_score : Q;
  s_scored_at : string
}.

Definition flagged (s : scoring) : bool := exceeds (s_score s) ALERT_THRESHOLD.

Definition prediction_of (s : scoring) : prediction :=
  {| p_patient := s_patient s;
     p_risk := py_round lib (s_score s) 6;
     p_status := Risk_Status (s_score s);
     p_scored_at := s_scored_at s |}.

Definition alert_of (s : scoring) : alert :=
  {| a_patient := s_patient s;
     a_risk_score := py_round lib (s_score s) 3;
     a_status := HIGH_RISK |}.

(** The accumulators of the loop after the rows [scored]. *)
Definition tally_of (scored : list scoring) : tally :=
  {| results := map s_score scored;
     alerts := List.length (filter flagged scored);
     alert_details := map alert_of (filter flagged scored);
     predictions := map prediction_of scored |}.

End Run.

Arguments Library num : clear implicits.
Arguments Cloud num : clear implicits.
Arguments M num A : clear implicits.
Arguments event num : clear implicits.
Arguments notice num : clear implicits.
Arguments prediction num : clear implicits.
Arguments alert num : clear implicits.
Arguments scoring num : clear implicits.
Arguments tally num : clear implicits.
Arguments response num : clear implicits.


End Handler.

(* ================================================================== *)
(** ** Sample data (integers as numbers) *)

Module Samples.
Import Pandas Lambda Sagemaker.

Definition schema : list string :=
  ["Age"; "BP_Systolic"; "BP_Diastolic"; "Sex_Male"; "Diet_Healthy";
   "Diet_Unhealthy"].

(** A row as [csv.DictReader] gives it: every value is text. *)
Definition patient : dict Z :=
  [("Patient ID", CStr "BMW7812"); ("Age", CStr "67");
   ("Sex", CStr "Male"); ("Diet", CStr "Healthy");
   ("Blood Pressure", CStr "130/85"); ("Country", CStr "Argentina")].

(** A row as [pd.read_csv] types it. *)
Definition typed_patient : dict Z :=
  [("Patient ID", CStr "BMW7812"); ("Age", CNum 67%Z);
   ("Sex", CStr "Male"); ("Diet", CStr "Healthy");
   ("Blood Pressure", CStr "130/85"); ("Country", CStr "Argentina")].

(** A pressure without the separator. *)
Definition no_slash : dict Z :=
  [("Sex", CStr "Male"); ("Diet", CStr "Healthy");
   ("Blood Pressure", CStr "130")].

(** A table of three rows, as the training path reads it. *)
Definition table : DataFrame Z :=
  {| index := 3;
     data := [("Age", [CNum 67%Z; CNum 21%Z; CNum 40%Z]);
              ("Sex", [CStr "Male"; CStr "Female"; CStr "Male"]);
              ("Diet", [CStr "Healthy"; CStr "Average"; CStr "Unhealthy"]);
              ("Blood Pressure", [CStr "130/85"; CStr "120"; CStr "x/70"])] |}.

(** A historical table as the training path reads it. *)
Definition history_table : DataFrame Z :=
  {| index := 4;
     data := [("Patient ID", [CStr "BMW7812"; CStr "CZE1114"; CStr "BNI9906";
                              CStr "JLN3497"]);
              ("Age", [CNum 67%Z; CNum 21%Z; CNum 40%Z; CNum 84%Z]);
              ("Sex", [CStr "Male"; CStr "Female"; CStr "Male"; CStr "Female"]);
              ("Diet", [CStr "Healthy"; CStr "Average"; CStr "Unhealthy";
                        CStr "Average"]);
              ("Blood Pressure", [CStr "130/85"; CStr "118/76"; CStr "x/70";
                                  CStr "163/100"]);
              ("Heart Attack Risk", [CNum 0%Z; CNum 1%Z; CNum 0%Z; CNum 1%Z])] |}.

(** One week of simulated vitals of one entity, heart rates
    60, 70, 80, 90, 100, 110, 60. *)
Definition reading (hr : Z) : EMR.vitals :=
  {| EMR.v_patient := "BMW7812"; EMR.v_heart_rate := hr;
     EMR.v_bp_systolic := Some 130%Z; EMR.v_bp_diastolic := Some 85%Z;
     EMR.v_sleep := 7 # 1; EMR.v_activity := 1 |}.

Definition week : list EMR.vitals :=
  map reading [60; 70; 80; 90; 100; 110; 60]%Z.

(** A historical table with the entity of [week] and one more. *)
Definition archive : list EMR.history :=
  [{| EMR.h_patient := "BMW7812";
      EMR.h_fields := [("Age", "67"); ("Sex", "Male"); ("Heart Rate", "72");
                       ("Diet", "Healthy"); ("Heart Attack Risk", "0")] |};
   {| EMR.h_patient := "CZE1114";
      EMR.h_fields := [("Age", "21"); ("Sex", "Male"); ("Heart Rate", "98");
                       ("Diet", "Unhealthy"); ("Heart Attack Risk", "0")] |}].

(** A run of the handler: a bucket with the feature list and one table
    of two rows, an endpoint that answers by the age, a failing
    [sns.publish]. *)
Definition library : Handler.Library Z :=
  {| Handler.splitlines := fun text =>
       if String.eqb text "features" then schema else [text];
     Handler.strip := fun text => text;
     Handler.DictReader := fun _ =>
       [patient; [("Age", CStr "21"); ("Sex", CStr "Female");
                  ("Diet", CStr "Average"); ("Blood Pressure", CStr "118/76")]];
     Handler.fieldnames := fun _ => Some (keys patient);
     Handler.to_csv := fun df =>
       match df_get df "Age" with
       | Some [CNum 67%Z] => "old"
       | _ => "young"
       end;
     Handler.float := fun text =>
       if String.eqb text "0.50" then Some (50 # 100)%Q
       else if String.eqb text "0.45" then Some (45 # 100)%Q
       else None;
     Handler.py_round := fun x _ => Qred x |}.

Definition cloud : Handler.Cloud Z :=
  {| Handler.objects :=
       [("preprocess/feature_list.txt", "features");
        ("processed/final_health_dataset_csv/_SUCCESS", "");
        ("processed/final_health_dataset_csv/part-00000.csv", "rows")];
     Handler.endpoint := fun payload =>
       Some (if String.eqb payload "old" then "0.50" else "0.45");
     Handler.put_fails := false;
     Handler.publish_error := fun _ => Some "topic not found";
     Handler.scored_at := fun _ => "2025-11-24T01:04:04Z";
     Handler.stamp := "20251124_010404" |}.

(** The same bucket without the table, and without the feature list. *)
Definition cloud_without_table : Handler.Cloud Z :=
  {| Handler.objects :=
       [("preprocess/feature_list.txt", "features");
        ("processed/final_health_dataset_csv/_SUCCESS", "")];
     Handler.endpoint := Handler.endpoint cloud;
     Handler.put_fails := false;
     Handler.publish_error := fun _ => None;
     Handler.scored_at := Handler.scored_at cloud;
     Handler.stamp := Handler.stamp cloud |}.

Definition cloud_without_features : Handler.Cloud Z :=
  {| Handler.objects :=
       [("processed/final_health_dataset_csv/part-00000.csv", "rows")];
     Handler.endpoint := Handler.endpoint cloud;
     Handler.put_fails := false;
     Handler.publish_error := fun _ => None;
     Handler.scored_at := Handler.scored_at cloud;
     Handler.stamp := Handler.stamp cloud |}.

End Samples.

(* ================================================================== *)
(** ** The feature a record gives to a name

    What lines 68-89 of [preprocess_row] leave under each column name,
    written as a function of the raw record; [FeatureFacts.encode_row_ok]
    proves that the code computes it. *)

Module Features.
Import Pandas.
Section Features.

Context {num : Type} {N : Numeric num}.

(** The pressure of the record can be split: the field is absent, or its
    text has a "/". *)
Definition bp_splits (row : dict num) : bool :=
  match assoc_cell "Blood Pressure" row with
  | None => true
  | Some c => Str.contains "/" (astype_str c)
  end.

(** [pd.to_numeric(errors="coerce")] then [fillna(0)] on one cell *)
Definition number (c : cell num) : cell num := fillna0 (coerce c).

Definition flag (word : string) (c : cell num) : cell num :=
  if String.eqb (Str.lower (astype_str c)) word then CNum one else CNum zero.

Definition dropped_names : list string :=
  "Blood Pressure" :: "Sex" :: "Diet" :: identifiers.

Definition feature_of (row : dict num) (c : string) : option (cell num) :=
  if String.eqb c "Sex_Male" then
    option_map (flag "male") (assoc_cell "Sex" row)
  else if String.eqb c "Diet_Healthy" then
    option_map (flag "healthy") (assoc_cell "Diet" row)
  else if String.eqb c "Diet_Unhealthy" then
    option_map (flag "unhealthy") (assoc_cell "Diet" row)
  else if Str.mem c dropped_names then None
  else
    match assoc_cell "Blood Pressure" row with
    | Some bp =>
        let parts := Str.split1 "/" (astype_str bp) in
        if String.eqb c "BP_Systolic" then
          Some (number (CStr (fst parts)))
        else if String.eqb c "BP_Diastolic" then
          Some (number (text_cell (snd parts)))
        else option_map number (assoc_cell c row)
    | None => option_map number (assoc_cell c row)
    end.

(** What [preprocess_health_data] leaves under a name when the table has
    the one row [row]: numbers stay, with NaN filled; text goes. *)
Definition numeric_only (c : cell num) : option (cell num) :=
  match c with
  | CStr _ | CNone => None
  | CNum _ | CNaN => Some (fillna0 c)
  end.

Definition training_feature_of (row : dict num) (c : string)
  : option (cell num) :=
  if Str.mem c identifiers then None
  else if String.eqb c "Blood Pressure" then None
  else
    match assoc_cell "Blood Pressure" row with
    | Some bp =>
        let parts := Str.split1 "/" (astype_str bp) in
        if String.eqb c "BP_Diastolic" then
          numeric_only (coerce (text_cell (snd parts)))
        else if String.eqb c "BP_Systolic" then
          numeric_only (coerce (CStr (fst parts)))
        else match assoc_cell c row with
             | Some v => numeric_only v
             | None => None
             end
    | None => match assoc_cell c row with
              | Some v => numeric_only v
              | None => None
              end
    end.

(** The names on which the two paths differ by construction. *)
Definition categorical_names : list string :=
  ["Sex"; "Diet"; "Sex_Male"; "Diet_Healthy"; "Diet_Unhealthy"].

(** The two features a pressure gives. *)
Definition diastolic (x : cell num) : cell num :=
  coerce (text_cell (snd (Str.split1 "/" (astype_str x)))).

Definition systolic (x : cell num) : cell num :=
  coerce (CStr (fst (Str.split1 "/" (astype_str x)))).

(** *** Rows of a table *)

(** Row [i] of a table as a record ([df.iloc[i].to_dict()]) and as a table
    of one row ([df.iloc[[i]]]). *)
Definition row_of (df : DataFrame num) (i : nat) : dict num :=
  map (fun cs => (fst cs, nth i (snd cs) CNaN)) (data df).

Definition frame_row (df : DataFrame num) (i : nat) : DataFrame num :=
  {| index := 1;
     data := map (fun cs => (fst cs, [nth i (snd cs) CNaN])) (data df) |}.

(** Every column has one cell per row. *)
Definition rectangular (df : DataFrame num) : Prop :=
  forall c s, df_get df c = Some s -> List.length s = index df.

(** A column holds the values [words], each of them at least once. *)
Definition ranges_over (s : series num) (words : list string) : Prop :=
  (forall c, In c s -> exists w, In w words /\ c = CStr w)
  /\ (forall w, In w words -> In (CStr w) s).

(** The table the training path is written for: "Sex" is Female or Male,
    "Diet" is Average, Healthy or Unhealthy, every pressure has its "/",
    and the other columns that are kept hold numbers. *)
Record training_table (df : DataFrame num) : Prop := {
  tt_columns : NoDup (columns df);
  tt_rectangular : rectangular df;
  tt_sex : exists sex, df_get df "Sex" = Some sex
                       /\ ranges_over sex ["Female"; "Male"];
  tt_diet : exists diet, df_get df "Diet" = Some diet
                         /\ ranges_over diet ["Average"; "Healthy"; "Unhealthy"];
  tt_pressure : forall bp c,
      df_get df "Blood Pressure" = Some bp -> In c bp ->
      Str.contains "/" (astype_str c) = true;
  tt_numbers : forall c s,
      df_get df c = Some s ->
      Str.mem c ("Sex" :: "Diet" :: "Blood Pressure" :: identifiers) = false ->
      is_object s = false;
  tt_fresh : forall c,
      In c ["Sex_Male"; "Diet_Healthy"; "Diet_Unhealthy"] ->
      ~ In c (columns df)
}.

End Features.
End Features.

(* ================================================================== *)
(** ** src/sagemaker/preprocess.py: the train/test split

    [.astype(int)] on a number and sklearn's [train_test_split] (with its
    [test_size], [random_state] and [stratify] arguments) are library code,
    taken as parameters. *)

Module Split.
Import Pandas Sagemaker.
Section Split.

Context {num : Type} {N : Numeric num}.

Variable astype_int : num -> num.
Variable train_test_split :
  DataFrame num -> Q -> nat -> series num -> DataFrame num * DataFrame num.

Definition target : string := "Heart Attack Risk".

(** [s.astype(int)]: numbers are cast; NaN, [None] and text that is no
    integer make the cast raise. *)
Fixpoint astype_int_series (s : series num) : result (series num) :=
  match s with
  | [] => Ok []
  | CNum n :: r =>
      rest <- astype_int_series r ;; Ok (CNum (astype_int n) :: rest)
  | c :: _ => Raise (ValueError (astype_str c))
  end.

(** [pd.concat([y, X], axis=1)] for a series [y] named [name] *)
Definition concat_first (name : string) (y : series num) (X : DataFrame num)
  : DataFrame num :=
  {| index := index X; data := (name, y) :: data X |}.

(** The table [prepare_train_test_split] hands to [train_test_split]:
    lines 59-64. *)
Definition final_df (df : DataFrame num)
  : result (DataFrame num * DataFrame num * series num) :=
  proc_df <- preprocess_health_data df ;;
  col <- getitem proc_df target ;;
  y <- astype_int_series col ;;
  let X := drop proc_df [target] in
  Ok (concat_first target y X, X, y).

(** [prepare_train_test_split(df, test_size, random_state)] *)
Definition prepare_train_test_split (df : DataFrame num) (test_size : Q)
    (random_state : nat)
  : result (DataFrame num * DataFrame num * DataFrame num * series num) :=
  prepared <- final_df df ;;
  let '(final, X, y) := prepared in
  let (train_df, test_df) := train_test_split final test_size random_state y in
  Ok (train_df, test_df, X, y).

End Split.
End Split.

(* ================================================================== *)
(** ** src/phase1_sim/gen_simulated_vitals.py

    The draws of [random], the clock and [round] are the runtime's: the
    [k]-th record takes the draws [randint (4k)] ... [randint (4k+3)] and
    [uniform k], in the order of the source. *)

Module Simulation.
Import EMR.

Definition patient_ids : list string :=
  ["BMW7812"; "CZE1114"; "BNI9906"; "JLN3497"; "GFO8847"; "ZOO7941";
   "WYV0966"; "XXM0972"; "XCQ5937"; "FTJ5456"; "HSD6283"; "YSP0073";
   "FPS0415"; "YYU9565"; "VTW9069"; "DCY3282"; "DXB2434"; "COP0566";
   "XBI0592"; "RQX1211"].

Record Runtime : Type := {
  randint : nat -> Z -> Z -> Z;     (* random.randint(a, b) *)
  uniform : nat -> Q -> Q -> Q;     (* random.uniform(a, b) *)
  time : nat -> Z;                  (* int(time.time()) *)
  round1 : Q -> Q                   (* round(x, 1) *)
}.

(** One entry of [records]: the vitals and the "Timestamp". *)
Record simulated : Type := {
  r_vitals : vitals;
  r_timestamp : Z
}.

Definition make_record (rt : Runtime) (k : nat) (pid : string) (i : nat)
  : simulated :=
  {| r_vitals :=
       {| v_patient := pid;
          v_heart_rate := randint rt (4 * k) 60 110;
          v_bp_systolic := Some (randint rt (4 * k + 1) 100 170);
          v_bp_diastolic := Some (randint rt (4 * k + 2) 60 120);
          v_sleep := round1 rt (uniform rt k (3 # 1) (9 # 1));
          v_activity := randint rt (4 * k + 3) 0 1 |};
     r_timestamp := (time rt k + Z.of_nat i)%Z |}.

(** [for pid in patient_ids: for i in range(7): records.append(...)] *)
Definition records (rt : Runtime) : list simulated :=
  flat_map (fun p => map (fun i => make_record rt (7 * fst p + i) (snd p) i)
                         (seq 0 7))
           (combine (seq 0 (List.length patient_ids)) patient_ids).

(** The rows the aggregation job reads from simulated_vitals.csv. *)
Definition simulated_vitals (rt : Runtime) : list vitals :=
  map r_vitals (records rt).

(** [random.randint(a, b)] answers within its bounds. *)
Definition fair (rt : Runtime) : Prop :=
  forall k a b, (a <= b)%Z -> (a <= randint rt k a b <= b)%Z.

End Simulation.

(* ================================================================== *)
(** ** What a run and a record show *)

Module Observations.
Import Pandas Lambda Handler.
Section Observations.

Context {num : Type} {N : Numeric num}.

(** The payloads sent to the endpoint, in order. *)
Definition invokes (t : list (event num)) : list string :=
  flat_map (fun ev => match ev with
                      | Invoke _ payload => [payload]
                      | _ => []
                      end) t.

(** Two records that agree on "Sex", "Diet", "Blood Pressure" and on the
    names of a feature list, the identifiers apart. *)
Definition same_fields (F : list string) (row row' : dict num) : Prop :=
  forall c,
    In c ["Sex"; "Diet"; "Blood Pressure"]
    \/ (In c F /\ Str.mem c identifiers = false) ->
    assoc_cell c row = assoc_cell c row'.

(** The names [load_feature_list] reads from the text of the object. *)
Definition names_of (lib : Library num) (text : string) : list string :=
  let features :=
    map (strip lib) (filter (fun f => nonempty (strip lib f))
                            (splitlines lib text)) in
  if Str.mem "Heart Attack Risk" features
  then remove_first "Heart Attack Risk" features
  else features.

(** The keys the handler chooses its table from. *)
Definition csv_files (aws : Cloud num) : list string :=
  filter (fun k => Str.endswith k ".csv")
         (list_objects aws Config.PROCESSED_PREFIX).



(** The accumulators before the first row. *)
Definition no_rows : tally num :=
  {| results := []; alerts := 0; alert_details := []; predictions := [] |}.

(** The answer of a run that got through its rows. *)
Definition summary (rows : nat) (acc : tally num) : response num :=
  {| statusCode := 200;
     response_body :=
       SummaryBody rows (alerts acc) (alert_details acc) (results acc) |}.

End Observations.
End Observations.

(* ================================================================== *)
(** * More runs of the handler *)

Module Runs.
Import Pandas Handler.

(** The bucket of [Samples.cloud] when [s3.put_object] fails. *)
Definition cloud_put_fails : Cloud Z :=
  {| objects := objects Samples.cloud;
     endpoint := endpoint Samples.cloud;
     put_fails := true;
     publish_error := fun _ => None;
     scored_at := scored_at Samples.cloud;
     stamp := stamp Samples.cloud |}.

(** A table whose second row has no "Sex" field. *)
Definition library_bad_row : Library Z :=
  {| splitlines := splitlines Samples.library;
     strip := strip Samples.library;
     DictReader := fun _ =>
       [Samples.patient;
        [("Age", CStr "21"); ("Diet", CStr "Average");
         ("Blood Pressure", CStr "118/76")]];
     fieldnames := fieldnames Samples.library;
     to_csv := to_csv Samples.library;
     float := float Samples.library;
     py_round := py_round Samples.library |}.

(** The readings of two entities: heart rates 60, 61 and 100, 101, 102;
    the second has no systolic pressure. *)
Definition two_entities : list EMR.vitals :=
  [{| EMR.v_patient := "BMW7812"; EMR.v_heart_rate := 60;
      EMR.v_bp_systolic := Some 130%Z; EMR.v_bp_diastolic := Some 85%Z;
      EMR.v_sleep := 7 # 1; EMR.v_activity := 1 |};
   {| EMR.v_patient := "CZE1114"; EMR.v_heart_rate := 100;
      EMR.v_bp_systolic := None; EMR.v_bp_diastolic := Some 80%Z;
      EMR.v_sleep := 6 # 1; EMR.v_activity := 0 |};
   {| EMR.v_patient := "BMW7812"; EMR.v_heart_rate := 61;
      EMR.v_bp_systolic := None; EMR.v_bp_diastolic := Some 86%Z;
      EMR.v_sleep := 7 # 1; EMR.v_activity := 1 |};
   {| EMR.v_patient := "CZE1114"; EMR.v_heart_rate := 101;
      EMR.v_bp_systolic := None; EMR.v_bp_diastolic := Some 80%Z;
      EMR.v_sleep := 6 # 1; EMR.v_activity := 0 |};
   {| EMR.v_patient := "CZE1114"; EMR.v_heart_rate := 102;
      EMR.v_bp_systolic := None; EMR.v_bp_diastolic := Some 80%Z;
      EMR.v_sleep := 6 # 1; EMR.v_activity := 1 |}].

(** A table that holds identifiers only. *)
Definition identifiers_only : DataFrame Z :=
  {| index := 2;
     data := [("Patient ID", [CStr "BMW7812"; CStr "CZE1114"]);
              ("Country", [CStr "Argentina"; CStr "Canada"])] |}.

End Runs.

(* ================================================================== *)
(** * Properties *)

Module SampleRuns.
Import Pandas Lambda Sagemaker Samples.

Example preprocess_row_patient :
  preprocess_row patient schema
  = Ok {| index := 1;
          data := [("Age", [CNum 67%Z]); ("BP_Systolic", [CNum 130%Z]);
                   ("BP_Diastolic", [CNum 85%Z]); ("Sex_Male", [CNum 1%Z]);
                   ("Diet_Healthy", [CNum 1%Z]);
                   ("Diet_Unhealthy", [CNum 0%Z])] |}.
Proof. reflexivity. Qed.

Example preprocess_health_data_patient :
  preprocess_health_data (DataFrame_of_row patient)
  = Ok {| index := 1;
          data := [("BP_Systolic", [CNum 130%Z]);
                   ("BP_Diastolic", [CNum 85%Z])] |}.
Proof. reflexivity. Qed.

Example preprocess_health_data_table :
  preprocess_health_data table
  = Ok {| index := 3;
          data := [("Age", [CNum 67%Z; CNum 21%Z; CNum 40%Z]);
                   ("BP_Systolic", [CNum 130%Z; CNum 120%Z; CNum 0%Z]);
                   ("BP_Diastolic", [CNum 85%Z; CNum 0%Z; CNum 70%Z]);
                   ("Sex_Male", [CNum 1%Z; CNum 0%Z; CNum 1%Z]);
                   ("Diet_Healthy", [CNum 1%Z; CNum 0%Z; CNum 0%Z]);
                   ("Diet_Unhealthy", [CNum 0%Z; CNum 0%Z; CNum 1%Z])] |}.
Proof. reflexivity. Qed.

Example preprocess_row_no_slash :
  preprocess_row no_slash schema = Raise (KeyErrorPos 1).
Proof. reflexivity. Qed.

End SampleRuns.

(* ================================================================== *)
(** ** Facts about frames *)

Module FrameFacts.
Import Pandas.
Section Facts.

Context {num : Type} {N : Numeric num}.

Lemma mem_In (x : string) (l : list string) :
  Str.mem x l = true <-> In x l.
Proof.
  unfold Str.mem. rewrite existsb_exists. split.
  - intros [y [Hy Heq]]. apply String.eqb_eq in Heq. now subst.
  - intros H. exists x. split; [assumption | apply String.eqb_refl].
Qed.

Lemma mem_false_In (x : string) (l : list string) :
  Str.mem x l = false <-> ~ In x l.
Proof.
  rewrite <- mem_In. destruct (Str.mem x l); split; congruence.
Qed.

Lemma mem_assoc (c : string) (l : list (string * series num)) :
  Str.mem c (map fst l) = match assoc c l with Some _ => true | None => false end.
Proof.
  induction l as [|[k s] l IH]; simpl; [reflexivity|].
  destruct (String.eqb c k); simpl; [reflexivity | exact IH].
Qed.

Lemma assoc_In (c : string) (l : list (string * series num)) :
  In c (map fst l) <-> assoc c l <> None.
Proof.
  rewrite <- mem_In, mem_assoc. destruct (assoc c l); split; congruence.
Qed.

Lemma assoc_assign_same (c : string) (s : series num) (l : list (string * series num)) :
  assoc c (assign c s l) = Some s.
Proof.
  induction l as [|[k s'] l IH]; simpl.
  - now rewrite String.eqb_refl.
  - destruct (String.eqb c k) eqn:E; simpl; rewrite E; [reflexivity | exact IH].
Qed.

Lemma assoc_assign_other (c c' : string) (s : series num) (l : list (string * series num)) :
  c <> c' -> assoc c (assign c' s l) = assoc c l.
Proof.
  intros Hne. apply String.eqb_neq in Hne.
  induction l as [|[k s'] l IH]; simpl.
  - now rewrite Hne.
  - destruct (String.eqb c' k) eqn:E; simpl.
    + apply String.eqb_eq in E. subst k. now rewrite Hne.
    + now rewrite IH.
Qed.

Lemma assoc_assign (c c' : string) (s : series num) (l : list (string * series num)) :
  assoc c (assign c' s l) = if String.eqb c c' then Some s else assoc c l.
Proof.
  destruct (String.eqb_spec c c') as [->|Hne].
  - apply assoc_assign_same.
  - now apply assoc_assign_other.
Qed.

Lemma columns_assign (c : string) (s : series num) (l : list (string * series num)) :
  map fst (assign c s l)
  = if Str.mem c (map fst l) then map fst l else (map fst l ++ [c])%list.
Proof.
  induction l as [|[k s'] l IH]; simpl; [reflexivity|].
  destruct (String.eqb c k); simpl; [reflexivity|].
  rewrite IH. now destruct (Str.mem c (map fst l)).
Qed.

Lemma assoc_drop (c : string) (cols : list string) (l : list (string * series num)) :
  assoc c (filter (fun cs => negb (Str.mem (fst cs) cols)) l)
  = if Str.mem c cols then None else assoc c l.
Proof.
  induction l as [|[k s] l IH]; simpl.
  - now destruct (Str.mem c cols).
  - destruct (Str.mem k cols) eqn:Ek; simpl.
    + destruct (String.eqb_spec c k) as [->|Hne].
      * rewrite IH, Ek. reflexivity.
      * exact IH.
    + destruct (String.eqb_spec c k) as [->|Hne].
      * now rewrite Ek.
      * exact IH.
Qed.

Lemma assoc_map_cells (f : cell num -> cell num) (c : string) (l : list (string * series num)) :
  assoc c (map (fun cs => (fst cs, map f (snd cs))) l)
  = option_map (map f) (assoc c l).
Proof.
  induction l as [|[k s] l IH]; simpl; [reflexivity|].
  destruct (String.eqb c k); [reflexivity | exact IH].
Qed.

Lemma df_get_setitem (df : DataFrame num) (c c' : string) (s : series num) :
  df_get (setitem df c' s) c = if String.eqb c c' then Some s else df_get df c.
Proof. apply assoc_assign. Qed.

Lemma df_get_drop (df : DataFrame num) (cols : list string) (c : string) :
  df_get (drop df cols) c = if Str.mem c cols then None else df_get df c.
Proof. apply assoc_drop. Qed.

Lemma df_get_map_cells (f : cell num -> cell num) (df : DataFrame num) (c : string) :
  df_get (map_cells f df) c = option_map (map f) (df_get df c).
Proof. apply assoc_map_cells. Qed.

Lemma has_column_get (df : DataFrame num) (c : string) :
  has_column df c = match df_get df c with Some _ => true | None => false end.
Proof. apply mem_assoc. Qed.

Lemma columns_get (df : DataFrame num) (c : string) :
  In c (columns df) <-> df_get df c <> None.
Proof. apply assoc_In. Qed.

(** [pd.DataFrame([row])] holds, under each key, the value the dict has. *)
Lemma assoc_fold_assign (row : dict num) (c : string) (l : list (string * series num)) :
  assoc c (fold_left (fun l kv => assign (fst kv) [snd kv] l) row l)
  = match assoc_cell c row with
    | Some v => Some [v]
    | None => assoc c l
    end.
Proof.
  revert l. induction row as [|[k v] row IH]; intros l; simpl; [reflexivity|].
  rewrite IH. destruct (assoc_cell c row); [reflexivity|].
  rewrite assoc_assign. simpl. now destruct (String.eqb c k).
Qed.

Lemma df_get_of_row (row : dict num) (c : string) :
  df_get (DataFrame_of_row row) c = option_map (fun v => [v]) (assoc_cell c row).
Proof.
  unfold df_get, DataFrame_of_row. simpl. rewrite assoc_fold_assign.
  now destruct (assoc_cell c row).
Qed.

Lemma assoc_cell_keys (row : dict num) (c : string) :
  In c (keys row) <-> assoc_cell c row <> None.
Proof.
  induction row as [|[k v] row IH]; simpl.
  - split; [tauto | congruence].
  - destruct (assoc_cell c row).
    + split; [congruence | intros _; right; apply IH; congruence].
    + destruct (String.eqb_spec c k) as [->|Hne].
      * split; [congruence | now left].
      * split; [|congruence]. intros [H|H]; [congruence|]. now apply IH in H.
Qed.

(** [df[cols]] succeeds when every name is a column. *)
Lemma pick_total (l : list (string * series num)) (cols : list string) :
  (forall c, In c cols -> assoc c l <> None) ->
  exists d, pick l cols = Ok d
            /\ map fst d = cols
            /\ forall c, In c cols -> assoc c d = assoc c l.
Proof.
  induction cols as [|c cols IH]; intros Hall.
  - exists []. simpl. repeat split. intros c [].
  - destruct IH as [d [Hd [Hfst Hget]]].
    { intros x Hx. apply Hall. now right. }
    simpl. destruct (assoc c l) as [s|] eqn:Ec.
    + rewrite Hd. simpl. exists ((c, s) :: d). repeat split.
      * simpl. now rewrite Hfst.
      * intros x Hx. simpl. destruct (String.eqb_spec x c) as [->|Hne].
        -- now rewrite Ec.
        -- destruct Hx as [Hx|Hx]; [congruence | now apply Hget].
    + exfalso. apply (Hall c); [now left | assumption].
Qed.

End Facts.
End FrameFacts.

(* ================================================================== *)
(** ** What [encode_row] computes *)

Module FeatureFacts.
Import Pandas Lambda Features FrameFacts.
Section Facts.

Context {num : Type} {N : Numeric num}.

Lemma split1_contains (sep : ascii) (s : string) :
  Str.contains sep s
  = match snd (Str.split1 sep s) with Some _ => true | None => false end.
Proof.
  induction s as [|c s IH]; simpl; [reflexivity|].
  destruct (Ascii.eqb c sep); simpl; [reflexivity|].
  rewrite IH. now destruct (Str.split1 sep s).
Qed.

(** The split of a frame of one row whose pressure is [bp]. *)
Lemma split_blood_pressure_present (df : DataFrame num) (bp : cell num) :
  df_get df "Blood Pressure" = Some [bp] ->
  split_blood_pressure df
  = match snd (Str.split1 "/" (astype_str bp)) with
    | Some r =>
        Ok (drop (setitem (setitem df "BP_Systolic"
                             [coerce (CStr (fst (Str.split1 "/" (astype_str bp))))])
                          "BP_Diastolic" [coerce (CStr r)])
                 ["Blood Pressure"])
    | None => Raise (KeyErrorPos 1)
    end.
Proof.
  intros Hbp. unfold split_blood_pressure, getitem.
  rewrite has_column_get, Hbp. simpl.
  unfold expand_col, split_expand, expand_width. simpl.
  destruct (Str.split1 "/" (astype_str bp)) as [l [r|]]; reflexivity.
Qed.

Lemma split_blood_pressure_absent (df : DataFrame num) :
  df_get df "Blood Pressure" = None -> split_blood_pressure df = Ok df.
Proof.
  intros Hbp. unfold split_blood_pressure. now rewrite has_column_get, Hbp.
Qed.

Lemma coerce_idem (c : cell num) : coerce (coerce c) = coerce c.
Proof.
  destruct c as [s|n| |]; simpl; try reflexivity.
  now destruct (to_numeric s).
Qed.

Lemma encode_categoricals_ok (df : DataFrame num) (sex diet : series num) :
  df_get df "Sex" = Some sex ->
  df_get df "Diet" = Some diet ->
  encode_categoricals df
  = Ok (drop (setitem (setitem (setitem df "Sex_Male" (indicator "male" sex))
                               "Diet_Healthy" (indicator "healthy" diet))
                      "Diet_Unhealthy" (indicator "unhealthy" diet))
             ["Sex"; "Diet"]).
Proof.
  intros Hsex Hdiet. unfold encode_categoricals, getitem.
  rewrite Hsex. simpl.
  rewrite df_get_setitem. simpl. rewrite Hdiet. simpl.
  rewrite !df_get_setitem. simpl. rewrite Hdiet. reflexivity.
Qed.

Lemma encode_categoricals_no_sex (df : DataFrame num) :
  df_get df "Sex" = None -> encode_categoricals df = Raise (KeyError "Sex").
Proof.
  intros Hsex. unfold encode_categoricals, getitem. now rewrite Hsex.
Qed.

Lemma encode_categoricals_no_diet (df : DataFrame num) (sex : series num) :
  df_get df "Sex" = Some sex ->
  df_get df "Diet" = None ->
  encode_categoricals df = Raise (KeyError "Diet").
Proof.
  intros Hsex Hdiet. unfold encode_categoricals, getitem.
  rewrite Hsex. simpl. rewrite df_get_setitem. simpl. now rewrite Hdiet.
Qed.

(** The frame that reaches the manual encoding: the row after the split
    of the pressure and the drop of the identifiers. *)
Lemma split_of_row (row : dict num) :
  bp_splits row = true ->
  exists df,
    split_blood_pressure (DataFrame_of_row row) = Ok df
    /\ index df = 1
    /\ forall c,
         df_get (drop df identifiers) c
         = if Str.mem c identifiers then None
           else if String.eqb c "Blood Pressure" then None
           else match assoc_cell "Blood Pressure" row with
                | Some bp =>
                    let parts := Str.split1 "/" (astype_str bp) in
                    if String.eqb c "BP_Diastolic" then
                      Some [coerce (text_cell (snd parts))]
                    else if String.eqb c "BP_Systolic" then
                      Some [coerce (CStr (fst parts))]
                    else option_map (fun v => [v]) (assoc_cell c row)
                | None => option_map (fun v => [v]) (assoc_cell c row)
                end.
Proof.
  unfold bp_splits. intros Hsplit.
  destruct (assoc_cell "Blood Pressure" row) as [bp|] eqn:Ebp.
  - rewrite split1_contains in Hsplit.
    rewrite (split_blood_pressure_present (DataFrame_of_row row) (bp := bp))
      by (now rewrite df_get_of_row, Ebp).
    destruct (snd (Str.split1 "/" (astype_str bp))) as [r|] eqn:Er;
      [|discriminate].
    eexists. split; [reflexivity|]. split; [reflexivity|].
    intros c. rewrite !df_get_drop, !df_get_setitem, df_get_of_row.
    destruct (Str.mem c identifiers); [reflexivity|].
    simpl. rewrite orb_false_r.
    destruct (String.eqb c "Blood Pressure"); reflexivity.
  - rewrite split_blood_pressure_absent
      by (now rewrite df_get_of_row, Ebp).
    eexists. split; [reflexivity|]. split; [reflexivity|].
    intros c. rewrite df_get_drop, df_get_of_row.
    destruct (Str.mem c identifiers); [reflexivity|].
    destruct (String.eqb_spec c "Blood Pressure") as [->|Hne];
      [now rewrite Ebp | reflexivity].
Qed.

Lemma encode_row_ok (row : dict num) (sex diet : cell num) :
  bp_splits row = true ->
  assoc_cell "Sex" row = Some sex ->
  assoc_cell "Diet" row = Some diet ->
  exists enc,
    encode_row row = Ok enc
    /\ index enc = 1
    /\ forall c, df_get enc c = option_map (fun v => [v]) (feature_of row c).
Proof.
  intros Hsplit Hsex Hdiet.
  destruct (split_of_row row Hsplit) as [df [Hdf [Hidx Hget]]].
  unfold encode_row. rewrite Hdf. simpl.
  assert (Hs : df_get (drop df identifiers) "Sex" = Some [sex]).
  { rewrite Hget. simpl. rewrite Hsex.
    now destruct (assoc_cell "Blood Pressure" row). }
  assert (Hd : df_get (drop df identifiers) "Diet" = Some [diet]).
  { rewrite Hget. simpl. rewrite Hdiet.
    now destruct (assoc_cell "Blood Pressure" row). }
  rewrite (encode_categoricals_ok _ Hs Hd). simpl.
  eexists. split; [reflexivity|]. split; [exact Hidx|].
  intros c. rewrite !df_get_map_cells, df_get_drop, !df_get_setitem, Hget.
  unfold feature_of, dropped_names, identifiers. rewrite Hsex, Hdiet.
  unfold Str.mem, flag, number. simpl existsb.
  repeat match goal with
         | |- context [String.eqb c ?lit] =>
             destruct (String.eqb_spec c lit) as [->|?]
         end;
    simpl;
    try match goal with
        | |- context [String.eqb (Str.lower ?t) ?w] =>
            destruct (String.eqb (Str.lower t) w)
        end;
    try reflexivity;
    destruct (assoc_cell "Blood Pressure" row) as [bp|]; simpl;
    rewrite ?coerce_idem;
    try reflexivity;
    try reflexivity;
    match goal with
    | |- context [to_numeric ?t] => destruct (to_numeric t)
    | |- context [assoc_cell ?x row] => destruct (assoc_cell x row)
    end; reflexivity.
Qed.

Lemma encode_row_no_slash (row : dict num) :
  bp_splits row = false -> encode_row row = Raise (KeyErrorPos 1).
Proof.
  unfold bp_splits. intros Hsplit.
  destruct (assoc_cell "Blood Pressure" row) as [bp|] eqn:Ebp; [|discriminate].
  rewrite split1_contains in Hsplit.
  unfold encode_row.
  rewrite (split_blood_pressure_present (DataFrame_of_row row) (bp := bp))
    by (now rewrite df_get_of_row, Ebp).
  now destruct (snd (Str.split1 "/" (astype_str bp))).
Qed.

Lemma encode_row_no_sex (row : dict num) :
  bp_splits row = true ->
  assoc_cell "Sex" row = None ->
  encode_row row = Raise (KeyError "Sex").
Proof.
  intros Hsplit Hsex.
  destruct (split_of_row row Hsplit) as [df [Hdf [_ Hget]]].
  unfold encode_row. rewrite Hdf. simpl.
  rewrite encode_categoricals_no_sex; [reflexivity|].
  rewrite Hget. simpl. rewrite Hsex.
  now destruct (assoc_cell "Blood Pressure" row).
Qed.

Lemma encode_row_no_diet (row : dict num) (sex : cell num) :
  bp_splits row = true ->
  assoc_cell "Sex" row = Some sex ->
  assoc_cell "Diet" row = None ->
  encode_row row = Raise (KeyError "Diet").
Proof.
  intros Hsplit Hsex Hdiet.
  destruct (split_of_row row Hsplit) as [df [Hdf [_ Hget]]].
  unfold encode_row. rewrite Hdf. simpl.
  rewrite encode_categoricals_no_diet with (sex := [sex]); [reflexivity| |].
  - rewrite Hget. simpl. rewrite Hsex.
    now destruct (assoc_cell "Blood Pressure" row).
  - rewrite Hget. simpl. rewrite Hdiet.
    now destruct (assoc_cell "Blood Pressure" row).
Qed.

(** *** The alignment *)

Lemma add_missing_index (F : list string) (df : DataFrame num) :
  index (fold_left add_missing F df) = index df.
Proof.
  revert df. induction F as [|f F IH]; intros df; simpl; [reflexivity|].
  rewrite IH. unfold add_missing. now destruct (has_column df f).
Qed.

Lemma add_missing_get (F : list string) (df : DataFrame num) (c : string) :
  df_get (fold_left add_missing F df) c
  = match df_get df c with
    | Some s => Some s
    | None => if Str.mem c F then Some (repeat (CNum zero) (index df)) else None
    end.
Proof.
  revert df. induction F as [|f F IH]; intros df; simpl.
  - now destruct (df_get df c).
  - rewrite IH. unfold add_missing at 1 2. rewrite has_column_get.
    destruct (df_get df f) as [s|] eqn:Ef.
    + destruct (df_get df c) eqn:Ec; [reflexivity|].
      destruct (String.eqb_spec c f) as [->|Hne]; [congruence | reflexivity].
    + simpl index. rewrite df_get_setitem.
      destruct (String.eqb_spec c f) as [->|Hne].
      * now rewrite Ef.
      * destruct (df_get df c); reflexivity.
Qed.

Lemma align_ok (df : DataFrame num) (F : list string) :
  exists out,
    align df F = Ok out
    /\ columns out = F
    /\ index out = index df
    /\ forall c, In c F ->
         df_get out c
         = match df_get df c with
           | Some s => Some s
           | None => Some (repeat (CNum zero) (index df))
           end.
Proof.
  unfold align, select.
  destruct (pick_total (data (fold_left add_missing F df)) F)
    as [d [Hd [Hcols Hget]]].
  { intros c Hc. fold (df_get (fold_left add_missing F df) c).
    rewrite add_missing_get. apply mem_In in Hc. rewrite Hc.
    destruct (df_get df c); congruence. }
  rewrite Hd. simpl. eexists. split; [reflexivity|].
  split; [exact Hcols|]. split; [apply add_missing_index|].
  intros c Hc. unfold df_get at 1. simpl. rewrite (Hget c Hc).
  fold (df_get (fold_left add_missing F df) c).
  rewrite add_missing_get. apply mem_In in Hc. now rewrite Hc.
Qed.

End Facts.
End FeatureFacts.

(* ================================================================== *)
(** ** The scoring-path preprocessor *)

Module PreprocessRow.
Import Pandas Lambda Features FrameFacts FeatureFacts Samples.

Lemma lookup_keys {num : Type} (row : dict num) (c : string) :
  In c (keys row) -> exists v, assoc_cell c row = Some v.
Proof.
  intros H. apply assoc_cell_keys in H.
  destruct (assoc_cell c row) as [v|]; [now exists v | congruence].
Qed.

Lemma lookup_no_key {num : Type} (row : dict num) (c : string) :
  ~ In c (keys row) -> assoc_cell c row = None.
Proof.
  intros H. destruct (assoc_cell c row) eqn:E; [|reflexivity].
  exfalso. apply H. apply assoc_cell_keys. congruence.
Qed.

Lemma split1_append (l r : string) :
  Str.contains "/" l = false ->
  Str.split1 "/" (l ++ "/" ++ r) = (l, Some r).
Proof.
  change ("/" ++ r) with (String "/" r).
  induction l as [|c l IH]; simpl; intros H; [reflexivity|].
  apply orb_false_iff in H. destruct H as [Hc Hl].
  rewrite Hc, (IH Hl). reflexivity.
Qed.

(** Which exception [preprocess_row] raises, or the frame it returns,
    by the shape of the record. *)
Lemma preprocess_row_cases {num : Type} {N : Numeric num}
    (row : dict num) (F : list string) :
  match bp_splits row, assoc_cell "Sex" row, assoc_cell "Diet" row with
  | false, _, _ => preprocess_row row F = Raise (KeyErrorPos 1)
  | true, None, _ => preprocess_row row F = Raise (KeyError "Sex")
  | true, Some _, None => preprocess_row row F = Raise (KeyError "Diet")
  | true, Some _, Some _ =>
      exists out,
        preprocess_row row F = Ok out
        /\ columns out = F
        /\ index out = 1
        /\ forall c, In c F ->
             df_get out c
             = Some [match feature_of row c with
                     | Some v => v
                     | None => CNum zero
                     end]
  end.
Proof.
  unfold preprocess_row.
  destruct (bp_splits row) eqn:Hsplit.
  - destruct (assoc_cell "Sex" row) as [sex|] eqn:Hsex.
    + destruct (assoc_cell "Diet" row) as [diet|] eqn:Hdiet.
      * destruct (encode_row_ok row Hsplit Hsex Hdiet) as [enc [Henc [Hidx Hget]]].
        rewrite Henc. simpl.
        destruct (align_ok enc F) as [out [Hout [Hcols [Hi Hval]]]].
        exists out. split; [exact Hout|]. split; [exact Hcols|].
        split; [congruence|].
        intros c Hc. rewrite (Hval c Hc), Hget, Hidx.
        now destruct (feature_of row c).
      * now rewrite (encode_row_no_diet row Hsplit Hsex Hdiet).
    + now rewrite (encode_row_no_sex row Hsplit Hsex).
  - now rewrite (encode_row_no_slash row Hsplit).
Qed.

(** C10.  [preprocess_row] needs the "Sex" and "Diet" fields: on a record
    that lacks either it raises (a KeyError, for the field or, earlier,
    for the missing half of a pressure) and returns no frame with the
    indicators at 0; a record that has both returns a frame whether or
    not it has the identifier columns, when it has no "Blood Pressure". *)
Theorem preprocess_row_requires_sex_and_diet :
  forall (num : Type) (N : Numeric num) (row : dict num) (F : list string),
    (~ In "Sex" (keys row) \/ ~ In "Diet" (keys row) ->
     preprocess_row row F = Raise (KeyError "Sex")
     \/ preprocess_row row F = Raise (KeyError "Diet")
     \/ preprocess_row row F = Raise (KeyErrorPos 1))
    /\ (In "Sex" (keys row) -> In "Diet" (keys row) ->
        ~ In "Blood Pressure" (keys row) ->
        exists out, preprocess_row row F = Ok out).
Proof.
  intros num N row F.
  pose proof (preprocess_row_cases row F) as Hcases.
  split.
  - intros Hmiss.
    destruct (bp_splits row); [|now right; right].
    destruct (assoc_cell "Sex" row) as [sex|] eqn:Hsex; [|now left].
    destruct (assoc_cell "Diet" row) as [diet|] eqn:Hdiet; [|now right; left].
    exfalso. destruct Hmiss as [H|H]; apply H; apply assoc_cell_keys; congruence.
  - intros Hsex Hdiet Hbp.
    destruct (lookup_keys row "Sex" Hsex) as [sex Es].
    destruct (lookup_keys row "Diet" Hdiet) as [diet Ed].
    assert (Hsplit : bp_splits row = true).
    { unfold bp_splits. now rewrite (lookup_no_key row "Blood Pressure" Hbp). }
    rewrite Hsplit, Es, Ed in Hcases.
    destruct Hcases as [out [Hout _]]. now exists out.
Qed.

Lemma preprocess_row_requires_sex_and_diet_witness :
  (preprocess_row [("Diet", CStr "Healthy"); ("Age", CStr "67")] schema
   = Raise (KeyError "Sex")
   \/ preprocess_row [("Diet", CStr "Healthy"); ("Age", CStr "67")] schema
      = Raise (KeyError "Diet")
   \/ preprocess_row [("Diet", CStr "Healthy"); ("Age", CStr "67")] schema
      = Raise (KeyErrorPos 1))
  /\ exists out,
       preprocess_row [("Sex", CStr "Male"); ("Diet", CStr "Healthy")] schema
       = Ok out.
Proof.
  split.
  - apply (proj1 (preprocess_row_requires_sex_and_diet Z_numeric
                    [("Diet", CStr "Healthy"); ("Age", CStr "67")] schema)).
    left. simpl. intros [H|[H|H]]; [discriminate H | discriminate H | exact H].
  - apply (proj2 (preprocess_row_requires_sex_and_diet Z_numeric
                    [("Sex", CStr "Male"); ("Diet", CStr "Healthy")] schema)).
    + simpl. now left.
    + simpl. now right; left.
    + simpl. intros [H|[H|H]]; [discriminate H | discriminate H | exact H].
Defined.

Lemma feature_of_number {num : Type} {N : Numeric num}
    (row : dict num) (c : string) (v : cell num) :
  feature_of row c = Some v -> exists n, v = CNum n.
Proof.
  assert (Hnum : forall x : cell num, exists n, number x = CNum n).
  { intros [t|n| |]; unfold number; simpl; eauto.
    destruct (to_numeric t); simpl; eauto. }
  assert (Hflag : forall w (x : cell num), exists n, flag w x = CNum n).
  { intros w x. unfold flag.
    destruct (String.eqb (Str.lower (astype_str x)) w); eauto. }
  assert (Hmap : forall (o : option (cell num)) f,
             (forall x, exists n, f x = CNum n) ->
             option_map f o = Some v -> exists n, v = CNum n).
  { intros [x|] f Hf; simpl; intros H; [|discriminate].
    injection H as <-. apply Hf. }
  unfold feature_of.
  repeat match goal with
         | |- context [if ?b then _ else _] => destruct b
         | |- context [match assoc_cell "Blood Pressure" row with _ => _ end] =>
             destruct (assoc_cell "Blood Pressure" row)
         end;
    try discriminate;
    try (apply Hmap; solve [apply Hflag | apply Hnum]);
    intros H; injection H as <-; apply Hnum.
Qed.

(** C2, counterexample.  On a record without "Sex" the preprocessor
    returns no feature vector at all. *)
Lemma preprocess_row_not_total :
  ~ (forall (row : dict Z) (F : list string),
        exists out, preprocess_row row F = Ok out /\ columns out = F).
Proof.
  intros H.
  destruct (H [("Age", CStr "67"); ("Blood Pressure", CStr "130/85")] schema)
    as [out [Hout _]].
  vm_compute in Hout. discriminate Hout.
Qed.

(** C2, amended.  For every record that has "Sex" and "Diet" and whose
    "Blood Pressure", when present, has a "/", and for every feature
    list, [preprocess_row] returns a one-row frame whose columns are the
    feature list, name for name and in its order; under each name it
    holds a number: the one the encoded record has under the name, and 0
    when the encoded record has no such column. *)
Theorem preprocess_row_aligned :
  forall (num : Type) (N : Numeric num) (row : dict num) (F : list string),
    In "Sex" (keys row) ->
    In "Diet" (keys row) ->
    bp_splits row = true ->
    exists enc out,
      encode_row row = Ok enc
      /\ preprocess_row row F = Ok out
      /\ columns out = F
      /\ index out = 1
      /\ (forall c, In c F ->
            df_get out c
            = match df_get enc c with
              | Some s => Some s
              | None => Some [CNum zero]
              end)
      /\ (forall c, In c F -> exists n, df_get out c = Some [CNum n]).
Proof.
  intros num N row F Hsex Hdiet Hsplit.
  destruct (lookup_keys row "Sex" Hsex) as [sex Es].
  destruct (lookup_keys row "Diet" Hdiet) as [diet Ed].
  destruct (encode_row_ok row Hsplit Es Ed) as [enc [Henc [Hidx Hget]]].
  destruct (align_ok enc F) as [out [Hout [Hcols [Hi Hval]]]].
  exists enc, out.
  split; [exact Henc|].
  split; [unfold preprocess_row; now rewrite Henc|].
  split; [exact Hcols|]. split; [congruence|]. split.
  - intros c Hc. rewrite (Hval c Hc), Hidx. reflexivity.
  - intros c Hc. rewrite (Hval c Hc), Hget, Hidx.
    destruct (feature_of row c) as [v|] eqn:Ef; simpl.
    + destruct (feature_of_number row c Ef) as [n ->]. now exists n.
    + now exists zero.
Qed.

Lemma preprocess_row_aligned_witness :
  exists out,
    preprocess_row patient ["Cholesterol"; "Sex_Male"; "Age"] = Ok out
    /\ columns out = ["Cholesterol"; "Sex_Male"; "Age"]
    /\ df_get out "Cholesterol" = Some [CNum 0%Z]
    /\ df_get out "Age" = Some [CNum 67%Z].
Proof.
  destruct (preprocess_row_aligned Z_numeric patient
              ["Cholesterol"; "Sex_Male"; "Age"])
    as [enc [out [Henc [Hout [Hcols [_ [Hval _]]]]]]].
  - simpl. now right; right; left.
  - simpl. now right; right; right; left.
  - reflexivity.
  - exists out. split; [exact Hout|]. split; [exact Hcols|].
    vm_compute in Henc. injection Henc as <-.
    split; (rewrite Hval; [reflexivity | simpl; tauto]).
Defined.

(** C3, counterexample.  A record whose "Blood Pressure" is "130/85"
    and that has no "Sex" gets no feature at all, and a feature list that
    names "Blood Pressure" and not the two pressures gets that column back,
    with 0 in it, and neither pressure. *)
Lemma pressure_alone_is_not_enough :
  ~ (forall (row : dict Z) (F : list string),
        assoc_cell "Blood Pressure" row = Some (CStr "130/85") ->
        exists out,
          preprocess_row row F = Ok out
          /\ df_get out "BP_Systolic" = Some [CNum 130%Z]
          /\ df_get out "BP_Diastolic" = Some [CNum 85%Z]
          /\ ~ In "Blood Pressure" (columns out))
  /\ preprocess_row [("Age", CStr "67"); ("Blood Pressure", CStr "130/85")]
       schema
     = Raise (KeyError "Sex")
  /\ exists out,
       preprocess_row patient ["Age"; "Blood Pressure"] = Ok out
       /\ df_get out "Blood Pressure" = Some [CNum 0%Z]
       /\ df_get out "BP_Systolic" = None
       /\ df_get out "BP_Diastolic" = None.
Proof.
  split; [|split; [reflexivity|]].
  - intros H.
    destruct (H [("Age", CStr "67"); ("Blood Pressure", CStr "130/85")]
                schema eq_refl) as [out [Hout _]].
    vm_compute in Hout. discriminate Hout.
  - eexists. split; [reflexivity|]. repeat split.
Qed.

(** C3, amended.  For a record that has "Sex" and "Diet" and whose
    "Blood Pressure" reads l/r, the text is split at its first "/": the
    vector holds the number l reads as under BP_Systolic and the number r
    reads as under BP_Diastolic (0 for a part that is no number) when the
    feature list names them, 130 and 85 for "130/85"; its columns are
    those of the feature list, so the original field is absent unless the
    list names it, and then it holds 0 and not the text. *)
Theorem blood_pressure_split :
  (forall (num : Type) (N : Numeric num) (row : dict num) (F : list string)
          (bp sex diet : cell num) (l r : string),
      assoc_cell "Blood Pressure" row = Some bp ->
      astype_str bp = l ++ "/" ++ r ->
      Str.contains "/" l = false ->
      assoc_cell "Sex" row = Some sex ->
      assoc_cell "Diet" row = Some diet ->
      exists out,
        preprocess_row row F = Ok out
        /\ columns out = F
        /\ (In "BP_Systolic" F ->
            df_get out "BP_Systolic"
            = Some [match to_numeric l with
                    | Some n => CNum n
                    | None => CNum zero
                    end])
        /\ (In "BP_Diastolic" F ->
            df_get out "BP_Diastolic"
            = Some [match to_numeric r with
                    | Some n => CNum n
                    | None => CNum zero
                    end])
        /\ (In "Blood Pressure" F ->
            df_get out "Blood Pressure" = Some [CNum zero])
        /\ (~ In "Blood Pressure" F -> df_get out "Blood Pressure" = None))
  /\ (forall (row : dict Z) (F : list string) (sex diet : cell Z),
         assoc_cell "Blood Pressure" row = Some (CStr "130/85") ->
         assoc_cell "Sex" row = Some sex ->
         assoc_cell "Diet" row = Some diet ->
         In "BP_Systolic" F ->
         In "BP_Diastolic" F ->
         ~ In "Blood Pressure" F ->
         exists out,
           preprocess_row row F = Ok out
           /\ df_get out "BP_Systolic" = Some [CNum 130%Z]
           /\ df_get out "BP_Diastolic" = Some [CNum 85%Z]
           /\ ~ In "Blood Pressure" (columns out)).
Proof.
  assert (General :
    forall (num : Type) (N : Numeric num) (row : dict num) (F : list string)
           (bp sex diet : cell num) (l r : string),
      assoc_cell "Blood Pressure" row = Some bp ->
      astype_str bp = l ++ "/" ++ r ->
      Str.contains "/" l = false ->
      assoc_cell "Sex" row = Some sex ->
      assoc_cell "Diet" row = Some diet ->
      exists out,
        preprocess_row row F = Ok out
        /\ columns out = F
        /\ (In "BP_Systolic" F ->
            df_get out "BP_Systolic"
            = Some [match to_numeric l with
                    | Some n => CNum n
                    | None => CNum zero
                    end])
        /\ (In "BP_Diastolic" F ->
            df_get out "BP_Diastolic"
            = Some [match to_numeric r with
                    | Some n => CNum n
                    | None => CNum zero
                    end])
        /\ (In "Blood Pressure" F ->
            df_get out "Blood Pressure" = Some [CNum zero])
        /\ (~ In "Blood Pressure" F -> df_get out "Blood Pressure" = None)).
  { intros num N row F bp sex diet l r Hbp Htext Hl Hsex Hdiet.
    pose proof (preprocess_row_cases row F) as Hcases.
    assert (Hsplit : bp_splits row = true).
    { unfold bp_splits. rewrite Hbp, Htext.
      rewrite FeatureFacts.split1_contains, (split1_append l r Hl).
      reflexivity. }
    rewrite Hsplit, Hsex, Hdiet in Hcases.
    destruct Hcases as [out [Hout [Hcols [_ Hval]]]].
    exists out. split; [exact Hout|]. split; [exact Hcols|].
    split; [|split; [|split]].
    - intros Hin. rewrite (Hval _ Hin). unfold feature_of. simpl.
      rewrite Hbp, Htext, (split1_append l r Hl). simpl.
      unfold number. simpl. now destruct (to_numeric l).
    - intros Hin. rewrite (Hval _ Hin). unfold feature_of. simpl.
      rewrite Hbp, Htext, (split1_append l r Hl). simpl.
      unfold number. simpl. now destruct (to_numeric r).
    - intros Hin. rewrite (Hval _ Hin). reflexivity.
    - intros Hno. destruct (df_get out "Blood Pressure") eqn:E;
        [|reflexivity].
      exfalso. apply Hno. rewrite <- Hcols. apply columns_get. congruence. }
  split; [exact General|].
  intros row F sex diet Hbp Hsex Hdiet Hs Hd Hno.
  destruct (General Z Z_numeric row F (CStr "130/85") sex diet "130" "85"
              Hbp eq_refl eq_refl Hsex Hdiet)
    as [out [Hout [Hcols [Hsys [Hdia _]]]]].
  exists out. split; [exact Hout|].
  split; [exact (Hsys Hs)|]. split; [exact (Hdia Hd)|].
  now rewrite Hcols.
Qed.

Lemma blood_pressure_split_witness :
  exists out,
    preprocess_row patient schema = Ok out
    /\ df_get out "BP_Systolic" = Some [CNum 130%Z]
    /\ df_get out "BP_Diastolic" = Some [CNum 85%Z]
    /\ ~ In "Blood Pressure" (columns out).
Proof.
  apply (proj2 blood_pressure_split patient schema (CStr "Male")
           (CStr "Healthy")); try reflexivity.
  - simpl. tauto.
  - simpl. tauto.
  - simpl. intuition discriminate.
Defined.

(** C4, the failing input.  A record whose "Blood Pressure" has no "/"
    makes [bp[1]] a KeyError: on the record [no_slash], and on every
    record with such a pressure, the preprocessor raises where the other
    unparsable values become 0. *)
Theorem pressure_without_separator_raises :
  preprocess_row no_slash schema = Raise (KeyErrorPos 1)
  /\ (forall (num : Type) (N : Numeric num) (row : dict num)
             (F : list string) (bp : cell num),
         assoc_cell "Blood Pressure" row = Some bp ->
         Str.contains "/" (astype_str bp) = false ->
         preprocess_row row F = Raise (KeyErrorPos 1)).
Proof.
  split; [reflexivity|].
  intros num N row F bp Hbp Htext.
  pose proof (preprocess_row_cases row F) as Hcases.
  unfold bp_splits in Hcases. rewrite Hbp, Htext in Hcases.
  exact Hcases.
Qed.

Lemma pressure_without_separator_raises_witness :
  preprocess_row [("Sex", CStr "Female"); ("Diet", CStr "Average");
                  ("Blood Pressure", CNone (num := Z))] schema
  = Raise (KeyErrorPos 1).
Proof.
  apply (proj2 pressure_without_separator_raises Z Z_numeric _ schema CNone);
    reflexivity.
Defined.

(** What does hold of unparsable values: text that is no number, left
    under a feature name or in either half of a pressure that has its
    "/", becomes 0. *)
Lemma unparsable_text_is_zero {num : Type} {N : Numeric num}
    (row : dict num) (F : list string) (out : DataFrame num)
    (c text : string) :
  preprocess_row row F = Ok out ->
  In c F ->
  Str.mem c ("Sex_Male" :: "Diet_Healthy" :: "Diet_Unhealthy"
             :: "BP_Systolic" :: "BP_Diastolic" :: dropped_names) = false ->
  assoc_cell c row = Some (CStr text) ->
  to_numeric text = None ->
  df_get out c = Some [CNum zero].
Proof.
  intros Hout Hc Hname Hcell Hparse.
  pose proof (preprocess_row_cases row F) as Hcases.
  rewrite Hout in Hcases.
  destruct (bp_splits row); [|discriminate].
  destruct (assoc_cell "Sex" row); [|discriminate].
  destruct (assoc_cell "Diet" row); [|discriminate].
  destruct Hcases as [out' [Heq [_ [_ Hval]]]].
  injection Heq as <-. rewrite (Hval c Hc).
  unfold feature_of.
  simpl in Hname. repeat (apply orb_false_iff in Hname;
                          destruct Hname as [? Hname]).
  repeat match goal with
         | H : String.eqb c _ = false |- _ => rewrite H; clear H
         end.
  unfold dropped_names, identifiers, Str.mem. simpl existsb.
  repeat match goal with
         | H : String.eqb c _ = false |- _ => rewrite H
         end.
  simpl. rewrite Hcell. unfold number. simpl. rewrite Hparse.
  now destruct (assoc_cell "Blood Pressure" row).
Qed.

End PreprocessRow.

(* ================================================================== *)
(** ** The training-path preprocessor on a table of one row *)

Module TrainingFacts.
Import Pandas Lambda Sagemaker Features FrameFacts FeatureFacts.
Section Facts.

Context {num : Type} {N : Numeric num}.

Lemma NoDup_assign (c : string) (s : series num) (l : list (string * series num)) :
  NoDup (map fst l) -> NoDup (map fst (assign c s l)).
Proof.
  intros Hnd. rewrite columns_assign.
  destruct (Str.mem c (map fst l)) eqn:E; [assumption|].
  apply mem_false_In in E.
  apply NoDup_app; [assumption | repeat constructor; intros [] |].
  intros x Hx [<-|[]]. contradiction.
Qed.

Lemma NoDup_filter_columns (P : string * series num -> bool) (l : list (string * series num)) :
  NoDup (map fst l) -> NoDup (map fst (filter P l)).
Proof.
  induction l as [|[k s] l IH]; simpl; intros Hnd; [constructor|].
  inversion Hnd as [|? ? Hk Hl]; subst.
  destruct (P (k, s)); simpl; [|now apply IH].
  constructor; [|now apply IH].
  intros Hin. apply Hk. apply in_map_iff in Hin.
  destruct Hin as [[k' s'] [Hfst Hin]]. simpl in Hfst. subst k'.
  apply filter_In in Hin. apply in_map_iff. exists (k, s'). tauto.
Qed.

Lemma NoDup_of_row (row : dict num) :
  NoDup (columns (DataFrame_of_row row)).
Proof.
  unfold columns, DataFrame_of_row. simpl.
  assert (H : forall l : list (string * series num), NoDup (map fst l) ->
              NoDup (map fst (fold_left (fun l kv => assign (fst kv) [snd kv] l) row l))).
  { induction row as [|kv row IH]; intros l Hl; simpl; [assumption|].
    apply IH. now apply NoDup_assign. }
  apply H. constructor.
Qed.

Lemma In_assoc (c : string) (s : series num) (l : list (string * series num)) :
  NoDup (map fst l) -> In (c, s) l -> assoc c l = Some s.
Proof.
  induction l as [|[k s'] l IH]; simpl; intros Hnd Hin; [contradiction|].
  inversion Hnd as [|? ? Hk Hl]; subst.
  destruct Hin as [Heq|Hin].
  - injection Heq as -> ->. now rewrite String.eqb_refl.
  - destruct (String.eqb_spec c k) as [->|Hne]; [|now apply IH].
    exfalso. apply Hk. apply in_map_iff. now exists (k, s).
Qed.

Lemma assoc_filter (P : series num -> bool) (c : string) (l : list (string * series num)) :
  NoDup (map fst l) ->
  assoc c (filter (fun cs => P (snd cs)) l)
  = match assoc c l with
    | Some s => if P s then Some s else None
    | None => None
    end.
Proof.
  induction l as [|[k s] l IH]; simpl; intros Hnd; [reflexivity|].
  inversion Hnd as [|? ? Hk Hl]; subst.
  destruct (String.eqb_spec c k) as [->|Hne].
  - destruct (P s); simpl; [now rewrite String.eqb_refl|].
    rewrite (IH Hl).
    destruct (assoc k l) as [s'|] eqn:E; [|reflexivity].
    exfalso. apply Hk. apply assoc_In. congruence.
  - destruct (P s); simpl; [|now apply IH].
    apply String.eqb_neq in Hne. rewrite Hne. now apply IH.
Qed.

Lemma dummies_of_one (col : string) (c : cell num) :
  dummies_of col [c] = [].
Proof.
  unfold dummies_of, categories. simpl.
  destruct (label c); reflexivity.
Qed.

(** With one row, every text column has one category, which
    [drop_first] drops: no indicator is made and the text columns go. *)
Lemma get_dummies_one_row (df : DataFrame num) (c : string) :
  NoDup (columns df) ->
  (forall k s, df_get df k = Some s -> exists v, s = [v]) ->
  df_get (with_dummies df) c
  = match df_get df c with
    | Some s => if is_object s then None else Some s
    | None => None
    end.
Proof.
  intros Hnd Hone. unfold df_get, with_dummies. simpl.
  assert (Hflat : flat_map (fun cs : string * series num =>
                              if is_object (snd cs)
                              then dummies_of (fst cs) (snd cs)
                              else []) (data df) = []).
  { assert (Hall : forall k s, In (k, s) (data df) -> exists v, s = [v]).
    { intros k s Hin. apply (Hone k). now apply In_assoc. }
    clear Hone Hnd. induction (data df) as [|[k s] l IH]; [reflexivity|].
    simpl. rewrite IH by (intros k' s' H; apply (Hall k'); now right).
    destruct (Hall k s) as [v ->]; [now left|].
    rewrite dummies_of_one. now destruct (is_object [v]). }
  rewrite Hflat, app_nil_r.
  rewrite (assoc_filter (fun s => negb (is_object s)) c (data df) Hnd).
  destruct (assoc c (data df)) as [s|]; [|reflexivity].
  now destruct (is_object s).
Qed.

Lemma split_of_row_NoDup (row : dict num) (df : DataFrame num) :
  split_blood_pressure (DataFrame_of_row row) = Ok df ->
  NoDup (columns (drop df identifiers)).
Proof.
  intros Hdf. unfold columns, drop. simpl.
  apply NoDup_filter_columns.
  pose proof (NoDup_of_row row) as Hrow.
  destruct (df_get (DataFrame_of_row row) "Blood Pressure") as [s|] eqn:Ebp.
  - rewrite df_get_of_row in Ebp.
    destruct (assoc_cell "Blood Pressure" row) as [bp|] eqn:E; [|discriminate].
    injection Ebp as <-.
    rewrite (split_blood_pressure_present (DataFrame_of_row row) (bp := bp))
      in Hdf by (now rewrite df_get_of_row, E).
    destruct (snd (Str.split1 "/" (astype_str bp))); [|discriminate].
    injection Hdf as <-. simpl.
    apply NoDup_filter_columns. now repeat apply NoDup_assign.
  - rewrite (split_blood_pressure_absent _ Ebp) in Hdf.
    injection Hdf as <-. exact Hrow.
Qed.

(** The steps of [preprocess_health_data]. *)
Lemma preprocess_health_data_steps (df : DataFrame num) :
  preprocess_health_data df
  = match split_blood_pressure df with
    | Ok df1 =>
        match data (drop df1 identifiers) with
        | [] => Raise (ValueError "No objects to concatenate")
        | _ => Ok (map_cells fillna0 (with_dummies (drop df1 identifiers)))
        end
    | Raise e => Raise e
    end.
Proof.
  unfold preprocess_health_data, get_dummies_drop_first.
  destruct (split_blood_pressure df) as [df1|e]; [|reflexivity].
  cbn [bind]. now destruct (data (drop df1 identifiers)).
Qed.

Lemma training_no_slash (row : dict num) :
  bp_splits row = false ->
  preprocess_health_data (DataFrame_of_row row) = Raise (KeyErrorPos 1).
Proof.
  unfold bp_splits. intros Hsplit.
  destruct (assoc_cell "Blood Pressure" row) as [bp|] eqn:Ebp; [|discriminate].
  rewrite split1_contains in Hsplit.
  rewrite preprocess_health_data_steps.
  rewrite (split_blood_pressure_present (DataFrame_of_row row) (bp := bp))
    by (now rewrite df_get_of_row, Ebp).
  now destruct (snd (Str.split1 "/" (astype_str bp))).
Qed.

Lemma training_one_row (row : dict num) (out : DataFrame num) :
  preprocess_health_data (DataFrame_of_row row) = Ok out ->
  index out = 1
  /\ forall c,
       df_get out c = option_map (fun v => [v]) (training_feature_of row c).
Proof.
  intros Hout.
  destruct (bp_splits row) eqn:Hsplit;
    [|rewrite (training_no_slash row Hsplit) in Hout; discriminate].
  destruct (split_of_row row Hsplit) as [df [Hdf [Hidx Hget]]].
  rewrite preprocess_health_data_steps, Hdf in Hout.
  destruct (data (drop df identifiers)); [discriminate|].
  injection Hout as <-.
  split; [exact Hidx|].
  intros c. rewrite df_get_map_cells, get_dummies_one_row.
  - rewrite Hget. unfold training_feature_of.
    destruct (Str.mem c identifiers); [reflexivity|].
    destruct (String.eqb c "Blood Pressure"); [reflexivity|].
    destruct (assoc_cell "Blood Pressure" row) as [bp|]; simpl.
    + destruct (String.eqb c "BP_Diastolic").
      { now destruct (coerce (text_cell (snd (Str.split1 "/" (astype_str bp))))). }
      destruct (String.eqb c "BP_Systolic").
      { now destruct (to_numeric (fst (Str.split1 "/" (astype_str bp)))). }
      now destruct (assoc_cell c row) as [[t|n| |]|].
    + now destruct (assoc_cell c row) as [[t|n| |]|].
  - exact (split_of_row_NoDup row Hdf).
  - intros k s. rewrite Hget.
    destruct (Str.mem k identifiers); [discriminate|].
    destruct (String.eqb k "Blood Pressure"); [discriminate|].
    destruct (assoc_cell "Blood Pressure" row) as [bp|]; simpl.
    + destruct (String.eqb k "BP_Diastolic"); [intros H; injection H as <-; eauto|].
      destruct (String.eqb k "BP_Systolic"); [intros H; injection H as <-; eauto|].
      destruct (assoc_cell k row); simpl; [|discriminate].
      intros H; injection H as <-; eauto.
    + destruct (assoc_cell k row); simpl; [|discriminate].
      intros H; injection H as <-; eauto.
Qed.

(** A number the training path keeps is the feature the scoring path
    computes, away from the categorical names. *)
Lemma training_feature_is_feature (row : dict num) (c : string) (v : cell num) :
  Str.mem c categorical_names = false ->
  training_feature_of row c = Some v ->
  feature_of row c = Some v.
Proof.
  unfold categorical_names, training_feature_of, feature_of, dropped_names,
    identifiers, Str.mem, number.
  simpl existsb. intros Hname.
  repeat (apply orb_false_iff in Hname; destruct Hname as [? Hname]).
  repeat match goal with
         | H : String.eqb c _ = false |- _ => rewrite H; clear H
         end.
  rewrite !orb_false_l.
  repeat match goal with
         | |- context [String.eqb c ?lit] =>
             destruct (String.eqb_spec c lit) as [->|?]
         end; simpl; try discriminate;
    destruct (assoc_cell "Blood Pressure" row) as [bp|]; simpl;
    try match goal with
        | |- context [assoc_cell ?x row] =>
            destruct (assoc_cell x row) as [[?|?| |]|]; simpl
        | |- context [to_numeric ?x] => destruct (to_numeric x); simpl
        | |- context [coerce ?x] => destruct (coerce x); simpl
        end;
    try discriminate; intros H; exact H.
Qed.

End Facts.
End TrainingFacts.

(* ================================================================== *)
(** ** The categories of a column *)

Module Categories.
Import Str Pandas Features.

Lemma before_lt (x y : string) : before x y <-> String_as_OT.lt x y.
Proof.
  unfold before, String.ltb. rewrite <- String_as_OT.cmp_lt.
  unfold String_as_OT.cmp. destruct (String.compare x y); split; congruence.
Qed.

Lemma before_trans (x y z : string) : before x y -> before y z -> before x z.
Proof.
  rewrite !before_lt. apply String_as_OT.lt_trans.
Qed.

Lemma before_irrefl (x : string) : ~ before x x.
Proof.
  rewrite before_lt. intros H. exact (@String_as_OT.lt_not_eq x x H eq_refl).
Qed.

Lemma not_leb_before (x y : string) : String.leb x y = false -> before y x.
Proof.
  unfold before, String.leb, String.ltb. rewrite (String.compare_antisym y x).
  destruct (String.compare x y); simpl; congruence.
Qed.

Lemma leb_before (x y : string) : String.leb x y = true -> x <> y -> before x y.
Proof.
  unfold before, String.leb, String.ltb.
  destruct (String.compare x y) eqn:E; try congruence.
  intros _ Hne. apply String.compare_eq_iff in E. contradiction.
Qed.

Lemma insert_sorted_In (x y : string) (l : list string) :
  In y (insert_sorted x l) <-> y = x \/ In y l.
Proof.
  induction l as [|a l IH]; simpl.
  - intuition.
  - destruct (String.leb x a); simpl; [intuition | rewrite IH; intuition].
Qed.

Lemma insert_sorted_sorted (x : string) (l : list string) :
  StronglySorted before l -> ~ In x l ->
  StronglySorted before (insert_sorted x l).
Proof.
  induction 1 as [|a l Hl IH Ha]; intros Hx; simpl.
  - repeat constructor.
  - destruct (String.leb x a) eqn:E.
    + assert (Hxa : before x a) by (apply leb_before; [assumption | intros ->; apply Hx; now left]).
      constructor; [now constructor|].
      constructor; [assumption|].
      rewrite Forall_forall in *. intros y Hy. eapply before_trans; eauto.
    + constructor.
      * apply IH. intros H. apply Hx. now right.
      * rewrite Forall_forall in *. intros y Hy.
        apply insert_sorted_In in Hy. destruct Hy as [->|Hy]; [|auto].
        now apply not_leb_before.
Qed.

Lemma sort_In (l : list string) (y : string) :
  In y (fold_right insert_sorted [] l) <-> In y l.
Proof.
  induction l as [|a l IH]; simpl; [tauto|].
  rewrite insert_sorted_In, IH. intuition.
Qed.

Lemma sort_sorted (l : list string) :
  NoDup l -> StronglySorted before (fold_right insert_sorted [] l).
Proof.
  induction 1 as [|a l Ha Hl IH]; simpl; [constructor|].
  apply insert_sorted_sorted; [assumption|]. now rewrite sort_In.
Qed.

Lemma sorted_unique (l1 l2 : list string) :
  StronglySorted before l1 -> StronglySorted before l2 ->
  (forall x, In x l1 <-> In x l2) -> l1 = l2.
Proof.
  intros H1. revert l2. induction H1 as [|a l1 Hl1 IH Ha]; intros l2 H2 Hsame.
  - destruct l2 as [|b l2]; [reflexivity|].
    exfalso. apply (Hsame b). now left.
  - destruct H2 as [|b l2 Hl2 Hb].
    + exfalso. apply (Hsame a). now left.
    + rewrite Forall_forall in Ha, Hb.
      assert (Hab : a = b).
      { destruct (proj1 (Hsame a) (or_introl eq_refl)) as [Heq|Hin]; [now symmetry|].
        destruct (proj2 (Hsame b) (or_introl eq_refl)) as [Heq|Hin']; [assumption|].
        exfalso. apply (@before_irrefl a).
        eapply before_trans; [apply Ha; exact Hin' | apply Hb; exact Hin]. }
      subst b. f_equal. apply IH; [assumption|].
      intros x. split; intros Hx.
      * destruct (proj1 (Hsame x) (or_intror Hx)) as [<-|Hin]; [|assumption].
        exfalso. exact (@before_irrefl a (Ha a Hx)).
      * destruct (proj2 (Hsame x) (or_intror Hx)) as [<-|Hin]; [|assumption].
        exfalso. exact (@before_irrefl a (Hb a Hx)).
Qed.

Section Cats.
Context {num : Type} {N : Numeric num}.

Lemma labels_In (s : series num) (w : string) :
  In w (labels s) <-> exists c, In c s /\ label c = Some w.
Proof.
  induction s as [|c s IH]; simpl.
  - split; [tauto | intros [c [[] _]]].
  - destruct (label c) as [v|] eqn:E; simpl; rewrite ?IH; split.
    + intros [<-|[c' [Hin Hl]]]; [exists c; auto | exists c'; auto].
    + intros [c' [[<-|Hin] Hl]]; [left; congruence | right; eauto].
    + intros [c' [Hin Hl]]. exists c'. auto.
    + intros [c' [[<-|Hin] Hl]]; [congruence | eauto].
Qed.

(** The categories of a column are its values, sorted: two columns with the
    same values have the same categories. *)
Lemma categories_same (s : series num) (words : list string) :
  StronglySorted before words ->
  (forall w, In w words <-> exists c, In c s /\ label c = Some w) ->
  categories s = words.
Proof.
  intros Hsorted Hsame. unfold categories.
  apply sorted_unique; [|assumption|].
  - apply sort_sorted, NoDup_nodup.
  - intros w. rewrite sort_In, nodup_In, labels_In. symmetry. apply Hsame.
Qed.

Lemma categories_ranges_over (s : series num) (words : list string) :
  StronglySorted before words ->
  ranges_over s words ->
  categories s = words.
Proof.
  intros Hsorted [Hin Hall]. apply categories_same; [assumption|].
  intros w. split.
  - intros Hw. exists (CStr w). split; [now apply Hall | reflexivity].
  - intros [c [Hc Hl]]. destruct (Hin c Hc) as [w' [Hw' ->]].
    simpl in Hl. now injection Hl as <-.
Qed.

End Cats.
End Categories.

(* ================================================================== *)
(** ** The training path on the table it is written for *)

Module TableFacts.
Import Str Pandas Lambda Sagemaker Features FrameFacts FeatureFacts TrainingFacts.
Import Categories.
Section Facts.

Context {num : Type} {N : Numeric num}.

Lemma pick_map (l : list (string * series num)) (v : string -> series num)
    (cols : list string) :
  (forall c, In c cols -> assoc c l = Some (v c)) ->
  pick l cols = Ok (map (fun c => (c, v c)) cols).
Proof.
  induction cols as [|c cols IH]; intros H; simpl; [reflexivity|].
  rewrite (H c) by now left.
  rewrite IH by (intros x Hx; apply H; now right). reflexivity.
Qed.

(** The alignment as a function of the encoded frame. *)
Lemma align_eq (df : DataFrame num) (F : list string) :
  align df F
  = Ok {| index := index df;
          data := map (fun c => (c, match df_get df c with
                                    | Some s => s
                                    | None => repeat (CNum zero) (index df)
                                    end)) F |}.
Proof.
  unfold align, select.
  rewrite (pick_map (data (fold_left add_missing F df))
             (fun c => match df_get df c with
                       | Some s => s
                       | None => repeat (CNum zero) (index df)
                       end)).
  - simpl. now rewrite add_missing_index.
  - intros c Hc. fold (df_get (fold_left add_missing F df) c).
    rewrite add_missing_get. apply mem_In in Hc. rewrite Hc.
    now destruct (df_get df c).
Qed.

Lemma row_of_get (df : DataFrame num) (i : nat) (c : string) :
  NoDup (columns df) ->
  assoc_cell c (row_of df i)
  = option_map (fun s => nth i s CNaN) (df_get df c).
Proof.
  unfold columns, row_of, df_get.
  induction (data df) as [|[k s] l IH]; simpl; intros Hnd; [reflexivity|].
  inversion Hnd as [|? ? Hk Hl]; subst.
  rewrite (IH Hl).
  destruct (String.eqb_spec c k) as [->|Hne].
  - destruct (assoc k l) eqn:E; [|reflexivity].
    exfalso. apply Hk. apply assoc_In. congruence.
  - now destruct (assoc c l).
Qed.

Lemma nth_map_in (f : cell num -> cell num) (s : series num) (i : nat) :
  i < List.length s -> nth i (map f s) CNaN = f (nth i s CNaN).
Proof.
  intros Hi. rewrite (nth_indep _ CNaN (f CNaN)) by now rewrite length_map.
  apply map_nth.
Qed.

Lemma is_object_nth (s : series num) (i : nat) :
  is_object s = false -> i < List.length s ->
  coerce (nth i s CNaN) = nth i s CNaN.
Proof.
  intros Hobj Hi.
  assert (Hin : In (nth i s CNaN) s) by now apply nth_In.
  unfold is_object in Hobj.
  destruct (nth i s CNaN) as [t|n| |] eqn:E; try reflexivity; exfalso;
    (assert (Hex : existsb (fun c : cell num => match c with
                                   | CStr _ | CNone => true
                                   | CNum _ | CNaN => false
                                   end) s = true)
       by (apply existsb_exists; eexists; split; [exact Hin | reflexivity]));
    congruence.
Qed.

Lemma is_object_coerce (s : series num) : is_object (map coerce s) = false.
Proof.
  unfold is_object. induction s as [|c s IH]; simpl; [reflexivity|].
  rewrite IH. destruct c as [t|n| |]; simpl; try reflexivity.
  now destruct (to_numeric t).
Qed.

Lemma ranges_over_object (s : series num) (w : string) (words : list string) :
  ranges_over s (w :: words) -> is_object s = true.
Proof.
  intros [_ Hall]. unfold is_object. apply existsb_exists.
  exists (CStr w). split; [apply Hall; now left | reflexivity].
Qed.

Lemma expand_width_two (bp : series num) :
  bp <> [] ->
  (forall c, In c bp -> Str.contains "/" (astype_str c) = true) ->
  expand_width (split_expand bp) = 2.
Proof.
  destruct bp as [|c bp]; [congruence|]. intros _ Hall.
  unfold expand_width, split_expand. simpl.
  rewrite <- split1_contains, (Hall c) by now left. reflexivity.
Qed.

Lemma index_positive (df : DataFrame num) :
  training_table df -> 0 < index df.
Proof.
  intros [_ Trect [sex [Hsex [_ Hall]]] _ _ _ _].
  rewrite <- (Trect _ _ Hsex).
  assert (Hin : In (CStr "Female") sex) by (apply Hall; now left).
  destruct sex; [contradiction | simpl; lia].
Qed.

(** The table that reaches the encoding of the categories. *)
Lemma split_table (df : DataFrame num) :
  training_table df ->
  exists df1,
    split_blood_pressure df = Ok df1
    /\ index df1 = index df
    /\ NoDup (columns (drop df1 identifiers))
    /\ forall c,
         df_get (drop df1 identifiers) c
         = if Str.mem c identifiers then None
           else match df_get df "Blood Pressure" with
                | Some bp =>
                    if String.eqb c "Blood Pressure" then None
                    else if String.eqb c "BP_Diastolic" then Some (map diastolic bp)
                    else if String.eqb c "BP_Systolic" then Some (map systolic bp)
                    else df_get df c
                | None => df_get df c
                end.
Proof.
  intros T. pose proof (index_positive T) as Hpos.
  destruct T as [Tcols Trect _ _ Tbp _ _].
  unfold split_blood_pressure, getitem. rewrite has_column_get.
  destruct (df_get df "Blood Pressure") as [bp|] eqn:Ebp.
  - assert (Hlen : List.length bp = index df) by exact (Trect _ _ Ebp).
    assert (Hwidth : expand_width (split_expand bp) = 2).
    { apply expand_width_two.
      - intros ->. simpl in Hlen. lia.
      - intros c Hc. exact (Tbp _ _ eq_refl Hc). }
    simpl. unfold expand_col. rewrite Hwidth. simpl.
    eexists. split; [reflexivity|]. split; [reflexivity|]. split.
    + unfold columns, drop. simpl.
      do 2 apply NoDup_filter_columns. do 2 apply NoDup_assign.
      exact Tcols.
    + intros c. rewrite !df_get_drop, !df_get_setitem.
      unfold split_expand. rewrite !map_map. simpl.
      rewrite !orb_false_r.
      repeat match goal with
             | |- context [if ?b then _ else _] => destruct b
             end; reflexivity.
  - exists df. split; [reflexivity|]. split; [reflexivity|]. split.
    + unfold columns, drop. simpl. apply NoDup_filter_columns.
      exact Tcols.
    + intros c. rewrite df_get_drop. reflexivity.
Qed.

Lemma row_cell (df : DataFrame num) (i : nat) (c : string) (s : series num) :
  training_table df ->
  df_get df c = Some s ->
  assoc_cell c (row_of df i) = Some (nth i s CNaN).
Proof.
  intros [Tcols _ _ _ _ _ _] Hc. now rewrite row_of_get, Hc.
Qed.

Lemma row_no_cell (df : DataFrame num) (i : nat) (c : string) :
  training_table df ->
  df_get df c = None ->
  assoc_cell c (row_of df i) = None.
Proof.
  intros [Tcols _ _ _ _ _ _] Hc. now rewrite row_of_get, Hc.
Qed.

Lemma fresh_name (df : DataFrame num) (c : string) (s : series num) :
  training_table df ->
  df_get df c = Some s ->
  String.eqb c "Sex_Male" = false
  /\ String.eqb c "Diet_Healthy" = false
  /\ String.eqb c "Diet_Unhealthy" = false.
Proof.
  intros [_ _ _ _ _ _ Tfresh] Hc.
  assert (Hin : In c (columns df)) by (apply columns_get; congruence).
  repeat split; apply String.eqb_neq; intros ->;
    (eapply Tfresh; [|exact Hin]); simpl; tauto.
Qed.

(** A column of numbers of the table keeps, in row [i], the feature the
    scoring path computes from that row. *)
Lemma kept_feature (df : DataFrame num) (i : nat) (c : string) (s : series num) :
  training_table df ->
  i < index df ->
  Str.mem c identifiers = false ->
  c <> "Blood Pressure" ->
  (df_get df "Blood Pressure" <> None -> c <> "BP_Diastolic" /\ c <> "BP_Systolic") ->
  df_get df c = Some s ->
  is_object s = false ->
  feature_of (row_of df i) c = Some (fillna0 (nth i s CNaN)).
Proof.
  intros T Hi Hids Hbp Hparts Hc Hobj.
  destruct (@fresh_name df c s T Hc) as [H1 [H2 H3]].
  assert (Hlen : List.length s = index df)
    by (destruct T as [_ Trect _ _ _ _ _]; exact (Trect _ _ Hc)).
  assert (Hsex : String.eqb c "Sex" = false).
  { apply String.eqb_neq. intros ->.
    destruct T as [_ _ [sex [Hs Hr]] _ _ _ _].
    rewrite Hs in Hc. injection Hc as <-.
    rewrite (@ranges_over_object _ _ _ Hr) in Hobj. discriminate. }
  assert (Hdiet : String.eqb c "Diet" = false).
  { apply String.eqb_neq. intros ->.
    destruct T as [_ _ _ [diet [Hd Hr]] _ _ _].
    rewrite Hd in Hc. injection Hc as <-.
    rewrite (@ranges_over_object _ _ _ Hr) in Hobj. discriminate. }
  apply String.eqb_neq in Hbp.
  unfold feature_of, dropped_names. rewrite H1, H2, H3.
  assert (Hdrop : Str.mem c ("Blood Pressure" :: "Sex" :: "Diet" :: identifiers)
                  = false).
  { change (String.eqb c "Blood Pressure"
            || (String.eqb c "Sex" || (String.eqb c "Diet" || Str.mem c identifiers))
            = false).
    now rewrite Hbp, Hsex, Hdiet, Hids. }
  rewrite Hdrop, (@row_cell df i c s T Hc).
  unfold number. simpl option_map.
  rewrite (@is_object_nth s i Hobj) by lia.
  destruct (df_get df "Blood Pressure") as [bp|] eqn:Ebp.
  - rewrite (@row_cell df i _ bp T Ebp).
    destruct Hparts as [Hd Hs]; [congruence|].
    apply String.eqb_neq in Hd, Hs. cbv zeta. now rewrite Hd, Hs.
  - now rewrite (@row_no_cell df i _ T Ebp).
Qed.

Lemma pressure_features (df : DataFrame num) (i : nat) (bp : series num) :
  training_table df ->
  i < index df ->
  df_get df "Blood Pressure" = Some bp ->
  feature_of (row_of df i) "BP_Diastolic"
  = Some (fillna0 (nth i (map diastolic bp) CNaN))
  /\ feature_of (row_of df i) "BP_Systolic"
     = Some (fillna0 (nth i (map systolic bp) CNaN)).
Proof.
  intros T Hi Hbp.
  assert (Hlen : List.length bp = index df)
    by (destruct T as [_ Trect _ _ _ _ _]; exact (Trect _ _ Hbp)).
  unfold feature_of. simpl. rewrite (@row_cell df i _ bp T Hbp).
  rewrite !nth_map_in by lia. split; reflexivity.
Qed.

Lemma vocabulary_sorted :
  StronglySorted before ["Female"; "Male"]
  /\ StronglySorted before ["Average"; "Healthy"; "Unhealthy"].
Proof.
  split; repeat constructor.
Qed.

Lemma sex_feature (df : DataFrame num) (i : nat) (sex : series num)
    (c : string) (s : series num) :
  training_table df ->
  i < index df ->
  df_get df "Sex" = Some sex ->
  In (c, s) (dummies_of "Sex" sex) ->
  feature_of (row_of df i) c = Some (fillna0 (nth i s CNaN)).
Proof.
  intros T Hi Hsex Hin.
  assert (Hlen : List.length sex = index df)
    by (destruct T as [_ Trect _ _ _ _ _]; exact (Trect _ _ Hsex)).
  assert (Hr : ranges_over sex ["Female"; "Male"]).
  { destruct T as [_ _ [sex' [Hs Hr]] _ _ _ _]. congruence. }
  unfold dummies_of in Hin.
  rewrite (categories_ranges_over (proj1 vocabulary_sorted) Hr) in Hin.
  destruct Hin as [Heq|[]]. injection Heq as <- <-.
  unfold feature_of. simpl. rewrite (@row_cell df i _ sex T Hsex).
  rewrite nth_map_in by lia. simpl.
  destruct Hr as [Hwords _].
  destruct (Hwords (nth i sex CNaN)) as [w [Hw ->]]; [apply nth_In; lia|].
  destruct Hw as [<-|[<-|[]]]; reflexivity.
Qed.

Lemma diet_feature (df : DataFrame num) (i : nat) (diet : series num)
    (c : string) (s : series num) :
  training_table df ->
  i < index df ->
  df_get df "Diet" = Some diet ->
  In (c, s) (dummies_of "Diet" diet) ->
  feature_of (row_of df i) c = Some (fillna0 (nth i s CNaN)).
Proof.
  intros T Hi Hdiet Hin.
  assert (Hlen : List.length diet = index df)
    by (destruct T as [_ Trect _ _ _ _ _]; exact (Trect _ _ Hdiet)).
  assert (Hr : ranges_over diet ["Average"; "Healthy"; "Unhealthy"]).
  { destruct T as [_ _ _ [diet' [Hd Hr]] _ _ _]. congruence. }
  unfold dummies_of in Hin.
  rewrite (categories_ranges_over (proj2 vocabulary_sorted) Hr) in Hin.
  destruct Hr as [Hwords _].
  destruct (Hwords (nth i diet CNaN)) as [w [Hw Hcell]]; [apply nth_In; lia|].
  destruct Hin as [Heq|[Heq|[]]]; injection Heq as <- <-;
    unfold feature_of; simpl; rewrite (@row_cell df i _ diet T Hdiet);
    rewrite nth_map_in by lia; rewrite Hcell;
    destruct Hw as [<-|[<-|[<-|[]]]]; reflexivity.
Qed.

Lemma is_object_coerced (f : cell num -> cell num) (s : series num) :
  is_object (map (fun x => coerce (f x)) s) = false.
Proof.
  rewrite <- (map_map f coerce). apply is_object_coerce.
Qed.

Lemma dummies_length (k c : string) (sk s : series num) :
  In (c, s) (dummies_of k sk) -> List.length s = List.length sk.
Proof.
  unfold dummies_of. rewrite in_map_iff. intros [v [Heq _]].
  injection Heq as _ <-. apply length_map.
Qed.

(** What a column of the table after the split and the drop is. *)
Lemma prepared_column (df df1 : DataFrame num) (k : string) (sk : series num) :
  training_table df ->
  split_blood_pressure df = Ok df1 ->
  df_get (drop df1 identifiers) k = Some sk ->
  List.length sk = index df
  /\ Str.mem k identifiers = false
  /\ k <> "Blood Pressure"
  /\ ((exists bp, df_get df "Blood Pressure" = Some bp
                  /\ ((k = "BP_Diastolic" /\ sk = map diastolic bp)
                      \/ (k = "BP_Systolic" /\ sk = map systolic bp)))
      \/ (df_get df k = Some sk
          /\ (df_get df "Blood Pressure" <> None ->
              k <> "BP_Diastolic" /\ k <> "BP_Systolic"))).
Proof.
  intros T Hsplit Hk.
  destruct (split_table T) as [df1' [Hsplit' [_ [_ G]]]].
  rewrite Hsplit in Hsplit'. injection Hsplit' as <-.
  rewrite G in Hk.
  destruct (Str.mem k identifiers); [discriminate|].
  assert (Trect : rectangular df) by (destruct T; assumption).
  destruct (df_get df "Blood Pressure") as [bp|] eqn:Ebp.
  - destruct (String.eqb_spec k "Blood Pressure") as [->|Hbp]; [discriminate|].
    destruct (String.eqb_spec k "BP_Diastolic") as [->|Hd].
    { injection Hk as <-. rewrite length_map, (Trect _ _ Ebp).
      repeat split; try assumption. left. exists bp. split; [reflexivity|].
      left. now split. }
    destruct (String.eqb_spec k "BP_Systolic") as [->|Hs].
    { injection Hk as <-. rewrite length_map, (Trect _ _ Ebp).
      repeat split; try assumption. left. exists bp. split; [reflexivity|].
      right. now split. }
    rewrite (Trect _ _ Hk). repeat split; try assumption.
    right. split; [assumption | now split].
  - rewrite (Trect _ _ Hk). repeat split.
    + intros ->. congruence.
    + right. split; [assumption|]. intros H. now contradiction H.
Qed.

(** Row by row, the table the training path returns holds the features
    the scoring path computes from the row. *)
Lemma trained_cells (df df1 : DataFrame num) (i : nat) (c : string)
    (s : series num) :
  training_table df ->
  i < index df ->
  split_blood_pressure df = Ok df1 ->
  In (c, s) (data (with_dummies (drop df1 identifiers))) ->
  feature_of (row_of df i) c = Some (fillna0 (nth i s CNaN))
  /\ i < List.length s.
Proof.
  intros T Hi Hsplit Hin.
  destruct (split_table T) as [df1' [Hsplit' [_ [Hnd _]]]].
  rewrite Hsplit in Hsplit'. injection Hsplit' as <-.
  unfold with_dummies in Hin. simpl data in Hin.
  apply in_app_or in Hin. destruct Hin as [Hin|Hin].
  - apply filter_In in Hin. destruct Hin as [Hin Hobj]. simpl in Hobj.
    apply negb_true_iff in Hobj.
    apply (In_assoc _ _ _ Hnd) in Hin.
    destruct (@prepared_column df df1 c s T Hsplit Hin)
      as [Hlen [Hids [Hbp [[bp [Ebp [[-> ->]|[-> ->]]]]|[Hc Hparts]]]]].
    + split; [|lia]. exact (proj1 (@pressure_features df i bp T Hi Ebp)).
    + split; [|lia]. exact (proj2 (@pressure_features df i bp T Hi Ebp)).
    + split; [|lia]. now apply kept_feature.
  - apply in_flat_map in Hin. destruct Hin as [[k sk] [Hk Hin]]. simpl in Hin.
    destruct (is_object sk) eqn:Hobj; [|contradiction].
    apply (In_assoc _ _ _ Hnd) in Hk.
    destruct (@prepared_column df df1 k sk T Hsplit Hk)
      as [Hlen [Hids [Hbp [[bp [Ebp [[-> ->]|[-> ->]]]]|[Hc Hparts]]]]].
    + unfold diastolic in Hobj. rewrite is_object_coerced in Hobj. discriminate.
    + unfold systolic in Hobj. rewrite is_object_coerced in Hobj. discriminate.
    + rewrite (@dummies_length k c sk s Hin), Hlen.
      destruct (String.eqb_spec k "Sex") as [->|Hsex].
      { split; [|lia]. exact (@sex_feature df i sk c s T Hi Hc Hin). }
      destruct (String.eqb_spec k "Diet") as [->|Hdiet].
      { split; [|lia]. exact (@diet_feature df i sk c s T Hi Hc Hin). }
      exfalso.
      assert (Hnum : is_object sk = false).
      { destruct T as [_ _ _ _ _ Tnum _]. apply (Tnum k sk Hc).
        apply String.eqb_neq in Hsex, Hdiet, Hbp.
        change (String.eqb k "Sex"
                || (String.eqb k "Diet"
                    || (String.eqb k "Blood Pressure" || Str.mem k identifiers))
                = false).
        now rewrite Hsex, Hdiet, Hbp, Hids. }
      congruence.
Qed.

Lemma row_splits (df : DataFrame num) (i : nat) :
  training_table df -> i < index df -> bp_splits (row_of df i) = true.
Proof.
  intros T Hi. unfold bp_splits.
  destruct (df_get df "Blood Pressure") as [bp|] eqn:Ebp.
  - rewrite (@row_cell df i _ bp T Ebp).
    destruct T as [_ Trect _ _ Tbp _ _].
    apply (Tbp bp _ Ebp). apply nth_In. rewrite (Trect _ _ Ebp). exact Hi.
  - now rewrite (@row_no_cell df i _ T Ebp).
Qed.

(** On the table it is written for, the training path encodes each row as
    the scoring path encodes it against the training columns. *)
Theorem training_rows_are_scored_rows (df : DataFrame num) (i : nat) :
  training_table df ->
  i < index df ->
  exists trained,
    preprocess_health_data df = Ok trained
    /\ preprocess_row (row_of df i) (columns trained)
       = Ok (frame_row trained i).
Proof.
  intros T Hi.
  destruct (split_table T) as [df1 [Hsplit [_ [_ G]]]].
  assert (Hsome : data (drop df1 identifiers) <> []).
  { intros E. pose proof (G "Sex") as Hs. unfold df_get at 1 in Hs.
    rewrite E in Hs. simpl in Hs.
    destruct T as [_ _ [sex [Hsex _]] _ _ _ _]. rewrite Hsex in Hs.
    destruct (df_get df "Blood Pressure"); discriminate. }
  rewrite preprocess_health_data_steps, Hsplit.
  destruct (data (drop df1 identifiers)) eqn:E; [now contradiction Hsome|].
  clear E Hsome G.
  eexists. split; [reflexivity|].
  assert (Hsex : exists sex, assoc_cell "Sex" (row_of df i) = Some sex).
  { destruct T as [Tcols Trect [sex [Hs Hr]] Tdiet Tbp Tnum Tfresh].
    exists (nth i sex CNaN). now rewrite row_of_get, Hs. }
  assert (Hdiet : exists diet, assoc_cell "Diet" (row_of df i) = Some diet).
  { destruct T as [Tcols Trect Tsex [diet [Hd Hr]] Tbp Tnum Tfresh].
    exists (nth i diet CNaN). now rewrite row_of_get, Hd. }
  destruct Hsex as [sex Hsex]. destruct Hdiet as [diet Hdiet].
  destruct (encode_row_ok (row_of df i) (row_splits T Hi) Hsex Hdiet)
    as [enc [Henc [Hidx Hget]]].
  unfold preprocess_row. rewrite Henc. simpl. rewrite align_eq.
  unfold frame_row, columns, map_cells. simpl. rewrite Hidx, !map_map.
  do 2 f_equal. apply map_ext_in. intros [c s] Hin. simpl.
  destruct (trained_cells c s T Hi Hsplit Hin) as [Hfeature Hlen].
  rewrite Hget, Hfeature. simpl. now rewrite nth_map_in.
Qed.

End Facts.

Import Samples.

Lemma history_table_fits : training_table history_table.
Proof.
  assert (Hcols : forall (c : string) (s : series Z),
             df_get history_table c = Some s ->
             In (c, s) (data history_table)).
  { intros c s H. unfold df_get in H. simpl in H.
    repeat match type of H with
           | (if String.eqb c ?k then _ else _) = _ =>
               destruct (String.eqb_spec c k) as [->|?];
               [injection H as <-; simpl; tauto|]
           end.
    discriminate H. }
  constructor.
  - repeat constructor; simpl; intuition discriminate.
  - intros c s H. apply Hcols in H. simpl in H.
    repeat (destruct H as [H|H]; [injection H as <- <-; reflexivity|]).
    contradiction.
  - eexists. split; [reflexivity|]. split.
    + intros c H. simpl in H.
      repeat (destruct H as [<-|H]; [eexists; split; [|reflexivity]; simpl; tauto|]).
      contradiction.
    + intros w H. simpl in H.
      repeat (destruct H as [<-|H]; [simpl; tauto|]). contradiction.
  - eexists. split; [reflexivity|]. split.
    + intros c H. simpl in H.
      repeat (destruct H as [<-|H]; [eexists; split; [|reflexivity]; simpl; tauto|]).
      contradiction.
    + intros w H. simpl in H.
      repeat (destruct H as [<-|H]; [simpl; tauto|]). contradiction.
  - intros bp c H Hin. injection H as <-. simpl in Hin.
    repeat (destruct Hin as [<-|Hin]; [reflexivity|]). contradiction.
  - intros c s H Hname. apply Hcols in H. simpl in H.
    repeat (destruct H as [H|H];
            [injection H as <- <-; first [reflexivity | discriminate Hname]|]).
    contradiction.
  - intros c Hc Hin. simpl in Hc, Hin.
    repeat (destruct Hc as [<-|Hc]; [intuition discriminate|]). contradiction.
Qed.

(** The third row of [history_table], through either path. *)
Example history_row_either_way :
  exists trained,
    preprocess_health_data history_table = Ok trained
    /\ columns trained
       = ["Age"; "Heart Attack Risk"; "BP_Systolic"; "BP_Diastolic";
          "Sex_Male"; "Diet_Healthy"; "Diet_Unhealthy"]
    /\ preprocess_row (row_of history_table 2) (columns trained)
       = Ok (frame_row trained 2)
    /\ data (frame_row trained 2)
       = [("Age", [CNum 40%Z]); ("Heart Attack Risk", [CNum 0%Z]);
          ("BP_Systolic", [CNum 0%Z]); ("BP_Diastolic", [CNum 70%Z]);
          ("Sex_Male", [CNum 1%Z]); ("Diet_Healthy", [CNum 0%Z]);
          ("Diet_Unhealthy", [CNum 1%Z])].
Proof.
  destruct (@training_rows_are_scored_rows Z Z_numeric history_table 2
              history_table_fits) as [trained [Htrained Hrow]].
  - simpl. lia.
  - exists trained. split; [exact Htrained|].
    vm_compute in Htrained. injection Htrained as Htrained.
    split; [now rewrite <- Htrained|].
    split; [exact Hrow|]. now rewrite <- Htrained.
Qed.

End TableFacts.

(* ================================================================== *)
(** ** Training path against scoring path *)

Module TrainingVersusScoring.
Import Pandas Lambda Sagemaker Features FrameFacts FeatureFacts.
Import PreprocessRow TrainingFacts TableFacts Samples.

(** C1, counterexample.  On the table made of the one row [patient] the
    training path returns the two pressures only: no "Sex_Male", no
    "Diet_Healthy", no "Age".  The scoring path returns them, before the
    alignment ([encode_row]) and after it. *)
Lemma paths_differ_on_one_row :
  preprocess_health_data (DataFrame_of_row patient)
  = Ok {| index := 1;
          data := [("BP_Systolic", [CNum 130%Z]);
                   ("BP_Diastolic", [CNum 85%Z])] |}
  /\ encode_row patient
     = Ok {| index := 1;
             data := [("Age", [CNum 67%Z]); ("BP_Systolic", [CNum 130%Z]);
                      ("BP_Diastolic", [CNum 85%Z]); ("Sex_Male", [CNum 1%Z]);
                      ("Diet_Healthy", [CNum 1%Z]);
                      ("Diet_Unhealthy", [CNum 0%Z])] |}
  /\ preprocess_row patient schema
     <> preprocess_health_data (DataFrame_of_row patient)
  /\ encode_row patient <> preprocess_health_data (DataFrame_of_row patient)
  /\ ~ (forall (row : dict Z) (F : list string),
           preprocess_row row F
           = preprocess_health_data (DataFrame_of_row row)).
Proof.
  split; [reflexivity|]. split; [reflexivity|].
  split; [vm_compute; discriminate|].
  split; [vm_compute; discriminate|].
  intros H. specialize (H patient schema). vm_compute in H. discriminate H.
Qed.

(** C1, amended.  The two paths are not one transformation.  They share
    the split of the pressure (with its KeyError on a single pressure that
    has no "/"), the drop of the identifiers and the fill with 0.  On a
    table of one row they agree on the numeric columns only: a column the
    training path returns, the categorical names apart, has the same value
    in the scoring path's frame when the feature list names it; the
    training path returns nothing for a field that holds text and makes no
    indicator, each of its columns being a pressure or a field of the
    record that holds a number or NaN.  On a table where "Sex" ranges over
    Female and Male, "Diet" over Average, Healthy and Unhealthy, every
    pressure has its "/" and the other kept columns hold numbers, they do
    agree: each row of the training path's table is what the scoring path
    returns for that row against the training columns. *)
Theorem where_the_paths_agree :
  forall (num : Type) (N : Numeric num),
    (forall (row : dict num) (F : list string),
        (bp_splits row = false ->
         preprocess_health_data (DataFrame_of_row row) = Raise (KeyErrorPos 1)
         /\ preprocess_row row F = Raise (KeyErrorPos 1))
        /\ (forall trained scored : DataFrame num,
               preprocess_health_data (DataFrame_of_row row) = Ok trained ->
               preprocess_row row F = Ok scored ->
               (forall c s,
                   In c F ->
                   Str.mem c categorical_names = false ->
                   df_get trained c = Some s ->
                   df_get scored c = Some s)
               /\ (forall c,
                      In c (columns trained) ->
                      (assoc_cell "Blood Pressure" row <> None
                       /\ (c = "BP_Systolic" \/ c = "BP_Diastolic"))
                      \/ (exists n, assoc_cell c row = Some (CNum n))
                      \/ assoc_cell c row = Some CNaN)))
    /\ (forall (df : DataFrame num) (i : nat),
           training_table df ->
           i < index df ->
           exists trained,
             preprocess_health_data df = Ok trained
             /\ preprocess_row (row_of df i) (columns trained)
                = Ok (frame_row trained i)).
Proof.
  intros num N. split; [|exact (@training_rows_are_scored_rows num N)].
  intros row F. split.
  { intros Hsplit. split; [exact (training_no_slash row Hsplit)|].
    pose proof (preprocess_row_cases row F) as Hcases.
    now rewrite Hsplit in Hcases. }
  intros trained scored Htrained Hscored.
  destruct (bp_splits row) eqn:Hsplit.
  2:{ rewrite (training_no_slash row Hsplit) in Htrained. discriminate. }
  destruct (training_one_row row Htrained) as [_ Hget].
  split.
  - intros c s Hc Hname Hs.
    pose proof (preprocess_row_cases row F) as Hcases.
    rewrite Hsplit, Hscored in Hcases.
    destruct (assoc_cell "Sex" row); [|discriminate].
    destruct (assoc_cell "Diet" row); [|discriminate].
    destruct Hcases as [out' [Heq [_ [_ Hval]]]].
    injection Heq as <-. rewrite (Hval c Hc).
    rewrite Hget in Hs.
    destruct (training_feature_of row c) as [v|] eqn:Ev; [|discriminate].
    rewrite (training_feature_is_feature row c Hname Ev).
    simpl in Hs. exact Hs.
  - intros c Hc. apply columns_get in Hc. rewrite Hget in Hc.
    unfold training_feature_of in Hc.
    destruct (Str.mem c identifiers); [now contradiction Hc|].
    destruct (String.eqb c "Blood Pressure"); [now contradiction Hc|].
    assert (Hfield :
              option_map (fun v : cell num => [v])
                match assoc_cell c row with
                | Some v => numeric_only v
                | None => None
                end <> None ->
              (exists n, assoc_cell c row = Some (CNum n))
              \/ assoc_cell c row = Some CNaN).
    { destruct (assoc_cell c row) as [[t|n| |]|]; simpl; intros H;
        try (now contradiction H); eauto. }
    destruct (assoc_cell "Blood Pressure" row) as [bp|] eqn:Ebp.
    + cbv zeta in Hc.
      destruct (String.eqb_spec c "BP_Diastolic") as [->|?].
      { left. split; [congruence | now right]. }
      destruct (String.eqb_spec c "BP_Systolic") as [->|?].
      { left. split; [congruence | now left]. }
      right. now apply Hfield.
    + right. now apply Hfield.
Qed.

Lemma where_the_paths_agree_witness :
  (preprocess_health_data (DataFrame_of_row no_slash) = Raise (KeyErrorPos 1)
   /\ preprocess_row no_slash schema = Raise (KeyErrorPos 1))
  /\ (exists trained scored,
         preprocess_health_data (DataFrame_of_row typed_patient) = Ok trained
         /\ preprocess_row typed_patient schema = Ok scored
         /\ df_get trained "Age" = Some [CNum 67%Z]
         /\ df_get scored "Age" = Some [CNum 67%Z])
  /\ (exists trained,
         preprocess_health_data history_table = Ok trained
         /\ preprocess_row (row_of history_table 2) (columns trained)
            = Ok (frame_row trained 2)).
Proof.
  destruct (where_the_paths_agree Z_numeric) as [Hrow Htable].
  split; [|split].
  - apply (proj1 (Hrow no_slash schema)). reflexivity.
  - eexists. eexists.
    split; [reflexivity|]. split; [reflexivity|]. split; [reflexivity|].
    eapply (proj1 (proj2 (Hrow typed_patient schema) _ _ eq_refl eq_refl)).
    + simpl. now left.
    + reflexivity.
    + reflexivity.
  - apply (Htable history_table 2 TableFacts.history_table_fits).
    simpl. lia.
Defined.

End TrainingVersusScoring.

(* ================================================================== *)
(** ** The aggregation job *)

Module Aggregation.
Import EMR Samples.

Lemma distinct_In (x : string) (l : list string) :
  In x (distinct l) <-> In x l.
Proof.
  induction l as [|y l IH]; simpl; [tauto|].
  rewrite filter_In, IH.
  destruct (String.eqb_spec y x) as [->|Hne]; simpl.
  - tauto.
  - split.
    + intros [H|[H _]]; [now left | now right].
    + intros [H|H]; [now left | right; now split].
Qed.

Lemma agg_patients (sim : list vitals) :
  map w_patient (agg sim) = distinct (map v_patient sim).
Proof.
  unfold agg. rewrite map_map. simpl. apply map_id.
Qed.

Lemma left_join_In (left : list weekly) (right : list history) (c : combined) :
  In c (left_join left right) -> In (c_weekly c) left.
Proof.
  unfold left_join. rewrite in_flat_map. intros [a [Ha Hc]].
  destruct (filter (fun h => String.eqb (h_patient h) (w_patient a)) right)
    as [|h matches].
  - destruct Hc as [<-|[]]. exact Ha.
  - apply in_map_iff in Hc. destruct Hc as [h' [<- _]]. exact Ha.
Qed.

Lemma left_join_keeps (left : list weekly) (right : list history) (a : weekly) :
  In a left -> exists c, In c (left_join left right) /\ c_weekly c = a.
Proof.
  intros Ha. unfold left_join.
  destruct (filter (fun h => String.eqb (h_patient h) (w_patient a)) right)
    as [|h matches] eqn:E.
  - exists {| c_weekly := a; c_history := None |}. split; [|reflexivity].
    apply in_flat_map. exists a. split; [exact Ha|]. rewrite E. now left.
  - exists {| c_weekly := a; c_history := Some (h_fields h) |}.
    split; [|reflexivity].
    apply in_flat_map. exists a. split; [exact Ha|]. rewrite E. now left.
Qed.

(** C5.  An entity of the historical table that the simulated-vitals
    table does not have is in no row of the combined table; the join is
    driven by the aggregated vitals, each of whose entities is kept. *)
Theorem historical_only_entity_absent :
  forall (sim : list vitals) (hist : list history) (pid : string),
    (In pid (map h_patient hist) ->
     ~ In pid (map v_patient sim) ->
     ~ In pid (map c_patient (final sim hist)))
    /\ (In pid (map v_patient sim) ->
        In pid (map c_patient (final sim hist))).
Proof.
  intros sim hist pid. split.
  - intros _ Hsim Hfinal. apply Hsim.
    apply in_map_iff in Hfinal. destruct Hfinal as [c [<- Hc]].
    apply left_join_In in Hc.
    apply distinct_In. rewrite <- agg_patients.
    apply in_map_iff. now exists (c_weekly c).
  - intros Hsim. apply distinct_In in Hsim. rewrite <- agg_patients in Hsim.
    apply in_map_iff in Hsim. destruct Hsim as [a [<- Ha]].
    destruct (left_join_keeps (agg sim) (hist_clean hist) a Ha) as [c [Hc <-]].
    apply in_map_iff. now exists c.
Qed.

Lemma historical_only_entity_absent_witness :
  ~ In "CZE1114" (map c_patient (final week archive))
  /\ In "BMW7812" (map c_patient (final week archive)).
Proof.
  split.
  - apply (proj1 (historical_only_entity_absent week archive "CZE1114")).
    + simpl. now right; left.
    + simpl. intros H.
      repeat (destruct H as [H|H]; [discriminate H|]). exact H.
  - apply (proj2 (historical_only_entity_absent week archive "BMW7812")).
    simpl. now left.
Defined.

Local Open Scope Q_scope.

Lemma half_up_near (x : Q) : Qabs (inject_Z (half_up x) - x) <= 1 # 2.
Proof.
  apply Qabs_Qle_condition. unfold half_up.
  destruct (Qle_bool 0 x).
  - pose proof (Qfloor_le (x + (1 # 2))) as Hle.
    pose proof (Qlt_floor (x + (1 # 2))) as Hlt.
    set (f := Qfloor (x + (1 # 2))) in *.
    rewrite inject_Z_plus in Hlt. change (inject_Z 1) with 1 in Hlt.
    split; lra.
  - pose proof (Qfloor_le (- x + (1 # 2))) as Hle.
    pose proof (Qlt_floor (- x + (1 # 2))) as Hlt.
    set (f := Qfloor (- x + (1 # 2))) in *.
    rewrite inject_Z_plus in Hlt. change (inject_Z 1) with 1 in Hlt.
    rewrite inject_Z_opp.
    split; lra.
Qed.

Lemma half_up_comp (x y : Q) : x == y -> half_up x = half_up y.
Proof.
  intros H. unfold half_up.
  assert (Hb : Qle_bool 0 x = Qle_bool 0 y) by (rewrite H; reflexivity).
  assert (Hp : Qfloor (x + (1 # 2)) = Qfloor (y + (1 # 2)))
    by (rewrite H; reflexivity).
  assert (Hn : Qfloor (- x + (1 # 2)) = Qfloor (- y + (1 # 2)))
    by (rewrite H; reflexivity).
  now rewrite Hb, Hp, Hn.
Qed.

Lemma round_0 (x : Q) : round x 0 == inject_Z (half_up x).
Proof.
  unfold round. change (inject_Z (10 ^ Z.of_nat 0)) with 1.
  rewrite (@half_up_comp (x * 1) x) by ring.
  field.
Qed.

End Aggregation.

(* ================================================================== *)
(** ** The handler *)

Module HandlerFacts.
Import Pandas Lambda Config Handler.
Section Facts.

Context {num : Type} {N : Numeric num}.
Variable lib : Library num.

Local Arguments firstn : simpl never.

Lemma fst_bindM {A B} (m : M num A) (k : A -> M num B) :
  fst (bindM m k)
  = (fst m ++ match snd m with
              | Ok a => fst (k a)
              | Raise _ => []
              end)%list.
Proof.
  destruct m as [t [a|e]]; simpl.
  - now destruct (k a).
  - now rewrite app_nil_r.
Qed.

Lemma snd_bindM {A B} (m : M num A) (k : A -> M num B) :
  snd (bindM m k)
  = match snd m with
    | Ok a => snd (k a)
    | Raise e => Raise e
    end.
Proof.
  destruct m as [t [a|e]]; simpl; [|reflexivity]. now destruct (k a).
Qed.


Lemma publishes_app (t t' : list (event num)) :
  publishes (t ++ t') = (publishes t ++ publishes t')%list.
Proof. apply flat_map_app. Qed.

Lemma puts_app (t t' : list (event num)) :
  puts (t ++ t') = (puts t ++ puts t')%list.
Proof. apply flat_map_app. Qed.

(** *** The scoring loop *)

Lemma tally_of_snoc (scored : list (scoring num)) (x : scoring num) :
  tally_of lib (scored ++ [x])
  = {| results := (results (tally_of lib scored) ++ [s_score x])%list;
       alerts := if flagged x then alerts (tally_of lib scored) + 1
                 else alerts (tally_of lib scored);
       alert_details :=
         if flagged x
         then (alert_details (tally_of lib scored) ++ [alert_of lib x])%list
         else alert_details (tally_of lib scored);
       predictions :=
         (predictions (tally_of lib scored) ++ [prediction_of lib x])%list |}.
Proof.
  unfold tally_of. simpl. rewrite !map_app, filter_app. simpl.
  destruct (flagged x); simpl.
  - now rewrite map_app, length_app.
  - now rewrite app_nil_r.
Qed.

Lemma score_row_spec (aws : Cloud num) (F : list string) (i : nat)
    (row : dict num) (scored : list (scoring num)) :
  publishes (fst (score_row lib aws F i row (tally_of lib scored))) = []
  /\ puts (fst (score_row lib aws F i row (tally_of lib scored))) = []
  /\ forall acc,
       snd (score_row lib aws F i row (tally_of lib scored)) = Ok acc ->
       acc = tally_of lib scored
       \/ exists x, acc = tally_of lib (scored ++ [x]).
Proof.
  unfold score_row.
  destruct (preprocess_row row F) as [df|e]; simpl;
    [|repeat split; discriminate].
  destruct (endpoint aws (to_csv lib df)) as [answer|]; simpl;
    [|repeat split; discriminate].
  destruct (nonempty (strip lib answer)); simpl;
    [|repeat split; intros acc H; injection H as <-; now left].
  destruct (float lib (strip lib answer)) as [score|]; simpl;
    [|repeat split; discriminate].
  set (x := {| s_patient := patient_of row i; s_score := score;
               s_scored_at := scored_at aws i |}).
  destruct (exceeds score ALERT_THRESHOLD) eqn:Hx; simpl;
    repeat split; intros acc H; injection H as <-; right; exists x;
    rewrite tally_of_snoc; unfold flagged; simpl; rewrite Hx; reflexivity.
Qed.

Lemma score_rows_spec (aws : Cloud num) (F : list string)
    (rows : list (dict num)) :
  forall (i : nat) (scored : list (scoring num)),
    publishes (fst (score_rows lib aws F i rows (tally_of lib scored))) = []
    /\ puts (fst (score_rows lib aws F i rows (tally_of lib scored))) = []
    /\ forall acc,
         snd (score_rows lib aws F i rows (tally_of lib scored)) = Ok acc ->
         exists more, acc = tally_of lib (scored ++ more).
Proof.
  induction rows as [|row rows IH]; intros i scored; simpl.
  - repeat split. intros acc H. injection H as <-. exists [].
    now rewrite app_nil_r.
  - destruct (score_row_spec aws F i row scored) as [Hpub [Hput Hacc]].
    rewrite fst_bindM, snd_bindM, publishes_app, puts_app, Hpub, Hput.
    destruct (snd (score_row lib aws F i row (tally_of lib scored)))
      as [acc1|e]; simpl; [|repeat split; discriminate].
    destruct (Hacc acc1 eq_refl) as [->|[x ->]].
    + apply IH.
    + destruct (IH (S i) (scored ++ [x])%list) as [Hp [Hq Hr]].
      repeat split; try assumption.
      intros acc H. destruct (Hr acc H) as [more ->].
      exists (x :: more). now rewrite <- app_assoc.
Qed.

(** *** Saving and notifying *)

Lemma save_predictions_spec (aws : Cloud num) (preds : list (prediction num)) :
  publishes (fst (save_predictions aws preds)) = []
  /\ forall u, snd (save_predictions aws preds) = Ok u ->
       puts (fst (save_predictions aws preds))
       = match preds with
         | [] => []
         | _ => [("predictions/heart_attack_predictions_" ++ stamp aws ++ ".csv",
                  preds)]
         end.
Proof.
  unfold save_predictions.
  destruct preds as [|p preds]; simpl; [now split|].
  destruct (put_fails aws); simpl; split; try reflexivity; discriminate.
Qed.

Lemma notify_spec (aws : Cloud num) (acc : tally num) :
  snd (notify aws acc) = Ok tt
  /\ puts (fst (notify aws acc)) = []
  /\ publishes (fst (notify aws acc))
     = (if (0 <? alerts acc)%nat
        then [(ALERT_TOPIC_ARN, "Heart Health Alert Triggered",
               notice_of (alerts acc) (alert_details acc))]
        else [])
  /\ ((0 < alerts acc)%nat ->
      forall text,
        publish_error aws (notice_of (alerts acc) (alert_details acc)) = Some text ->
        In (Print (LogSnsFailed text)) (fst (notify aws acc))).
Proof.
  unfold notify.
  destruct (0 <? alerts acc)%nat eqn:Hpos; simpl.
  - destruct (publish_error aws (notice_of (alerts acc) (alert_details acc)))
      as [text|]; simpl; repeat split; try reflexivity.
    + intros _ text' H. injection H as <-. right. now left.
    + discriminate.
  - repeat split. intros H. apply Nat.ltb_ge in Hpos. lia.
Qed.

(** A run that answers 200 went through the loop, the save and the
    notification; its accumulators are those of the rows it scored. *)
Lemma handler_run (aws : Cloud num) (t : list (event num)) (resp : response num) :
  lambda_handler lib aws = (t, Ok resp) ->
  (resp = {| statusCode := 404;
             response_body := ErrorBody "No CSV file found." |}
   /\ publishes t = [] /\ puts t = [])
  \/
  exists scored rows,
    resp = {| statusCode := 200;
              response_body :=
                SummaryBody rows (alerts (tally_of lib scored))
                            (alert_details (tally_of lib scored))
                            (results (tally_of lib scored)) |}
    /\ publishes t = publishes (fst (notify aws (tally_of lib scored)))
    /\ puts t
       = puts (fst (save_predictions aws (predictions (tally_of lib scored))))
    /\ snd (save_predictions aws (predictions (tally_of lib scored))) = Ok tt
    /\ forall ev, In ev (fst (notify aws (tally_of lib scored))) -> In ev t.
Proof.
  intros Hrun. unfold lambda_handler in Hrun.
  destruct (load_feature_list lib aws) as [t0 [F|e]] eqn:Hload; simpl in Hrun;
    [|discriminate].
  assert (Ht0 : publishes t0 = [] /\ puts t0 = []).
  { unfold load_feature_list, get_object in Hload.
    destruct (lookup FEATURE_LIST_KEY (objects aws)); simpl in Hload;
      [|discriminate].
    injection Hload as <- _; now split. }
  destruct Ht0 as [Hp0 Hq0].
  destruct (filter (fun k => Str.endswith k ".csv")
                   (list_objects aws PROCESSED_PREFIX)) as [|csv_key others];
    simpl in Hrun.
  { injection Hrun as <- <-. left. split; [reflexivity|].
    simpl. rewrite publishes_app, puts_app, Hp0, Hq0. now split. }
  right.
  unfold get_object in Hrun.
  destruct (lookup csv_key (objects aws)) as [text|]; simpl in Hrun;
    [|discriminate].
  destruct (fieldnames lib (splitlines lib text)) as [names|]; simpl in Hrun;
    [|discriminate].
  change {| results := []; alerts := 0; alert_details := [];
            predictions := [] |}
    with (tally_of lib []) in Hrun.
  destruct (score_rows_spec aws F
              (firstn MAX_ROWS_TO_PROCESS (DictReader lib (splitlines lib text)))
              0 []) as [Hp1 [Hq1 Hacc]].
  destruct (score_rows lib aws F 0
              (firstn MAX_ROWS_TO_PROCESS (DictReader lib (splitlines lib text)))
              (tally_of lib [])) as [t1 [acc|e]]; simpl in Hrun;
    [|discriminate].
  destruct (Hacc acc eq_refl) as [scored ->]. simpl app in *.
  simpl in Hp1, Hq1.
  destruct (save_predictions_spec aws (predictions (tally_of lib scored)))
    as [Hp2 _].
  destruct (save_predictions aws (predictions (tally_of lib scored)))
    as [t2 [[]|e]] eqn:Hsave; simpl in Hrun; [|discriminate].
  destruct (notify_spec aws (tally_of lib scored)) as [Hok [Hq3 _]].
  destruct (notify aws (tally_of lib scored)) as [t3 [[]|e]] eqn:Hnotify;
    simpl in Hrun; [|discriminate].
  injection Hrun as <- <-.
  exists scored, (List.length (DictReader lib (splitlines lib text))).
  rewrite Hsave, Hnotify.
  simpl fst in *. simpl snd in *.
  split; [reflexivity|].
  repeat (simpl publishes; simpl puts; rewrite ?publishes_app, ?puts_app).
  rewrite Hp0, Hq0, Hp1, Hq1, Hp2, Hq3. simpl.
  rewrite !app_nil_r.
  split; [reflexivity|]. split; [reflexivity|]. split; [reflexivity|].
  intros ev Hev. right. apply in_or_app. right.
  right. right. right. apply in_or_app. right. apply in_or_app. right.
  apply in_or_app. left. exact Hev.
Qed.

End Facts.
End HandlerFacts.

(* ================================================================== *)
(** ** The scoring handler: labels, missing inputs, notification *)

Module Scoring.
Import Pandas Lambda Config Handler HandlerFacts Samples.





Lemma filter_none {A : Type} (f : A -> bool) (l : list A) :
  (forall x, In x l -> f x = false) -> filter f l = [].
Proof.
  induction l as [|a l IH]; simpl; intros H; [reflexivity|].
  rewrite (H a) by now left. apply IH. intros x Hx. apply H. now right.
Qed.

(** C8.  When the feature list is in the bucket and no object under the
    processed prefix ends in ".csv", the handler returns the 404 response
    and raises nothing; when the feature list is not in the bucket the
    handler raises the store's not-found error at once: no default list,
    no listing, no scoring. *)
Theorem missing_inputs :
  forall (num : Type) (N : Numeric num) (lib : Library num) (aws : Cloud num),
    (forall text : string,
        lookup FEATURE_LIST_KEY (objects aws) = Some text ->
        (forall key, In key (map fst (objects aws)) ->
                     Str.startswith key PROCESSED_PREFIX = true ->
                     Str.endswith key ".csv" = false) ->
        snd (lambda_handler lib aws)
        = Ok {| statusCode := 404;
                response_body := ErrorBody "No CSV file found." |})
    /\ (lookup FEATURE_LIST_KEY (objects aws) = None ->
        lambda_handler lib aws
        = ([Print LogInvoked], Raise (NoSuchKey FEATURE_LIST_KEY))).
Proof.
  intros num N lib aws. split.
  - intros text Hlist Hnone.
    unfold lambda_handler, load_feature_list, get_object.
    rewrite Hlist.
    rewrite (@filter_none _ (fun k => Str.endswith k ".csv")
               (list_objects aws PROCESSED_PREFIX)).
    + reflexivity.
    + intros key Hkey. unfold list_objects in Hkey.
      apply filter_In in Hkey. destruct Hkey as [Hin Hpre].
      now apply Hnone.
  - intros Hlist.
    unfold lambda_handler, load_feature_list, get_object.
    now rewrite Hlist.
Qed.

Lemma missing_inputs_witness :
  snd (lambda_handler library cloud_without_table)
  = Ok {| statusCode := 404;
          response_body := ErrorBody "No CSV file found." |}
  /\ lambda_handler library cloud_without_features
     = ([Print LogInvoked], Raise (NoSuchKey FEATURE_LIST_KEY)).
Proof.
  split.
  - apply (proj1 (missing_inputs Z_numeric library cloud_without_table)
             "features").
    + reflexivity.
    + simpl. intros key [<-|[<-|[]]]; intros H; [discriminate H | reflexivity].
  - apply (proj2 (missing_inputs Z_numeric library cloud_without_features)).
    reflexivity.
Defined.



End Scoring.

(* ================================================================== *)
(** ** More on the scoring-path preprocessor *)

Module RowFacts.
Import Pandas Lambda Features FrameFacts FeatureFacts TableFacts Observations.
Import Samples.
Section Facts.

Context {num : Type} {N : Numeric num}.

(** The vector [preprocess_row] returns, name by name. *)
Lemma preprocess_row_closed (row : dict num) (F : list string)
    (sex diet : cell num) :
  bp_splits row = true ->
  assoc_cell "Sex" row = Some sex ->
  assoc_cell "Diet" row = Some diet ->
  preprocess_row row F
  = Ok {| index := 1;
          data := map (fun c => (c, [match feature_of row c with
                                     | Some v => v
                                     | None => CNum zero
                                     end])) F |}.
Proof.
  intros Hsplit Hsex Hdiet.
  destruct (encode_row_ok row Hsplit Hsex Hdiet) as [enc [Henc [Hidx Hget]]].
  unfold preprocess_row. rewrite Henc. simpl. rewrite align_eq, Hidx.
  do 2 f_equal. apply map_ext. intros c. rewrite Hget.
  now destruct (feature_of row c).
Qed.

Lemma preprocess_row_result (row : dict num) (F : list string) :
  preprocess_row row F
  = if bp_splits row then
      match assoc_cell "Sex" row, assoc_cell "Diet" row with
      | None, _ => Raise (KeyError "Sex")
      | Some _, None => Raise (KeyError "Diet")
      | Some _, Some _ =>
          Ok {| index := 1;
                data := map (fun c => (c, [match feature_of row c with
                                           | Some v => v
                                           | None => CNum zero
                                           end])) F |}
      end
    else Raise (KeyErrorPos 1).
Proof.
  unfold preprocess_row.
  destruct (bp_splits row) eqn:Hsplit.
  - destruct (assoc_cell "Sex" row) as [sex|] eqn:Hsex.
    + destruct (assoc_cell "Diet" row) as [diet|] eqn:Hdiet.
      * exact (@preprocess_row_closed row F sex diet Hsplit Hsex Hdiet).
      * now rewrite (encode_row_no_diet row Hsplit Hsex Hdiet).
    + now rewrite (encode_row_no_sex row Hsplit Hsex).
  - now rewrite (encode_row_no_slash row Hsplit).
Qed.

Lemma assoc_named (v : string -> series num) (F : list string) (c : string) :
  In c F -> assoc c (map (fun c => (c, v c)) F) = Some (v c).
Proof.
  induction F as [|f F IH]; simpl; [contradiction|].
  destruct (String.eqb_spec c f) as [->|Hne]; [reflexivity|].
  intros [H|H]; [congruence | now apply IH].
Qed.

(** The value of a returned vector under a name of the feature list. *)
Lemma vector_value (row : dict num) (F : list string) (out : DataFrame num)
    (c : string) :
  preprocess_row row F = Ok out ->
  In c F ->
  df_get out c = Some [match feature_of row c with
                       | Some v => v
                       | None => CNum zero
                       end].
Proof.
  rewrite preprocess_row_result. intros Hout Hc.
  destruct (bp_splits row); [|discriminate].
  destruct (assoc_cell "Sex" row); [|discriminate].
  destruct (assoc_cell "Diet" row); [|discriminate].
  injection Hout as <-. unfold df_get. simpl.
  now rewrite (assoc_named
                 (fun c => [match feature_of row c with
                            | Some v => v
                            | None => CNum zero
                            end]) F c Hc).
Qed.

Lemma feature_of_same (F : list string) (row row' : dict num) (c : string) :
  same_fields F row row' -> In c F -> feature_of row c = feature_of row' c.
Proof.
  intros Hsame Hc.
  assert (Hsex : assoc_cell "Sex" row = assoc_cell "Sex" row')
    by (apply Hsame; left; simpl; tauto).
  assert (Hdiet : assoc_cell "Diet" row = assoc_cell "Diet" row')
    by (apply Hsame; left; simpl; tauto).
  assert (Hbp : assoc_cell "Blood Pressure" row
                = assoc_cell "Blood Pressure" row')
    by (apply Hsame; left; simpl; tauto).
  unfold feature_of. rewrite Hsex, Hdiet, Hbp.
  destruct (Str.mem c dropped_names) eqn:Hdrop; [reflexivity|].
  assert (Hids : Str.mem c identifiers = false).
  { unfold dropped_names in Hdrop.
    change (String.eqb c "Blood Pressure"
            || (String.eqb c "Sex"
                || (String.eqb c "Diet" || Str.mem c identifiers)) = false)
      in Hdrop.
    do 3 (apply orb_false_iff in Hdrop; destruct Hdrop as [_ Hdrop]).
    exact Hdrop. }
  now rewrite (Hsame c (or_intror (conj Hc Hids))).
Qed.

(** X1.  The result of [preprocess_row] depends on the record only through
    "Sex", "Diet", "Blood Pressure" and the fields the feature list names,
    the identifiers apart: two records that agree there give the same
    vector, or raise the same error, whatever the order of their fields,
    their identifiers and their other fields. *)
Theorem fields_decide_the_vector :
  forall (row row' : dict num) (F : list string),
    same_fields F row row' ->
    preprocess_row row F = preprocess_row row' F.
Proof.
  intros row row' F Hsame.
  rewrite !preprocess_row_result. unfold bp_splits.
  rewrite <- (Hsame "Sex") by (left; simpl; tauto).
  rewrite <- (Hsame "Diet") by (left; simpl; tauto).
  rewrite <- (Hsame "Blood Pressure") by (left; simpl; tauto).
  destruct (assoc_cell "Sex" row) as [sex|], (assoc_cell "Diet" row) as [diet|];
    try reflexivity.
  match goal with |- (if ?b then _ else _) = _ => destruct b end;
    [|reflexivity].
  do 2 f_equal. apply map_ext_in. intros c Hc.
  now rewrite (@feature_of_same F row row' c Hsame Hc).
Qed.

(** X2.  The three indicators are read from "Sex" and "Diet" alone, without
    regard to case and whatever the record itself holds under their names:
    each is 1 when the lower-cased text is the word and 0 otherwise, and
    the two diet indicators are never both 1. *)
Theorem indicators_follow_sex_and_diet :
  forall (row : dict num) (F : list string) (out : DataFrame num)
         (sex diet : cell num),
    preprocess_row row F = Ok out ->
    assoc_cell "Sex" row = Some sex ->
    assoc_cell "Diet" row = Some diet ->
    (In "Sex_Male" F ->
     df_get out "Sex_Male"
     = Some [if String.eqb (Str.lower (astype_str sex)) "male"
             then CNum one else CNum zero])
    /\ (In "Diet_Healthy" F ->
        df_get out "Diet_Healthy"
        = Some [if String.eqb (Str.lower (astype_str diet)) "healthy"
                then CNum one else CNum zero])
    /\ (In "Diet_Unhealthy" F ->
        df_get out "Diet_Unhealthy"
        = Some [if String.eqb (Str.lower (astype_str diet)) "unhealthy"
                then CNum one else CNum zero])
    /\ (In "Diet_Healthy" F -> In "Diet_Unhealthy" F ->
        df_get out "Diet_Healthy" = Some [CNum zero]
        \/ df_get out "Diet_Unhealthy" = Some [CNum zero]).
Proof.
  intros row F out sex diet Hout Hsex Hdiet.
  assert (Hmale : In "Sex_Male" F ->
            df_get out "Sex_Male" = Some [flag "male" sex]).
  { intros H. rewrite (@vector_value row F out _ Hout H). unfold feature_of. simpl.
    now rewrite Hsex. }
  assert (Hh : In "Diet_Healthy" F ->
            df_get out "Diet_Healthy" = Some [flag "healthy" diet]).
  { intros H. rewrite (@vector_value row F out _ Hout H). unfold feature_of. simpl.
    now rewrite Hdiet. }
  assert (Hu : In "Diet_Unhealthy" F ->
            df_get out "Diet_Unhealthy" = Some [flag "unhealthy" diet]).
  { intros H. rewrite (@vector_value row F out _ Hout H). unfold feature_of. simpl.
    now rewrite Hdiet. }
  unfold flag in *. repeat split; try assumption.
  intros H1 H2. rewrite (Hh H1), (Hu H2).
  destruct (String.eqb_spec (Str.lower (astype_str diet)) "healthy") as [->|_];
    [right; reflexivity | left; reflexivity].
Qed.

(** X3.  A feature list that names a raw column the preprocessor drops
    ("Sex", "Diet", "Blood Pressure" or an identifier) gets 0 under it,
    whatever the record holds there. *)
Theorem dropped_names_are_zero :
  forall (row : dict num) (F : list string) (out : DataFrame num) (c : string),
    preprocess_row row F = Ok out ->
    In c F ->
    In c dropped_names ->
    df_get out c = Some [CNum zero].
Proof.
  intros row F out c Hout Hc Hdrop.
  rewrite (@vector_value row F out c Hout Hc).
  unfold dropped_names, identifiers in Hdrop. simpl in Hdrop.
  repeat (destruct Hdrop as [<-|Hdrop]; [reflexivity|]). contradiction.
Qed.

(** X4.  Under any other name of the feature list the vector holds the
    record's own value as a number: a number unchanged, numeric text
    parsed, and 0 for text that is no number, for [None], for NaN and for
    a field the record does not have. *)
Theorem ordinary_fields_are_coerced :
  forall (row : dict num) (F : list string) (out : DataFrame num) (c : string),
    preprocess_row row F = Ok out ->
    In c F ->
    Str.mem c ("Sex_Male" :: "Diet_Healthy" :: "Diet_Unhealthy"
               :: "BP_Systolic" :: "BP_Diastolic" :: dropped_names) = false ->
    df_get out c
    = Some [match assoc_cell c row with
            | Some (CNum n) => CNum n
            | Some (CStr text) =>
                match to_numeric text with
                | Some n => CNum n
                | None => CNum zero
                end
            | Some CNone | Some CNaN | None => CNum zero
            end].
Proof.
  intros row F out c Hout Hc Hname.
  rewrite (@vector_value row F out c Hout Hc). unfold feature_of.
  simpl in Hname.
  repeat (apply orb_false_iff in Hname; destruct Hname as [? Hname]).
  repeat match goal with
         | H : String.eqb c _ = false |- _ => rewrite H
         end.
  assert (Hdrop : Str.mem c dropped_names = false).
  { unfold dropped_names, identifiers. simpl.
    repeat match goal with
           | H : String.eqb c _ = false |- _ => rewrite H; clear H
           end.
    reflexivity. }
  rewrite Hdrop. unfold number.
  destruct (assoc_cell "Blood Pressure" row);
    destruct (assoc_cell c row) as [[text|n| |]|]; simpl; try reflexivity;
    destruct (to_numeric text); reflexivity.
Qed.

End Facts.

Lemma fields_decide_the_vector_witness :
  preprocess_row patient schema
  = preprocess_row [("Country", CStr "Chile"); ("Diet", CStr "Healthy");
                    ("Blood Pressure", CStr "130/85"); ("Income", CStr "1");
                    ("Sex", CStr "Male"); ("Age", CStr "67")] schema.
Proof.
  apply (@fields_decide_the_vector Z Z_numeric).
  intros c [H|[H Hid]].
  - simpl in H. repeat (destruct H as [<-|H]; [reflexivity|]). contradiction.
  - simpl in H. repeat (destruct H as [<-|H]; [reflexivity|]). contradiction.
Defined.

Lemma indicators_follow_sex_and_diet_witness :
  df_get {| index := 1;
            data := [("Sex_Male", [CNum 1%Z]); ("Diet_Healthy", [CNum 0%Z])] |}
         "Sex_Male"
  = Some [if String.eqb (Str.lower "MALE") "male" then CNum 1%Z else CNum 0%Z].
Proof.
  apply (proj1 (@indicators_follow_sex_and_diet Z Z_numeric
                  [("Sex", CStr "MALE"); ("Diet", CStr "average");
                   ("Sex_Male", CStr "0")]
                  ["Sex_Male"; "Diet_Healthy"] _ (CStr "MALE") (CStr "average")
                  eq_refl eq_refl eq_refl)).
  simpl. now left.
Defined.

Lemma dropped_names_are_zero_witness :
  df_get {| index := 1; data := [("Sex", [CNum 0%Z]); ("Age", [CNum 67%Z])] |}
         "Sex"
  = Some [CNum 0%Z].
Proof.
  apply (@dropped_names_are_zero Z Z_numeric patient ["Sex"; "Age"] _ "Sex"
           eq_refl).
  - simpl. now left.
  - simpl. tauto.
Defined.

Lemma ordinary_fields_are_coerced_witness :
  df_get {| index := 1;
            data := [("Age", [CNum 67%Z]); ("Country", [CNum 0%Z]);
                     ("Income", [CNum 0%Z])] |} "Income"
  = Some [CNum 0%Z].
Proof.
  apply (@ordinary_fields_are_coerced Z Z_numeric patient
           ["Age"; "Country"; "Income"] _ "Income" eq_refl).
  - simpl. tauto.
  - reflexivity.
Defined.

End RowFacts.

(* ================================================================== *)
(** ** The feature list loader *)

Module FeatureList.
Import Pandas Config Handler Samples.

Lemma remove_first_count (x y : string) (l : list string) :
  count_occ string_dec (remove_first x l) y
  = if string_dec x y
    then Nat.pred (count_occ string_dec l y)
    else count_occ string_dec l y.
Proof.
  induction l as [|a l IH]; simpl.
  - now destruct (string_dec x y).
  - destruct (String.eqb_spec x a) as [Hxa|Hne].
    + subst a. destruct (string_dec x y); reflexivity.
    + simpl. rewrite IH.
      destruct (string_dec a y) as [Hay|Hay];
        destruct (string_dec x y) as [Hxy|Hxy]; try reflexivity.
      congruence.
Qed.

Lemma remove_first_others (x : string) (l : list string) :
  filter (fun y => negb (String.eqb x y)) (remove_first x l)
  = filter (fun y => negb (String.eqb x y)) l.
Proof.
  induction l as [|a l IH]; simpl; [reflexivity|].
  destruct (String.eqb x a) eqn:E; simpl; [reflexivity|].
  now rewrite E, IH.
Qed.

Lemma remove_first_absent (x : string) (l : list string) :
  Str.mem x l = false -> remove_first x l = l.
Proof.
  induction l as [|a l IH]; simpl; [reflexivity|].
  destruct (String.eqb x a); simpl; [discriminate|].
  intros H. now rewrite IH.
Qed.

Lemma count_nonblank (l : list string) :
  count_occ string_dec (filter nonempty l) "Heart Attack Risk"
  = count_occ string_dec l "Heart Attack Risk".
Proof.
  induction l as [|a l IH]; [reflexivity|].
  cbn [filter].
  destruct (string_dec a "Heart Attack Risk") as [->|Hne].
  - change (nonempty "Heart Attack Risk") with true.
    rewrite !count_occ_cons_eq by reflexivity. now rewrite IH.
  - rewrite (count_occ_cons_neq string_dec l Hne).
    destruct (nonempty a); [|exact IH].
    now rewrite (count_occ_cons_neq string_dec _ Hne).
Qed.

(** X5.  When the feature-list object is in the bucket, [load_feature_list]
    prints nothing and returns the stripped non-blank lines in their order
    with the first "Heart Attack Risk" taken out: no name it returns is
    blank, the other names keep their order and their number, and the
    target stays in the list exactly when the object names it more than
    once. *)
Theorem load_feature_list_names :
  forall (num : Type) (lib : Library num) (aws : Cloud num) (text : string),
    lookup FEATURE_LIST_KEY (objects aws) = Some text ->
    exists features,
      load_feature_list lib aws = ([], Ok features)
      /\ Forall (fun f => f <> "") features
      /\ filter (fun f => negb (String.eqb "Heart Attack Risk" f)) features
         = filter (fun f => negb (String.eqb "Heart Attack Risk" f))
                  (filter nonempty (map (strip lib) (splitlines lib text)))
      /\ count_occ string_dec features "Heart Attack Risk"
         = Nat.pred (count_occ string_dec
                       (map (strip lib) (splitlines lib text))
                       "Heart Attack Risk").
Proof.
  intros num lib aws text Hobj.
  unfold load_feature_list, get_object. rewrite Hobj.
  cbv beta iota delta [bindM ret app].
  set (names := map (strip lib)
                    (filter (fun f => nonempty (strip lib f))
                            (splitlines lib text))).
  assert (Hnames : names = filter nonempty (map (strip lib) (splitlines lib text))).
  { unfold names. induction (splitlines lib text) as [|a l IH]; simpl;
      [reflexivity|].
    destruct (nonempty (strip lib a)); simpl; now rewrite IH. }
  assert (Hblank : Forall (fun f => f <> "") names).
  { rewrite Hnames. apply Forall_forall. intros f Hf.
    apply filter_In in Hf. destruct Hf as [_ Hf]. unfold nonempty in Hf.
    intros ->. discriminate. }
  assert (Hcount : count_occ string_dec names "Heart Attack Risk"
                   = count_occ string_dec
                       (map (strip lib) (splitlines lib text))
                       "Heart Attack Risk").
  { rewrite Hnames. apply count_nonblank. }
  eexists. split; [reflexivity|].
  destruct (Str.mem "Heart Attack Risk" names) eqn:Hmem.
  - split; [|split].
    + apply Forall_forall. intros f Hf.
      rewrite Forall_forall in Hblank. apply Hblank.
      assert (Hcnt : count_occ string_dec (remove_first "Heart Attack Risk" names) f > 0)
        by now apply count_occ_In.
      rewrite remove_first_count in Hcnt.
      apply (count_occ_In string_dec).
      destruct (string_dec "Heart Attack Risk" f); lia.
    + now rewrite remove_first_others, Hnames.
    + rewrite remove_first_count, Hcount.
      now destruct (string_dec "Heart Attack Risk" "Heart Attack Risk").
  - split; [exact Hblank|]. split; [now rewrite Hnames|].
    rewrite <- Hcount.
    assert (Hzero : count_occ string_dec names "Heart Attack Risk" = 0).
    { apply count_occ_not_In. intros Hin.
      apply FrameFacts.mem_In in Hin. congruence. }
    now rewrite Hzero.
Qed.

Lemma load_feature_list_names_witness :
  exists features,
    load_feature_list library cloud = ([], Ok features)
    /\ Forall (fun f => f <> "") features.
Proof.
  destruct (@load_feature_list_names Z library cloud "features" eq_refl)
    as [features [Hrun [Hblank _]]].
  now exists features.
Defined.

End FeatureList.

(* ================================================================== *)
(** ** More on the handler *)

Module RunFacts.
Import Pandas Lambda Config Handler HandlerFacts Observations Samples.
Section Facts.

Context {num : Type} {N : Numeric num}.
Variable lib : Library num.

Local Arguments firstn : simpl never.

(** A run, stage by stage. *)
Lemma lambda_handler_stages (aws : Cloud num) :
  lambda_handler lib aws
  = match lookup FEATURE_LIST_KEY (objects aws) with
    | None => ([Print LogInvoked], Raise (NoSuchKey FEATURE_LIST_KEY))
    | Some listing =>
        let F := names_of lib listing in
        let opening := [Print LogInvoked; Print (LogLoaded (List.length F))] in
        match csv_files aws with
        | [] =>
            (opening,
             Ok {| statusCode := 404;
                   response_body := ErrorBody "No CSV file found." |})
        | csv_key :: _ =>
            match lookup csv_key (objects aws) with
            | None =>
                ((opening ++ [Print (LogUsing csv_key)])%list,
                 Raise (NoSuchKey csv_key))
            | Some text =>
                let rows := DictReader lib (splitlines lib text) in
                match fieldnames lib (splitlines lib text) with
                | None =>
                    ((opening ++ [Print (LogUsing csv_key)])%list,
                     Raise TypeError)
                | Some names =>
                    let reading :=
                      (opening ++ [Print (LogUsing csv_key);
                                   Print (LogColumns names)])%list in
                    match score_rows lib aws F 0
                            (firstn MAX_ROWS_TO_PROCESS rows) no_rows with
                    | (scoring, Raise e) => ((reading ++ scoring)%list, Raise e)
                    | (scoring, Ok acc) =>
                        match save_predictions aws (predictions acc) with
                        | (saving, Raise e) =>
                            ((reading ++ scoring ++ saving)%list, Raise e)
                        | (saving, Ok _) =>
                            ((reading ++ scoring ++ saving
                              ++ fst (notify aws acc)
                              ++ [Print (LogProcessed (List.length rows)
                                                      (alerts acc))])%list,
                             Ok (summary (List.length rows) acc))
                        end
                    end
                end
            end
        end
    end.
Proof.
  unfold lambda_handler, load_feature_list, get_object, csv_files, names_of,
    summary, no_rows.
  destruct (lookup FEATURE_LIST_KEY (objects aws)) as [listing|];
    [|reflexivity].
  cbv zeta. simpl.
  destruct (filter (fun k => Str.endswith k ".csv")
                   (list_objects aws PROCESSED_PREFIX)) as [|csv_key others];
    [reflexivity|].
  destruct (lookup csv_key (objects aws)) as [text|]; [|reflexivity].
  simpl.
  destruct (fieldnames lib (splitlines lib text)) as [names|]; [|reflexivity].
  simpl.
  destruct (score_rows lib aws _ 0 _ _) as [scoring [acc|e]]; [|reflexivity].
  simpl.
  destruct (save_predictions aws (predictions acc)) as [saving [[]|e]];
    [|rewrite <- ?app_assoc; reflexivity].
  simpl.
  destruct (notify_spec aws acc) as [Hok _].
  destruct (notify aws acc) as [notifying [[]|e]]; [|discriminate Hok].
  simpl. rewrite <- ?app_assoc. reflexivity.
Qed.

Lemma invokes_app (t t' : list (event num)) :
  invokes (t ++ t') = (invokes t ++ invokes t')%list.
Proof. apply flat_map_app. Qed.

Lemma invokes_print (l : line) (t : list (event num)) :
  invokes (Print l :: t) = invokes t.
Proof. reflexivity. Qed.

Lemma publishes_print (l : line) (t : list (event num)) :
  publishes (Print l :: t) = publishes t.
Proof. reflexivity. Qed.

Lemma puts_print (l : line) (t : list (event num)) :
  puts (Print l :: t) = puts t.
Proof. reflexivity. Qed.

Lemma score_row_counts (aws : Cloud num) (F : list string) (i : nat)
    (row : dict num) (scored : list (scoring num)) :
  List.length (invokes (fst (score_row lib aws F i row (tally_of lib scored)))) <= 1
  /\ forall acc,
       snd (score_row lib aws F i row (tally_of lib scored)) = Ok acc ->
       exists more,
         acc = tally_of lib (scored ++ more)
         /\ List.length more
            <= List.length
                 (invokes (fst (score_row lib aws F i row (tally_of lib scored)))).
Proof.
  unfold score_row.
  destruct (preprocess_row row F) as [df|e]; simpl;
    [|split; [lia | discriminate]].
  destruct (endpoint aws (to_csv lib df)) as [answer|]; simpl;
    [|split; [lia | discriminate]].
  destruct (nonempty (strip lib answer)); simpl.
  2:{ split; [lia|]. intros acc H. injection H as <-. exists [].
      split; [now rewrite app_nil_r | simpl; lia]. }
  destruct (float lib (strip lib answer)) as [score|]; simpl;
    [|split; [lia | discriminate]].
  set (x := {| s_patient := patient_of row i; s_score := score;
               s_scored_at := scored_at aws i |}).
  destruct (exceeds score ALERT_THRESHOLD) eqn:Hx; simpl;
    (split; [lia|]); intros acc H; injection H as <-; exists [x];
    (split; [|simpl; lia]);
    rewrite tally_of_snoc; unfold flagged; simpl; rewrite Hx; reflexivity.
Qed.

Lemma score_rows_counts (aws : Cloud num) (F : list string)
    (rows : list (dict num)) :
  forall (i : nat) (scored : list (scoring num)),
    List.length (invokes (fst (score_rows lib aws F i rows (tally_of lib scored))))
    <= List.length rows
    /\ forall acc,
         snd (score_rows lib aws F i rows (tally_of lib scored)) = Ok acc ->
         exists more,
           acc = tally_of lib (scored ++ more)
           /\ List.length more
              <= List.length
                   (invokes (fst (score_rows lib aws F i rows
                                    (tally_of lib scored)))).
Proof.
  induction rows as [|row rows IH]; intros i scored; simpl.
  - split; [lia|]. intros acc H. injection H as <-. exists [].
    split; [now rewrite app_nil_r | simpl; lia].
  - destruct (score_row_counts aws F i row scored) as [Hone Hacc].
    rewrite fst_bindM, snd_bindM, invokes_app, length_app.
    destruct (snd (score_row lib aws F i row (tally_of lib scored)))
      as [acc1|e]; simpl; [|split; [lia | discriminate]].
    destruct (Hacc acc1 eq_refl) as [more1 [-> Hmore1]].
    destruct (IH (S i) (scored ++ more1)%list) as [Hlen Hrest].
    split; [lia|].
    intros acc H. destruct (Hrest acc H) as [more [-> Hmore]].
    exists (more1 ++ more)%list. split; [now rewrite app_assoc|].
    rewrite length_app. lia.
Qed.

(** A row that cannot be preprocessed stops the loop. *)
Lemma score_rows_bad_row (aws : Cloud num) (F : list string)
    (rows : list (dict num)) (row : dict num) (e : exn) :
  In row rows ->
  preprocess_row row F = Raise e ->
  forall (i : nat) (acc : tally num),
  exists e', snd (score_rows lib aws F i rows acc) = Raise e'.
Proof.
  intros Hin Hbad. induction rows as [|r rows IH]; [contradiction|].
  intros i acc. simpl. rewrite snd_bindM.
  destruct (snd (score_row lib aws F i r acc)) as [acc1|e1] eqn:E;
    [|now exists e1].
  destruct Hin as [->|Hin]; [|now apply IH].
  unfold score_row in E. rewrite Hbad in E. simpl in E. discriminate E.
Qed.

Lemma save_predictions_raises (aws : Cloud num) (preds : list (prediction num))
    (e : exn) :
  snd (save_predictions aws preds) = Raise e -> e = PutError.
Proof.
  unfold save_predictions. destruct preds; simpl; [discriminate|].
  destruct (put_fails aws); simpl; [|discriminate].
  intros H. now injection H as <-.
Qed.

Lemma save_predictions_invokes (aws : Cloud num) (preds : list (prediction num)) :
  invokes (fst (save_predictions aws preds)) = [].
Proof.
  unfold save_predictions. destruct preds; [reflexivity|]. simpl.
  now destruct (put_fails aws).
Qed.

Lemma notify_invokes (aws : Cloud num) (acc : tally num) :
  invokes (fst (notify aws acc)) = [].
Proof.
  unfold notify. destruct (0 <? alerts acc)%nat; [|reflexivity]. simpl.
  now destruct (publish_error aws _).
Qed.

(** X6.  No run sends more than [MAX_ROWS_TO_PROCESS] rows to the endpoint,
    however many rows the table has and however the run ends. *)
Theorem endpoint_calls_are_capped :
  forall aws : Cloud num,
    List.length (invokes (fst (lambda_handler lib aws))) <= MAX_ROWS_TO_PROCESS.
Proof.
  intros aws. rewrite lambda_handler_stages.
  destruct (lookup FEATURE_LIST_KEY (objects aws)) as [listing|];
    [|simpl; lia].
  cbv zeta. destruct (csv_files aws) as [|csv_key others]; [simpl; lia|].
  destruct (lookup csv_key (objects aws)) as [text|]; [|simpl; lia].
  destruct (fieldnames lib (splitlines lib text)) as [names|]; [|simpl; lia].
  destruct (score_rows_counts aws (names_of lib listing)
              (firstn MAX_ROWS_TO_PROCESS (DictReader lib (splitlines lib text)))
              0 []) as [Hcap _].
  change (tally_of lib []) with (no_rows (num := num)) in Hcap.
  rewrite length_firstn in Hcap.
  destruct (score_rows lib aws _ 0 _ no_rows) as [scoring [acc|e]];
    simpl fst in Hcap.
  - pose proof (save_predictions_invokes aws (predictions acc)) as Hsave.
    pose proof (notify_invokes aws acc) as Hnotify.
    destruct (save_predictions aws (predictions acc)) as [saving [[]|e]];
      simpl fst in *;
      rewrite ?invokes_print, ?invokes_app, ?invokes_print, ?Hsave, ?Hnotify;
      simpl; rewrite ?app_nil_r; lia.
  - simpl fst. rewrite ?invokes_print. lia.
Qed.

(** X7.  A run that answers 200 read the first key of the listing under the
    processed prefix that ends in ".csv"; its [processed_rows] is the number
    of rows of that object, beyond the cap too, while it holds no more
    scores than rows were sent to the endpoint. *)
Theorem processed_rows_counts_the_table :
  forall (aws : Cloud num) (t : list (event num)) (rows n : nat)
         (details : list (alert num)) (scores : list Q),
    lambda_handler lib aws
    = (t, Ok {| statusCode := 200;
                response_body := SummaryBody rows n details scores |}) ->
    exists csv_key others text,
      csv_files aws = csv_key :: others
      /\ lookup csv_key (objects aws) = Some text
      /\ In (Print (LogUsing csv_key)) t
      /\ rows = List.length (DictReader lib (splitlines lib text))
      /\ List.length scores <= List.length (invokes t)
      /\ List.length (invokes t) <= Nat.min MAX_ROWS_TO_PROCESS rows.
Proof.
  intros aws t rows n details scores. rewrite lambda_handler_stages.
  destruct (lookup FEATURE_LIST_KEY (objects aws)) as [listing|];
    [|discriminate].
  cbv zeta.
  destruct (csv_files aws) as [|csv_key others] eqn:Hfiles; [discriminate|].
  destruct (lookup csv_key (objects aws)) as [text|] eqn:Hobj; [|discriminate].
  destruct (fieldnames lib (splitlines lib text)) as [names|]; [|discriminate].
  destruct (score_rows_counts aws (names_of lib listing)
              (firstn MAX_ROWS_TO_PROCESS (DictReader lib (splitlines lib text)))
              0 []) as [Hcap Hacc].
  change (tally_of lib []) with (no_rows (num := num)) in Hcap, Hacc.
  rewrite length_firstn in Hcap.
  destruct (score_rows lib aws _ 0 _ no_rows) as [scoring [acc|e]];
    [|discriminate].
  simpl fst in *. simpl snd in *.
  destruct (Hacc acc eq_refl) as [more [-> Hmore]]. simpl app in *.
  pose proof (save_predictions_invokes aws (predictions (tally_of lib more)))
    as Hsave.
  pose proof (notify_invokes aws (tally_of lib more)) as Hnotify.
  destruct (save_predictions aws (predictions (tally_of lib more)))
    as [saving [[]|e]]; [|discriminate].
  simpl fst in *. unfold summary.
  intros H. injection H as <- <- <- <- <-.
  exists csv_key, others, text.
  split; [reflexivity|]. split; [exact Hobj|].
  split; [simpl; tauto|]. split; [reflexivity|].
  rewrite ?invokes_print, ?invokes_app, ?invokes_print, Hsave, Hnotify.
  change (invokes (@nil (event num))) with (@nil string).
  cbn [app]. rewrite ?app_nil_r.
  unfold tally_of. cbn [results]. rewrite length_map.
  split; [exact Hmore | exact Hcap].
Qed.

(** X8.  A run that raises has published no notification, and has written
    no predictions unless what raised is the write itself. *)
Theorem failed_run_leaves_nothing :
  forall (aws : Cloud num) (t : list (event num)) (e : exn),
    lambda_handler lib aws = (t, Raise e) ->
    publishes t = []
    /\ (e <> PutError -> puts t = []).
Proof.
  intros aws t e. rewrite lambda_handler_stages.
  destruct (lookup FEATURE_LIST_KEY (objects aws)) as [listing|].
  2:{ intros H. injection H as <- _. now split. }
  cbv zeta. destruct (csv_files aws) as [|csv_key others]; [discriminate|].
  destruct (lookup csv_key (objects aws)) as [text|].
  2:{ intros H. injection H as <- _. now split. }
  destruct (fieldnames lib (splitlines lib text)) as [names|].
  2:{ intros H. injection H as <- _. now split. }
  destruct (score_rows_spec lib aws (names_of lib listing)
              (firstn MAX_ROWS_TO_PROCESS (DictReader lib (splitlines lib text)))
              0 []) as [Hpub [Hput _]].
  change (tally_of lib []) with (no_rows (num := num)) in Hpub, Hput.
  destruct (score_rows lib aws _ 0 _ no_rows) as [scoring [acc|e1]];
    cbn [fst snd] in *.
  - destruct (save_predictions_spec aws (predictions acc)) as [Hsaved _].
    pose proof (@save_predictions_raises aws (predictions acc)) as Hwhy.
    destruct (save_predictions aws (predictions acc)) as [saving [[]|e2]];
      [discriminate|].
    cbn [fst snd] in *.
    intros H. injection H as <- <-.
    rewrite ?publishes_print, ?publishes_app, Hpub, Hsaved.
    split; [reflexivity|].
    intros Hne. exfalso. apply Hne. now apply Hwhy.
  - intros H. injection H as <- <-.
    rewrite ?publishes_print, ?puts_print, Hpub, Hput. now split.
Qed.

(** X9.  In the summary of a run the number of alerts is the number of
    alert details, every detail is HIGH_RISK, and there are no more alerts
    than scores; a run without an alert published nothing; the run wrote
    one predictions table, with one row per score, labelled as the score
    is, unless it has no score, when it wrote none. *)
Theorem summary_is_consistent :
  forall (aws : Cloud num) (t : list (event num)) (rows n : nat)
         (details : list (alert num)) (scores : list Q),
    lambda_handler lib aws
    = (t, Ok {| statusCode := 200;
                response_body := SummaryBody rows n details scores |}) ->
    n = List.length details
    /\ n <= List.length scores
    /\ Forall (fun a => a_status a = HIGH_RISK) details
    /\ (n = 0 -> publishes t = [])
    /\ (scores = [] -> puts t = [])
    /\ (scores <> [] ->
        exists saved,
          puts t = [("predictions/heart_attack_predictions_" ++ stamp aws
                     ++ ".csv", saved)]
          /\ map p_status saved = map Risk_Status scores).
Proof.
  intros aws t rows n details scores Hrun.
  destruct (handler_run lib aws Hrun)
    as [[Hresp _] | [scored [rows' [Hresp [Hpubs [Hputs [Hsaved _]]]]]]];
    [discriminate Hresp|].
  injection Hresp as -> -> -> ->.
  destruct (notify_spec aws (tally_of lib scored)) as [_ [_ [Hnote _]]].
  assert (Hquiet : alerts (tally_of lib scored) = 0 -> publishes t = []).
  { intros H0. rewrite Hpubs, Hnote, H0. reflexivity. }
  destruct (save_predictions_spec aws (predictions (tally_of lib scored)))
    as [_ Hsave].
  rewrite Hputs, (Hsave tt Hsaved). unfold tally_of. simpl.
  split; [now rewrite length_map|].
  split; [rewrite length_map; apply filter_length_le|].
  split; [apply Forall_forall; intros a Ha; apply in_map_iff in Ha;
          destruct Ha as [s [<- _]]; reflexivity|].
  split; [exact Hquiet|].
  split.
  - intros Hnone. apply map_eq_nil in Hnone. now rewrite Hnone.
  - intros Hsome. destruct scored as [|s scored]; [now contradiction Hsome|].
    eexists. split; [reflexivity|]. simpl. now rewrite !map_map.
Qed.

(** X10.  One row that cannot be preprocessed, among those the run handles,
    makes the whole run raise: nothing is saved and nothing is published
    for the rows before it either. *)
Theorem one_bad_row_aborts_the_run :
  forall (aws : Cloud num) (listing csv_key text : string)
         (others names : list string) (row : dict num) (e : exn),
    lookup FEATURE_LIST_KEY (objects aws) = Some listing ->
    csv_files aws = csv_key :: others ->
    lookup csv_key (objects aws) = Some text ->
    fieldnames lib (splitlines lib text) = Some names ->
    In row (firstn MAX_ROWS_TO_PROCESS (DictReader lib (splitlines lib text))) ->
    preprocess_row row (names_of lib listing) = Raise e ->
    exists e',
      snd (lambda_handler lib aws) = Raise e'
      /\ puts (fst (lambda_handler lib aws)) = []
      /\ publishes (fst (lambda_handler lib aws)) = [].
Proof.
  intros aws listing csv_key text others names row e
         Hlist Hfiles Hobj Hnames Hin Hbad.
  rewrite lambda_handler_stages, Hlist. cbv zeta.
  rewrite Hfiles, Hobj, Hnames.
  destruct (@score_rows_bad_row aws _ _ row e Hin Hbad 0 no_rows) as [e' He'].
  destruct (score_rows_spec lib aws (names_of lib listing)
              (firstn MAX_ROWS_TO_PROCESS (DictReader lib (splitlines lib text)))
              0 []) as [Hpub [Hput _]].
  change (tally_of lib []) with (no_rows (num := num)) in Hpub, Hput.
  destruct (score_rows lib aws _ 0 _ no_rows) as [scoring [acc|e1]];
    simpl in He'; [discriminate|].
  injection He' as ->. exists e'. cbn [fst snd] in *.
  rewrite puts_app, publishes_app, Hpub, Hput. repeat split.
Qed.

End Facts.

Lemma processed_rows_counts_the_table_witness :
  exists csv_key others text,
    csv_files cloud = csv_key :: others
    /\ lookup csv_key (objects cloud) = Some text
    /\ In (Print (LogUsing csv_key)) (fst (lambda_handler library cloud))
    /\ 2 = List.length (DictReader library (splitlines library text))
    /\ 2 <= List.length (invokes (fst (lambda_handler library cloud)))
    /\ List.length (invokes (fst (lambda_handler library cloud)))
       <= Nat.min MAX_ROWS_TO_PROCESS 2.
Proof.
  apply (@processed_rows_counts_the_table Z Z_numeric library cloud
           (fst (lambda_handler library cloud)) 2 1
           [{| a_patient := CStr "BMW7812"; a_risk_score := (1 # 2)%Q;
               a_status := HIGH_RISK |}]
           [0.50%Q; 0.45%Q]).
  vm_compute. reflexivity.
Defined.

Lemma failed_run_leaves_nothing_witness :
  snd (lambda_handler library Runs.cloud_put_fails) = Raise PutError
  /\ publishes (fst (lambda_handler library Runs.cloud_put_fails)) = [].
Proof.
  split; [vm_compute; reflexivity|].
  apply (@failed_run_leaves_nothing Z Z_numeric library Runs.cloud_put_fails
           (fst (lambda_handler library Runs.cloud_put_fails)) PutError).
  vm_compute. reflexivity.
Defined.

Lemma summary_is_consistent_witness :
  exists saved,
    puts (fst (lambda_handler library cloud))
    = [("predictions/heart_attack_predictions_20251124_010404.csv", saved)]
    /\ map p_status saved = [HIGH_RISK; LOW_RISK].
Proof.
  destruct (@summary_is_consistent Z Z_numeric library cloud
              (fst (lambda_handler library cloud)) 2 1
              [{| a_patient := CStr "BMW7812"; a_risk_score := (1 # 2)%Q;
                  a_status := HIGH_RISK |}]
              [0.50%Q; 0.45%Q])
    as [_ [_ [_ [_ [_ Hsaved]]]]].
  - vm_compute. reflexivity.
  - destruct Hsaved as [saved [Hput Hlabels]]; [discriminate|].
    exists saved. split; [exact Hput | exact Hlabels].
Defined.

Lemma one_bad_row_aborts_the_run_witness :
  exists e',
    snd (lambda_handler Runs.library_bad_row cloud) = Raise e'
    /\ puts (fst (lambda_handler Runs.library_bad_row cloud)) = []
    /\ publishes (fst (lambda_handler Runs.library_bad_row cloud)) = [].
Proof.
  apply (@one_bad_row_aborts_the_run Z Z_numeric Runs.library_bad_row cloud
           "features" "processed/final_health_dataset_csv/part-00000.csv"
           "rows" [] (keys patient)
           [("Age", CStr "21"); ("Diet", CStr "Average");
            ("Blood Pressure", CStr "118/76")]
           (KeyError "Sex")).
  - reflexivity.
  - vm_compute. reflexivity.
  - reflexivity.
  - reflexivity.
  - vm_compute. right. left. reflexivity.
  - vm_compute. reflexivity.
Defined.

End RunFacts.

(* ================================================================== *)
(** ** The notification *)

Module Notification.
Import Pandas Lambda Config Handler HandlerFacts Observations RunFacts Samples.
Section Facts.

Context {num : Type} {N : Numeric num}.
Variable lib : Library num.

Local Arguments firstn : simpl never.







End Facts.



End Notification.

(* ================================================================== *)
(** ** The table [preprocess_health_data] returns *)

Module PreparedTable.
Import Pandas Sagemaker Features FrameFacts FeatureFacts TrainingFacts.
Section Facts.

Context {num : Type} {N : Numeric num}.

Lemma existsb_split (bp : series num) :
  existsb (fun p : string * option string =>
             match snd p with Some _ => true | None => false end)
          (split_expand bp)
  = existsb (fun c => Str.contains "/" (astype_str c)) bp.
Proof.
  induction bp as [|c bp IH]; [reflexivity|].
  unfold split_expand in *. cbn [map existsb].
  now rewrite IH, <- split1_contains.
Qed.

Lemma width_contains (bp : series num) :
  expand_width (split_expand bp)
  = match bp with
    | [] => 0
    | _ => if existsb (fun c => Str.contains "/" (astype_str c)) bp
           then 2 else 1
    end.
Proof.
  destruct bp as [|c bp]; [reflexivity|].
  rewrite <- existsb_split. reflexivity.
Qed.

(** The split of the pressures, by the shape of the column. *)
Lemma split_outcome (df : DataFrame num) :
  split_blood_pressure df
  = match df_get df "Blood Pressure" with
    | None => Ok df
    | Some [] => Raise (KeyErrorPos 0)
    | Some bp =>
        if existsb (fun c => Str.contains "/" (astype_str c)) bp
        then Ok (drop (setitem (setitem df "BP_Systolic" (map systolic bp))
                               "BP_Diastolic" (map diastolic bp))
                      ["Blood Pressure"])
        else Raise (KeyErrorPos 1)
    end.
Proof.
  unfold split_blood_pressure, getitem. rewrite has_column_get.
  destruct (df_get df "Blood Pressure") as [bp|]; [|reflexivity].
  cbn [bind]. unfold expand_col. rewrite width_contains.
  destruct bp as [|c bp]; [reflexivity|].
  destruct (existsb _ (c :: bp)); cbn [Nat.ltb Nat.leb bind]; [|reflexivity].
  unfold split_expand, systolic, diastolic. rewrite !map_map. reflexivity.
Qed.

Lemma In_assign (c k : string) (s sk : series num)
    (l : list (string * series num)) :
  In (k, sk) (assign c s l) -> (k = c /\ sk = s) \/ In (k, sk) l.
Proof.
  induction l as [|[c' s'] l IH]; simpl.
  - intros [H|[]]. injection H as <- <-. now left.
  - destruct (String.eqb_spec c c') as [->|Hne]; simpl.
    + intros [H|H]; [injection H as <- <-; now left | right; now right].
    + intros [H|H]; [right; now left|].
      destruct (IH H) as [?|?]; [now left | right; now right].
Qed.

(** The columns that reach the encoding: those of the table, the two
    pressure columns, neither an identifier nor "Blood Pressure". *)
Lemma split_columns (df df1 : DataFrame num) (k : string) (sk : series num) :
  split_blood_pressure df = Ok df1 ->
  In (k, sk) (data (drop df1 identifiers)) ->
  ~ In k ("Blood Pressure" :: identifiers)
  /\ (In (k, sk) (data df)
      \/ exists bp, df_get df "Blood Pressure" = Some bp
                    /\ (sk = map systolic bp \/ sk = map diastolic bp)).
Proof.
  rewrite split_outcome.
  destruct (df_get df "Blood Pressure") as [bp|] eqn:Ebp.
  - destruct bp as [|c bp]; [discriminate|].
    destruct (existsb _ (c :: bp)); [|discriminate].
    intros H. injection H as <-. unfold drop, setitem. cbn [data].
    rewrite !filter_In. cbn [fst]. intros [[Hin Hbp] Hid].
    apply negb_true_iff in Hbp, Hid. apply mem_false_In in Hbp, Hid.
    split; [intros [<-|H]; [apply Hbp; now left | now apply Hid]|].
    apply In_assign in Hin. destruct Hin as [[_ ->]|Hin].
    { right. exists (c :: bp). split; [reflexivity | now right]. }
    apply In_assign in Hin. destruct Hin as [[_ ->]|Hin].
    { right. exists (c :: bp). split; [reflexivity | now left]. }
    now left.
  - intros H. injection H as <-. unfold drop. cbn [data].
    rewrite filter_In. cbn [fst]. intros [Hin Hid].
    apply negb_true_iff in Hid. apply mem_false_In in Hid.
    split; [|now left].
    intros [<-|H]; [|now apply Hid].
    assert (Hcol : In "Blood Pressure" (columns df))
      by (apply in_map_iff; now exists ("Blood Pressure", sk)).
    apply columns_get in Hcol. now apply Hcol.
Qed.

Lemma underscore_in (a b : string) :
  Str.contains "_" (a ++ "_" ++ b) = true.
Proof.
  induction a as [|c a IH]; simpl in *; [reflexivity|].
  rewrite IH. apply orb_true_r.
Qed.

Lemma dummies_names (k c : string) (sk s : series num) :
  In (c, s) (dummies_of k sk) -> Str.contains "_" c = true.
Proof.
  unfold dummies_of. rewrite in_map_iff. intros [v [Heq _]].
  injection Heq as <- _. apply underscore_in.
Qed.

Lemma dummies_cells (k c : string) (sk s : series num) (x : cell num) :
  In (c, s) (dummies_of k sk) -> In x s -> exists n, x = CNum n.
Proof.
  unfold dummies_of. rewrite in_map_iff. intros [v [Heq _]].
  injection Heq as _ <-. rewrite in_map_iff. intros [y [<- _]].
  destruct (label y) as [w|]; [destruct (String.eqb w v)|]; eauto.
Qed.

Lemma numbers_filled (s : series num) (x : cell num) :
  is_object s = false -> In x (map fillna0 s) -> exists n, x = CNum n.
Proof.
  intros Hobj. rewrite in_map_iff. intros [y [<- Hy]].
  unfold is_object in Hobj.
  destruct y as [t|n| |]; simpl; eauto; exfalso;
    (assert (H : existsb (fun c : cell num =>
                            match c with
                            | CStr _ | CNone => true
                            | CNum _ | CNaN => false
                            end) s = true);
     [apply existsb_exists; eexists; split; [exact Hy | reflexivity]
     | congruence]).
Qed.

(** What the encoding and the filling leave: the columns that are no
    text, filled, and the indicators of those that are. *)
Lemma encoded_columns (d : DataFrame num) (c : string) (s : series num) :
  In (c, s) (data (map_cells fillna0 (with_dummies d))) ->
  exists s0,
    s = map fillna0 s0
    /\ ((In (c, s0) (data d) /\ is_object s0 = false)
        \/ exists k sk, In (k, sk) (data d) /\ is_object sk = true
                        /\ In (c, s0) (dummies_of k sk)).
Proof.
  unfold map_cells, with_dummies. cbn [data].
  rewrite in_map_iff. intros [[c0 s0] [Heq Hin]]. cbn [fst snd] in Heq.
  injection Heq as -> <-. exists s0. split; [reflexivity|].
  apply in_app_iff in Hin. destruct Hin as [Hin|Hin].
  - apply filter_In in Hin. destruct Hin as [Hin Hobj]. cbn [snd] in Hobj.
    apply negb_true_iff in Hobj. left. now split.
  - apply in_flat_map in Hin. destruct Hin as [[k sk] [Hk Hin]].
    cbn [fst snd] in Hin.
    destruct (is_object sk) eqn:Hobj; [|contradiction].
    right. exists k, sk. repeat split; assumption.
Qed.

Lemma assoc_app (c : string) (l l' : list (string * series num)) :
  assoc c (l ++ l')
  = match assoc c l with Some s => Some s | None => assoc c l' end.
Proof.
  induction l as [|[k s] l IH]; simpl; [reflexivity|].
  destruct (String.eqb c k); [reflexivity | exact IH].
Qed.

Lemma assoc_Some_In (c : string) (s : series num)
    (l : list (string * series num)) :
  assoc c l = Some s -> In (c, s) l.
Proof.
  induction l as [|[k s'] l IH]; simpl; [discriminate|].
  destruct (String.eqb_spec c k) as [->|_].
  - intros H. injection H as ->. now left.
  - intros H. right. now apply IH.
Qed.

Lemma assoc_dummies (c : string) (l : list (string * series num)) :
  Str.contains "_" c = false ->
  assoc c (flat_map (fun cs => if is_object (snd cs)
                               then dummies_of (fst cs) (snd cs)
                               else []) l) = None.
Proof.
  intros Hc. destruct (assoc c (flat_map _ l)) as [s|] eqn:E; [|reflexivity].
  assert (Hin : In c (map fst (flat_map
                        (fun cs => if is_object (snd cs)
                                   then dummies_of (fst cs) (snd cs)
                                   else []) l)))
    by (apply assoc_In; congruence).
  apply in_map_iff in Hin. destruct Hin as [[c' s'] [Heq Hin]].
  cbn [fst] in Heq. subst c'.
  apply in_flat_map in Hin. destruct Hin as [[k sk] [_ Hin]].
  cbn [fst snd] in Hin. destruct (is_object sk); [|contradiction].
  apply dummies_names in Hin. congruence.
Qed.

(** A column whose name has no "_" and that the split and the drop leave
    alone is kept, filled, when it holds no text, and goes when it does. *)
Lemma plain_column (df out : DataFrame num) (c : string) :
  NoDup (columns df) ->
  preprocess_health_data df = Ok out ->
  Str.contains "_" c = false ->
  Str.mem c ("Blood Pressure" :: identifiers) = false ->
  df_get out c
  = match df_get df c with
    | Some s => if is_object s then None else Some (map fillna0 s)
    | None => None
    end.
Proof.
  intros Hnd Hout Hc Hkept. rewrite preprocess_health_data_steps in Hout.
  destruct (split_blood_pressure df) as [df1|e] eqn:Hsplit; [|discriminate].
  destruct (data (drop df1 identifiers)) eqn:Hsome; [discriminate|].
  clear Hsome. injection Hout as <-.
  rewrite df_get_map_cells. unfold df_get at 1, with_dummies.
  cbn [data]. rewrite assoc_app, assoc_dummies by assumption.
  assert (Hnd1 : NoDup (map fst (data (drop df1 identifiers)))
                 /\ df_get (drop df1 identifiers) c = df_get df c).
  { rewrite split_outcome in Hsplit.
    cbn [Str.mem existsb] in Hkept. apply orb_false_iff in Hkept.
    destruct Hkept as [Hbp Hid].
    destruct (df_get df "Blood Pressure") as [bp|].
    - destruct bp as [|x bp]; [discriminate|].
      destruct (existsb _ (x :: bp)); [|discriminate].
      injection Hsplit as <-. split.
      + unfold drop, setitem. cbn [data].
        do 2 apply NoDup_filter_columns. do 2 apply NoDup_assign.
        exact Hnd.
      + rewrite !df_get_drop, !df_get_setitem.
        change (Str.mem c identifiers) with (existsb (String.eqb c) identifiers).
        rewrite Hid. cbn [Str.mem existsb]. rewrite Hbp. cbn [orb].
        destruct (String.eqb_spec c "BP_Diastolic") as [->|_];
          [discriminate Hc|].
        destruct (String.eqb_spec c "BP_Systolic") as [->|_];
          [discriminate Hc|].
        reflexivity.
    - injection Hsplit as <-. split.
      + unfold drop. cbn [data]. apply NoDup_filter_columns. exact Hnd.
      + rewrite df_get_drop.
        change (Str.mem c identifiers) with (existsb (String.eqb c) identifiers).
        now rewrite Hid. }
  destruct Hnd1 as [Hnd1 Hget].
  rewrite assoc_filter with (P := fun s => negb (is_object s))
    by exact Hnd1.
  fold (df_get (drop df1 identifiers) c). rewrite Hget.
  destruct (df_get df c) as [s|]; [|reflexivity].
  now destruct (is_object s).
Qed.

Lemma nothing_left (l : list (string * series num)) :
  filter (fun cs => negb (Str.mem (fst cs) identifiers)) l = []
  <-> forallb (fun c => Str.mem c identifiers) (map fst l) = true.
Proof.
  induction l as [|[k s] l IH]; [simpl; tauto|].
  cbn [filter map forallb fst].
  destruct (Str.mem k identifiers); cbn [negb andb]; [exact IH|].
  split; discriminate.
Qed.

(** X11.  On a table whose column names are distinct,
    [preprocess_health_data] raises in three cases and returns a table in
    every other: with a "Blood Pressure" column, on a table without a row
    ([KeyError: 0]) and on one without a "/" in any pressure
    ([KeyError: 1]); without one, on a table whose columns are all
    identifiers, of which the drop leaves nothing to encode
    ([ValueError]). *)
Theorem preprocess_health_data_outcome :
  forall df : DataFrame num,
    NoDup (columns df) ->
    match df_get df "Blood Pressure" with
    | None =>
        if forallb (fun c => Str.mem c identifiers) (columns df)
        then preprocess_health_data df
             = Raise (ValueError "No objects to concatenate")
        else exists out, preprocess_health_data df = Ok out
    | Some [] => preprocess_health_data df = Raise (KeyErrorPos 0)
    | Some bp =>
        if existsb (fun c => Str.contains "/" (astype_str c)) bp
        then exists out, preprocess_health_data df = Ok out
        else preprocess_health_data df = Raise (KeyErrorPos 1)
    end.
Proof.
  intros df _. rewrite preprocess_health_data_steps, split_outcome.
  destruct (df_get df "Blood Pressure") as [[|c bp]|] eqn:Hbp;
    [reflexivity | |].
  - destruct (existsb _ (c :: bp)); [|reflexivity].
    set (df1 := drop _ ["Blood Pressure"]).
    assert (Hcol : df_get (drop df1 identifiers) "BP_Diastolic" <> None).
    { unfold df1. rewrite !df_get_drop, df_get_setitem. discriminate. }
    unfold df_get in Hcol.
    destruct (data (drop df1 identifiers));
      [now contradiction Hcol | eexists; reflexivity].
  - pose proof (nothing_left (data df)) as Hleft.
    fold (columns df) in Hleft.
    change (data (drop df identifiers))
      with (filter (fun cs : string * series num =>
                      negb (Str.mem (fst cs) identifiers)) (data df)).
    destruct (forallb (fun c => Str.mem c identifiers) (columns df)).
    + now rewrite (proj2 Hleft eq_refl).
    + destruct (filter _ (data df)); [|eexists; reflexivity].
      now discriminate (proj1 Hleft eq_refl).
Qed.

(** X12.  The table [preprocess_health_data] returns has the rows of the
    table it was given, one cell per row in every column, no identifier
    and no "Blood Pressure" column, and numbers only: no text, no [None],
    no NaN. *)
Theorem prepared_table_is_numeric :
  forall df out : DataFrame num,
    (forall c s, In (c, s) (data df) -> List.length s = index df) ->
    preprocess_health_data df = Ok out ->
    index out = index df
    /\ forall c s, In (c, s) (data out) ->
         List.length s = index df
         /\ ~ In c ("Blood Pressure" :: identifiers)
         /\ forall x, In x s -> exists n, x = CNum n.
Proof.
  intros df out Hrect Hout. rewrite preprocess_health_data_steps in Hout.
  destruct (split_blood_pressure df) as [df1|e] eqn:Hsplit; [|discriminate].
  destruct (data (drop df1 identifiers)) eqn:Hsome; [discriminate|].
  clear Hsome. injection Hout as <-.
  assert (Hidx : index df1 = index df).
  { rewrite split_outcome in Hsplit.
    destruct (df_get df "Blood Pressure") as [[|x bp]|];
      [discriminate | | now injection Hsplit as <-].
    destruct (existsb _ (x :: bp)); [|discriminate].
    now injection Hsplit as <-. }
  split; [exact Hidx|].
  assert (Hlen : forall k sk, In (k, sk) (data (drop df1 identifiers)) ->
                              List.length sk = index df).
  { intros k sk Hk.
    destruct (@split_columns df df1 k sk Hsplit Hk) as [_ [Hin|Hbp]].
    - exact (Hrect _ _ Hin).
    - destruct Hbp as [bp [Ebp Hsk]].
      assert (Hin : In ("Blood Pressure", bp) (data df))
        by now apply assoc_Some_In.
      destruct Hsk as [->| ->]; rewrite length_map; exact (Hrect _ _ Hin). }
  intros c s Hin. apply encoded_columns in Hin.
  destruct Hin as [s0 [-> [[Hin Hobj]|[k [sk [Hk [Hobj Hin]]]]]]].
  - rewrite length_map. split; [exact (Hlen _ _ Hin)|].
    split; [exact (proj1 (@split_columns df df1 c s0 Hsplit Hin))|].
    intros x. now apply numbers_filled.
  - pose proof Hin as Hl. apply TableFacts.dummies_length in Hl.
    rewrite length_map, Hl. split; [exact (Hlen _ _ Hk)|].
    split.
    + apply dummies_names in Hin. intros H. simpl in H.
      repeat (destruct H as [<-|H]; [discriminate Hin|]). contradiction.
    + intros x. rewrite in_map_iff. intros [y [<- Hy]].
      destruct (@dummies_cells k c sk s0 y Hin Hy) as [n ->]. now exists n.
Qed.

End Facts.

Lemma preprocess_health_data_outcome_witness :
  (exists out, preprocess_health_data Samples.table = Ok out)
  /\ preprocess_health_data Runs.identifiers_only
     = Raise (ValueError "No objects to concatenate").
Proof.
  split.
  - apply (@preprocess_health_data_outcome Z Z_numeric Samples.table).
    repeat constructor; simpl; intuition discriminate.
  - apply (@preprocess_health_data_outcome Z Z_numeric Runs.identifiers_only).
    repeat constructor; simpl; intuition discriminate.
Defined.

Lemma prepared_table_is_numeric_witness :
  exists out : DataFrame Z,
    preprocess_health_data Samples.table = Ok out
    /\ index out = 3
    /\ forall c s, In (c, s) (data out) ->
         List.length s = 3
         /\ ~ In c ("Blood Pressure" :: identifiers)
         /\ forall x, In x s -> exists n, x = CNum n.
Proof.
  destruct (preprocess_health_data Samples.table) as [out|e] eqn:Hout;
    [|vm_compute in Hout; discriminate Hout].
  exists out. split; [reflexivity|].
  apply (@prepared_table_is_numeric Z Z_numeric Samples.table out);
    [|exact Hout].
  intros c s H. simpl in H.
  repeat (destruct H as [H|H]; [injection H as <- <-; reflexivity|]).
  contradiction.
Defined.

End PreparedTable.

(* ================================================================== *)
(** ** [prepare_train_test_split] *)

Module SplitFacts.
Import Pandas Sagemaker Split FrameFacts PreparedTable.
Section Facts.

Context {num : Type} {N : Numeric num}.

Variable astype_int : num -> num.
Variable train_test_split :
  DataFrame num -> Q -> nat -> series num -> DataFrame num * DataFrame num.

(** The cast of a filled column of numbers. *)
Lemma cast_filled (col : series num) :
  is_object col = false ->
  astype_int_series astype_int (map fillna0 col)
  = Ok (map (fun c => match c with
                      | CNum n => CNum (astype_int n)
                      | _ => CNum (astype_int zero)
                      end) col).
Proof.
  induction col as [|c col IH]; [reflexivity|].
  unfold is_object. cbn [existsb]. intros H. apply orb_false_iff in H.
  destruct H as [Hc Hcol]. cbn [map].
  destruct c as [t|n| |]; try discriminate Hc; cbn [fillna0 astype_int_series];
    rewrite (IH Hcol); reflexivity.
Qed.

Lemma target_column (df proc : DataFrame num) :
  NoDup (columns df) ->
  preprocess_health_data df = Ok proc ->
  df_get proc target
  = match df_get df target with
    | Some s => if is_object s then None else Some (map fillna0 s)
    | None => None
    end.
Proof.
  intros Hnd Hproc. now apply plain_column.
Qed.

(** X13.  On a table that has no "Heart Attack Risk" column, or has it
    with text in it, [prepare_train_test_split] never returns: it raises
    the error of [preprocess_health_data] when that raises, and [KeyError]
    on the name otherwise, a text column being encoded away before the
    target is read. *)
Theorem split_needs_numeric_target :
  forall (df : DataFrame num) (test_size : Q) (random_state : nat),
    NoDup (columns df) ->
    (forall col, df_get df target = Some col -> is_object col = true) ->
    exists e,
      prepare_train_test_split astype_int train_test_split df test_size
        random_state
      = Raise e
      /\ (forall e', preprocess_health_data df = Raise e' -> e = e')
      /\ (forall proc, preprocess_health_data df = Ok proc ->
                       e = KeyError target).
Proof.
  intros df test_size random_state Hnd Htext.
  unfold prepare_train_test_split, final_df.
  destruct (preprocess_health_data df) as [proc|e] eqn:Hproc; cbn [bind].
  - exists (KeyError target). split; [|split; [discriminate | reflexivity]].
    unfold getitem. rewrite (@target_column df proc Hnd Hproc).
    destruct (df_get df target) as [col|]; [|reflexivity].
    now rewrite (Htext col eq_refl).
  - exists e. split; [reflexivity|]. split; [|discriminate].
    intros e' H. now injection H.
Qed.

(** X14.  When [prepare_train_test_split] returns, the table had a
    "Heart Attack Risk" column of numbers; [y] is that column cast, a
    missing value counted as 0; [X] is the prepared table without the
    target; and the table handed to [train_test_split] has the target as
    its first column and nowhere else. *)
Theorem split_puts_the_target_first :
  forall (df train_df test_df X : DataFrame num) (y : series num)
         (test_size : Q) (random_state : nat),
    NoDup (columns df) ->
    prepare_train_test_split astype_int train_test_split df test_size
      random_state
    = Ok (train_df, test_df, X, y) ->
    exists proc col,
      preprocess_health_data df = Ok proc
      /\ df_get df target = Some col
      /\ is_object col = false
      /\ y = map (fun c => match c with
                           | CNum n => CNum (astype_int n)
                           | _ => CNum (astype_int zero)
                           end) col
      /\ X = drop proc [target]
      /\ ~ In target (columns X)
      /\ (train_df, test_df)
         = train_test_split
             {| index := index proc; data := (target, y) :: data X |}
             test_size random_state y.
Proof.
  intros df train_df test_df X y test_size random_state Hnd.
  unfold prepare_train_test_split, final_df.
  destruct (preprocess_health_data df) as [proc|e] eqn:Hproc; [|discriminate].
  cbn [bind]. unfold getitem. rewrite (@target_column df proc Hnd Hproc).
  destruct (df_get df target) as [col|] eqn:Hcol; [|discriminate].
  destruct (is_object col) eqn:Hobj; [discriminate|].
  cbn [bind]. rewrite (@cast_filled col Hobj). cbn [bind].
  unfold concat_first.
  destruct (train_test_split _ test_size random_state _)
    as [train test] eqn:Hsplit.
  intros H. injection H as <- <- <- <-.
  exists proc, col. repeat split; try reflexivity; try assumption.
  - intros Hin. apply columns_get in Hin. apply Hin.
    rewrite df_get_drop. reflexivity.
  - symmetry. exact Hsplit.
Qed.

End Facts.

Lemma split_needs_numeric_target_witness :
  prepare_train_test_split (fun z : Z => z) (fun f _ _ _ => (f, f))
    Samples.table (2 # 10)%Q 42
  = Raise (KeyError target)
  /\ prepare_train_test_split (fun z : Z => z) (fun f _ _ _ => (f, f))
       Runs.identifiers_only (2 # 10)%Q 42
     = Raise (ValueError "No objects to concatenate").
Proof.
  split.
  - destruct (@split_needs_numeric_target Z Z_numeric (fun z : Z => z)
                (fun f _ _ _ => (f, f)) Samples.table (2 # 10)%Q 42)
      as [e [Hrun [_ Hkey]]].
    + repeat constructor; simpl; intuition discriminate.
    + intros col H. vm_compute in H. discriminate H.
    + rewrite Hrun. f_equal.
      destruct (preprocess_health_data Samples.table) as [proc|e'] eqn:Hproc;
        [exact (Hkey proc eq_refl) | vm_compute in Hproc; discriminate Hproc].
  - destruct (@split_needs_numeric_target Z Z_numeric (fun z : Z => z)
                (fun f _ _ _ => (f, f)) Runs.identifiers_only (2 # 10)%Q 42)
      as [e [Hrun [Hsame _]]].
    + repeat constructor; simpl; intuition discriminate.
    + intros col H. vm_compute in H. discriminate H.
    + rewrite Hrun. f_equal. apply Hsame. reflexivity.
Defined.

Lemma split_puts_the_target_first_witness :
  exists X y,
    y = [CNum 0%Z; CNum 1%Z; CNum 0%Z; CNum 1%Z]
    /\ ~ In target (columns X)
    /\ prepare_train_test_split (fun z : Z => z) (fun f _ _ _ => (f, f))
         Samples.history_table (2 # 10)%Q 42
       = Ok ({| index := 4; data := (target, y) :: data X |},
             {| index := 4; data := (target, y) :: data X |}, X, y).
Proof.
  destruct (prepare_train_test_split (fun z : Z => z) (fun f _ _ _ => (f, f))
              Samples.history_table (2 # 10)%Q 42)
    as [[[[train_df test_df] X] y]|e] eqn:Hrun;
    [|vm_compute in Hrun; discriminate Hrun].
  destruct (@split_puts_the_target_first Z Z_numeric (fun z : Z => z)
              (fun f _ _ _ => (f, f)) Samples.history_table
              train_df test_df X y (2 # 10)%Q 42)
    as [proc [col [Hproc [Hcol [_ [Hy [HX [Hfresh Hsplit]]]]]]]].
  - repeat constructor; simpl; intuition discriminate.
  - exact Hrun.
  - exists X, y. injection Hsplit as -> ->.
    vm_compute in Hcol. injection Hcol as <-.
    assert (Hidx : index proc = 4).
    { vm_compute in Hproc. injection Hproc as <-. reflexivity. }
    rewrite Hidx. split; [rewrite Hy; reflexivity|].
    split; [exact Hfresh | reflexivity].
Defined.

End SplitFacts.

(* ================================================================== *)
(** ** The weekly table and the join *)

Module WeeklyFacts.
Import EMR Aggregation.

Lemma NoDup_distinct (l : list string) : NoDup (distinct l).
Proof.
  induction l as [|x l IH]; simpl; constructor.
  - rewrite filter_In. intros [_ H]. now rewrite String.eqb_refl in H.
  - now apply NoDup_filter.
Qed.

Lemma group_In (sim : list vitals) (pid : string) (v : vitals) :
  In v (group sim pid) <-> In v sim /\ v_patient v = pid.
Proof.
  unfold group. rewrite filter_In. now rewrite String.eqb_eq.
Qed.

(** A row of [agg] is the aggregate of the readings of an entity that has
    one. *)
Lemma agg_row (sim : list vitals) (a : weekly) :
  In a (agg sim) ->
  exists v, In v (group sim (w_patient a))
            /\ a = aggregate (w_patient a) (group sim (w_patient a)).
Proof.
  unfold agg. rewrite in_map_iff. intros [pid [<- Hpid]].
  apply distinct_In, in_map_iff in Hpid. destruct Hpid as [v [Hv Hin]].
  exists v. split; [|reflexivity]. simpl. now apply group_In.
Qed.

Lemma hist_clean_In (hist : list history) (h : history) :
  In h (hist_clean hist) ->
  exists h0, In h0 hist
             /\ h_patient h = h_patient h0
             /\ h_fields h
                = filter (fun kv => negb (Str.mem (fst kv) dropped))
                         (h_fields h0).
Proof.
  unfold hist_clean. rewrite in_map_iff. intros [h0 [<- Hin]].
  exists h0. now repeat split.
Qed.

Lemma left_join_row (left : list weekly) (right : list history)
    (c : combined) (fields : list (string * string)) :
  In c (left_join left right) ->
  c_history c = Some fields ->
  exists h, In h right /\ h_patient h = c_patient c /\ h_fields h = fields.
Proof.
  unfold left_join. rewrite in_flat_map. intros [a [_ Hc]] Hfields.
  destruct (filter (fun h => String.eqb (h_patient h) (w_patient a)) right)
    as [|h matches] eqn:E.
  - destruct Hc as [<-|[]]. discriminate Hfields.
  - rewrite <- E in Hc. apply in_map_iff in Hc. destruct Hc as [h' [<- Hh']].
    apply filter_In in Hh'. destruct Hh' as [Hin Heq].
    apply String.eqb_eq in Heq. simpl in Hfields. injection Hfields as <-.
    exists h'. now repeat split.
Qed.

Lemma filter_absent (right : list history) (pid : string) :
  ~ In pid (map h_patient right) ->
  filter (fun h => String.eqb (h_patient h) pid) right = [].
Proof.
  induction right as [|h right IH]; simpl; intros Hno; [reflexivity|].
  destruct (String.eqb_spec (h_patient h) pid) as [E|_].
  - exfalso. apply Hno. now left.
  - apply IH. intros H. apply Hno. now right.
Qed.

Lemma filter_unique (right : list history) (pid : string) :
  NoDup (map h_patient right) ->
  (List.length (filter (fun h => String.eqb (h_patient h) pid) right) <= 1)%nat.
Proof.
  induction right as [|h right IH]; simpl; intros Hnd; [lia|].
  inversion Hnd as [|? ? Hh Hrest]; subst.
  destruct (String.eqb_spec (h_patient h) pid) as [<-|_]; [|now apply IH].
  rewrite (filter_absent _ _ Hh). simpl. lia.
Qed.

Lemma left_join_patients (left : list weekly) (right : list history) :
  NoDup (map h_patient right) ->
  map c_patient (left_join left right) = map w_patient left.
Proof.
  intros Hnd. unfold left_join.
  induction left as [|a left IH]; [reflexivity|].
  change (a :: left) with ([a] ++ left)%list.
  rewrite flat_map_app, !map_app, IH. f_equal.
  cbn [flat_map]. rewrite app_nil_r.
  pose proof (@filter_unique right (w_patient a) Hnd) as Hone.
  destruct (filter (fun h => String.eqb (h_patient h) (w_patient a)) right)
    as [|h [|h' matches]]; [reflexivity | reflexivity | simpl in Hone; lia].
Qed.

Lemma hist_clean_patients (hist : list history) :
  map h_patient (hist_clean hist) = map h_patient hist.
Proof.
  unfold hist_clean. rewrite map_map. reflexivity.
Qed.

(** X15.  [agg] has one row for each entity of the simulated table, and
    for no other. *)
Theorem agg_has_one_row_per_entity :
  forall sim : list vitals,
    NoDup (map w_patient (agg sim))
    /\ forall pid, In pid (map w_patient (agg sim))
                   <-> In pid (map v_patient sim).
Proof.
  intros sim. rewrite agg_patients. split; [apply NoDup_distinct|].
  intros pid. apply distinct_In.
Qed.

(** X16.  When no two rows of the historical table have the same entity,
    [final] has one row for each entity of the simulated table, and for no
    other. *)
Theorem final_has_one_row_per_entity :
  forall (sim : list vitals) (hist : list history),
    NoDup (map h_patient hist) ->
    NoDup (map c_patient (final sim hist))
    /\ List.length (final sim hist) = List.length (agg sim)
    /\ forall pid, In pid (map c_patient (final sim hist))
                   <-> In pid (map v_patient sim).
Proof.
  intros sim hist Hnd. unfold final.
  assert (Hpat : map c_patient (left_join (agg sim) (hist_clean hist))
                 = map w_patient (agg sim)).
  { apply left_join_patients. now rewrite hist_clean_patients. }
  split; [rewrite Hpat; apply agg_has_one_row_per_entity|].
  split.
  - rewrite <- (length_map c_patient), Hpat. apply length_map.
  - intros pid. rewrite Hpat. apply agg_has_one_row_per_entity.
Qed.

(** X17.  The historical columns of a row of [final] are those of a
    historical row of the same entity, without the columns the job drops:
    no "Heart Attack Risk" and none of the old vitals reaches the output
    from the historical table. *)
Theorem final_has_no_dropped_column :
  forall (sim : list vitals) (hist : list history) (c : combined)
         (fields : list (string * string)),
    In c (final sim hist) ->
    c_history c = Some fields ->
    (exists h, In h hist
               /\ h_patient h = c_patient c
               /\ fields = filter (fun kv => negb (Str.mem (fst kv) dropped))
                                  (h_fields h))
    /\ forall name, In name dropped -> ~ In name (map fst fields).
Proof.
  intros sim hist c fields Hin Hfields. unfold final in Hin.
  destruct (left_join_row _ _ _ Hin Hfields) as [h [Hh [Hpid <-]]].
  destruct (hist_clean_In _ _ Hh) as [h0 [Hh0 [Hsame Hclean]]].
  split; [exists h0; repeat split; congruence|].
  intros name Hname Hcol. rewrite Hclean in Hcol.
  apply in_map_iff in Hcol. destruct Hcol as [[k v] [Hk Hkv]].
  cbn [fst] in Hk. subst k. apply filter_In in Hkv. destruct Hkv as [_ Hkept].
  cbn [fst] in Hkept. apply negb_true_iff in Hkept.
  apply FrameFacts.mem_false_In in Hkept. contradiction.
Qed.

Lemma sum_of_flags (g : list vitals) :
  (forall v, In v g -> v_activity v = 0 \/ v_activity v = 1)%Z ->
  fold_right Z.add 0%Z (map v_activity g)
  = Z.of_nat (List.length (filter (fun v => Z.eqb (v_activity v) 1) g)).
Proof.
  induction g as [|v g IH]; intros Hflags; [reflexivity|].
  cbn [map fold_right filter].
  rewrite IH by (intros w Hw; apply Hflags; now right).
  destruct (Hflags v (or_introl eq_refl)) as [-> | ->]; simpl Z.eqb; cbn [List.length]; lia.
Qed.

(** The active days of an entity. *)
Lemma active_days (sim : list vitals) (a : weekly) :
  (forall v, In v sim -> v_activity v = 0 \/ v_activity v = 1)%Z ->
  In a (agg sim) ->
  w_activity_days a
  = Z.of_nat (List.length (filter (fun v => Z.eqb (v_activity v) 1)
                                  (group sim (w_patient a))))
  /\ (0 <= w_activity_days a
         <= Z.of_nat (List.length (group sim (w_patient a))))%Z.
Proof.
  intros Hflags Ha.
  destruct (agg_row _ _ Ha) as [_ [_ Heq]].
  assert (Hsum : w_activity_days a
                 = Z.of_nat (List.length
                               (filter (fun v => Z.eqb (v_activity v) 1)
                                       (group sim (w_patient a))))).
  { rewrite Heq at 1. cbn [aggregate w_activity_days]. apply sum_of_flags.
    intros v Hv. apply Hflags. now apply group_In in Hv. }
  split; [exact Hsum|]. rewrite Hsum.
  pose proof (filter_length_le (fun v => Z.eqb (v_activity v) 1)
                               (group sim (w_patient a))).
  lia.
Qed.

(** X18.  When every reading marks a day as active (1) or not (0), the
    "Physical Activity Days Per Week" of an entity is the number of its
    active days, at most the number of its readings. *)
Theorem activity_days_count_the_active_days :
  forall (sim : list vitals) (a : weekly),
    (forall v, In v sim -> v_activity v = 0 \/ v_activity v = 1)%Z ->
    In a (agg sim) ->
    w_activity_days a
    = Z.of_nat (List.length (filter (fun v => Z.eqb (v_activity v) 1)
                                    (group sim (w_patient a))))
    /\ (0 <= w_activity_days a
           <= Z.of_nat (List.length (group sim (w_patient a))))%Z.
Proof.
  intros sim a. apply active_days.
Qed.

Local Open Scope Q_scope.

Lemma total_inject (l : list Z) :
  total (map inject_Z l) == inject_Z (fold_right Z.add 0%Z l).
Proof.
  induction l as [|z l IH]; [reflexivity|].
  cbn [map fold_right total]. unfold total in IH.
  now rewrite IH, inject_Z_plus.
Qed.

Lemma sum_bounds (l : list Z) (lo hi : Z) :
  (forall z, In z l -> lo <= z <= hi)%Z ->
  (lo * Z.of_nat (List.length l) <= fold_right Z.add 0 l
   <= hi * Z.of_nat (List.length l))%Z.
Proof.
  induction l as [|z l IH]; intros Hall; [simpl; lia|].
  assert (Hz := Hall z (or_introl eq_refl)).
  assert (Hl := IH (fun w Hw => Hall w (or_intror Hw))).
  cbn [fold_right List.length]. lia.
Qed.

Lemma avg_bounds (l : list Z) (lo hi : Z) :
  l <> [] ->
  (forall z, In z l -> lo <= z <= hi)%Z ->
  inject_Z lo <= avg (map inject_Z l) <= inject_Z hi.
Proof.
  intros Hne Hall. unfold avg. rewrite length_map, total_inject.
  pose proof (sum_bounds l Hall) as [Hlo Hhi].
  assert (Hpos : 0 < inject_Z (Z.of_nat (List.length l))).
  { rewrite <- (Zlt_Qlt 0). destruct l; [congruence | simpl; lia]. }
  split.
  - apply Qle_shift_div_l; [exact Hpos|].
    rewrite <- inject_Z_mult, <- Zle_Qle. exact Hlo.
  - apply Qle_shift_div_r; [exact Hpos|].
    rewrite <- inject_Z_mult, <- Zle_Qle. exact Hhi.
Qed.

Lemma floor_half_bounds (x : Q) (lo hi : Z) :
  inject_Z lo <= x <= inject_Z hi ->
  (lo <= Qfloor (x + (1 # 2)) <= hi)%Z.
Proof.
  intros [Hlo Hhi]. split.
  - rewrite <- (Qfloor_Z lo). apply Qfloor_resp_le. lra.
  - pose proof (Qfloor_le (x + (1 # 2))) as Hle.
    assert (H : inject_Z (Qfloor (x + (1 # 2))) < inject_Z (hi + 1)).
    { rewrite inject_Z_plus. change (inject_Z 1) with 1. lra. }
    rewrite <- Zlt_Qlt in H. lia.
Qed.

Lemma half_up_bounds (x : Q) (lo hi : Z) :
  inject_Z lo <= x <= inject_Z hi ->
  (lo <= half_up x <= hi)%Z.
Proof.
  intros [Hlo Hhi]. unfold half_up. destruct (Qle_bool 0 x).
  - now apply floor_half_bounds.
  - assert (H : (- hi <= Qfloor (- x + (1 # 2)) <= - lo)%Z).
    { apply floor_half_bounds. rewrite !inject_Z_opp. split; lra. }
    lia.
Qed.

Lemma heart_rate_bounds (sim : list vitals) (lo hi : Z) (a : weekly) :
  (forall v, In v sim -> lo <= v_heart_rate v <= hi)%Z ->
  In a (agg sim) ->
  inject_Z lo <= w_heart_rate a <= inject_Z hi.
Proof.
  intros Hall Ha.
  destruct (agg_row _ _ Ha) as [v [Hv Heq]].
  rewrite Heq. cbn [aggregate w_heart_rate]. unfold heart_rate_feature.
  rewrite round_0, <- !Zle_Qle.
  apply half_up_bounds. apply avg_bounds.
  - destruct (group sim (w_patient a)); [contradiction | discriminate].
  - intros z Hz. apply in_map_iff in Hz. destruct Hz as [w [<- Hw]].
    apply Hall. now apply group_In in Hw.
Qed.

(** The mean of values that are not negative, rounded. *)
Lemma half_up_mean (l : list Z) :
  l <> [] ->
  (forall z, In z l -> 0 <= z)%Z ->
  half_up (avg (map inject_Z l))
  = Qfloor (inject_Z (fold_right Z.add 0%Z l)
            / inject_Z (Z.of_nat (List.length l)) + (1 # 2)).
Proof.
  intros Hne Hpos.
  assert (Hmean : avg (map inject_Z l)
                  == inject_Z (fold_right Z.add 0%Z l)
                     / inject_Z (Z.of_nat (List.length l))).
  { unfold avg. now rewrite length_map, total_inject. }
  rewrite (half_up_comp Hmean). unfold half_up.
  assert (H0 : inject_Z 0 <= avg (map inject_Z l)).
  { apply (@avg_bounds l 0 (fold_right Z.max 0%Z l) Hne).
    intros z Hz. split; [now apply Hpos|].
    clear Hne Hpos Hmean. induction l as [|y l IH]; [contradiction|].
    cbn [fold_right]. destruct Hz as [->|Hz]; [lia|].
    specialize (IH Hz). lia. }
  rewrite Hmean in H0. change (inject_Z 0) with 0 in H0.
  apply Qle_bool_iff in H0. now rewrite H0.
Qed.

Lemma own_readings (sim : list vitals) (a : weekly) :
  In a (agg sim) ->
  group sim (w_patient a) <> []
  /\ w_heart_rate a
     == inject_Z (half_up (avg (map inject_Z
                                   (map v_heart_rate
                                        (group sim (w_patient a)))))).
Proof.
  intros Ha. destruct (agg_row _ _ Ha) as [v [Hv Heq]]. split.
  - intros E. rewrite E in Hv. contradiction.
  - rewrite Heq at 1. cbn [aggregate w_heart_rate]. unfold heart_rate_feature.
    apply round_0.
Qed.

(** X19.  On a table within the bounds of 32-bit readings, the weekly
    heart rate of an entity lies between the lowest and the highest of the
    entity's own readings, whatever the readings of the others. *)
Theorem weekly_heart_rate_within_readings :
  forall (sim : list vitals) (lo hi : Z) (a : weekly),
    readable sim ->
    In a (agg sim) ->
    (forall v, In v sim -> v_patient v = w_patient a ->
               lo <= v_heart_rate v <= hi)%Z ->
    inject_Z lo <= w_heart_rate a <= inject_Z hi.
Proof.
  intros sim lo hi a _ Ha Hown.
  destruct (own_readings _ _ Ha) as [Hne Hrate].
  rewrite Hrate, <- !Zle_Qle.
  apply half_up_bounds. apply avg_bounds.
  - destruct (group sim (w_patient a)); [now contradiction Hne | discriminate].
  - intros z Hz. apply in_map_iff in Hz. destruct Hz as [w [<- Hw]].
    apply group_In in Hw. now apply Hown.
Qed.

Close Scope Q_scope.

Lemma final_has_one_row_per_entity_witness :
  List.length (final Samples.week Samples.archive) = 1%nat
  /\ (In "CZE1114" (map c_patient (final Samples.week Samples.archive))
      <-> In "CZE1114" (map v_patient Samples.week)).
Proof.
  destruct (@final_has_one_row_per_entity Samples.week Samples.archive)
    as [_ [Hlen Hsame]].
  - repeat constructor; simpl; intuition discriminate.
  - split; [rewrite Hlen; reflexivity | apply Hsame].
Defined.

Lemma final_has_no_dropped_column_witness :
  exists c fields,
    In c (final Samples.week Samples.archive)
    /\ c_history c = Some fields
    /\ In ("Age", "67") fields
    /\ ~ In "Heart Attack Risk" (map fst fields).
Proof.
  exists {| c_weekly := aggregate "BMW7812" Samples.week;
            c_history := Some [("Age", "67"); ("Sex", "Male");
                               ("Diet", "Healthy")] |}.
  exists [("Age", "67"); ("Sex", "Male"); ("Diet", "Healthy")].
  assert (Hin : In {| c_weekly := aggregate "BMW7812" Samples.week;
                      c_history := Some [("Age", "67"); ("Sex", "Male");
                                         ("Diet", "Healthy")] |}
                   (final Samples.week Samples.archive))
    by (left; reflexivity).
  split; [exact Hin|]. split; [reflexivity|]. split; [now left|].
  apply (proj2 (@final_has_no_dropped_column Samples.week Samples.archive
                  _ _ Hin eq_refl)).
  simpl. tauto.
Defined.

Lemma activity_days_count_the_active_days_witness :
  w_activity_days (aggregate "BMW7812" Samples.week) = 7%Z.
Proof.
  destruct (@activity_days_count_the_active_days Samples.week
              (aggregate "BMW7812" Samples.week)) as [Hcount _].
  - intros v Hv. simpl in Hv.
    repeat (destruct Hv as [<-|Hv]; [right; reflexivity|]). contradiction.
  - left. reflexivity.
  - rewrite Hcount. reflexivity.
Defined.

Lemma weekly_heart_rate_within_readings_witness :
  (inject_Z 60 <= w_heart_rate (aggregate "BMW7812"
                                  (group Runs.two_entities "BMW7812"))
   <= inject_Z 61)%Q.
Proof.
  apply (@weekly_heart_rate_within_readings Runs.two_entities 60 61
           (aggregate "BMW7812" (group Runs.two_entities "BMW7812"))).
  - split.
    { intros pid.
      pose proof (filter_length_le
                    (fun v => String.eqb (v_patient v) pid)
                    Runs.two_entities) as Hle.
      change (List.length Runs.two_entities) with 5%nat in Hle. lia. }
    intros v Hv. simpl in Hv.
    repeat (destruct Hv as [<-|Hv];
            [split; [simpl; lia|];
             intros z [H|H]; try discriminate H; injection H as <-; lia|]).
    contradiction.
  - left. reflexivity.
  - intros v Hv. simpl in Hv.
    repeat (destruct Hv as [<-|Hv];
            [simpl; intros H; first [discriminate H | lia]|]).
    contradiction.
Defined.

End WeeklyFacts.

(* ================================================================== *)
(** ** The weekly heart rate *)

Module WeeklyHeartRate.
Import EMR Aggregation WeeklyFacts.
Local Open Scope Q_scope.

(** C6.  The weekly heart rate of an entity is the mean of the entity's
    own readings rounded to the nearest integer, a half going up: 81 for
    60, 70, 80, 90, 100, 110, 60, in [agg] too; on every table within the
    bounds of 32-bit readings and for every entity of it, the value is the
    floor of the mean of the entity's readings plus a half, never more
    than a half away from that mean; 60.5 gives 61, where truncation would
    give 60. *)
Theorem weekly_heart_rate_is_rounded_mean :
  heart_rate_feature [60; 70; 80; 90; 100; 110; 60]%Z == 81
  /\ (exists w, agg Samples.week = [w] /\ w_heart_rate w == 81)
  /\ (forall (sim : list vitals) (a : weekly),
         readable sim ->
         In a (agg sim) ->
         let own :=
           map v_heart_rate
               (filter (fun v => String.eqb (v_patient v) (w_patient a)) sim) in
         let mean :=
           inject_Z (fold_right Z.add 0%Z own)
           / inject_Z (Z.of_nat (List.length own)) in
         own <> []
         /\ w_heart_rate a == inject_Z (Qfloor (mean + (1 # 2)))
         /\ Qabs (w_heart_rate a - mean) <= 1 # 2)
  /\ (heart_rate_feature [60; 61]%Z == 61
      /\ cast_int (avg (map inject_Z [60; 61]%Z)) = 60%Z).
Proof.
  split; [vm_compute; reflexivity|].
  split; [eexists; split; [reflexivity | vm_compute; reflexivity]|].
  split; [|split; vm_compute; reflexivity].
  intros sim a [_ Hread] Ha own mean.
  destruct (own_readings _ _ Ha) as [Hne Hrate].
  change (map v_heart_rate (group sim (w_patient a))) with own in Hrate.
  assert (Hown : own <> []).
  { unfold own. intros E. apply map_eq_nil in E. now apply Hne. }
  assert (Hpos : forall z, In z own -> (0 <= z)%Z).
  { intros z Hz. apply in_map_iff in Hz. destruct Hz as [v [<- Hv]].
    apply filter_In in Hv. apply (proj1 (Hread v (proj1 Hv))). }
  assert (Hmean : avg (map inject_Z own) == mean).
  { unfold avg, mean. now rewrite length_map, total_inject. }
  split; [exact Hown|]. split.
  - rewrite Hrate, (half_up_mean Hown Hpos). reflexivity.
  - rewrite Hrate, <- Hmean. apply half_up_near.
Qed.

Lemma weekly_heart_rate_is_rounded_mean_witness :
  w_heart_rate (aggregate "BMW7812" (group Runs.two_entities "BMW7812"))
  == 61
  /\ w_heart_rate (aggregate "CZE1114" (group Runs.two_entities "CZE1114"))
     == 101.
Proof.
  assert (Hread : readable Runs.two_entities).
  { split.
    { intros pid.
      pose proof (filter_length_le
                    (fun v => String.eqb (EMR.v_patient v) pid)
                    Runs.two_entities) as Hle.
      change (List.length Runs.two_entities) with 5%nat in Hle. lia. }
    intros v Hv. simpl in Hv.
    repeat (destruct Hv as [<-|Hv];
            [split; [simpl; lia|];
             intros z [H|H]; try discriminate H; injection H as <-; lia|]).
    contradiction. }
  destruct weekly_heart_rate_is_rounded_mean as [_ [_ [Hall _]]].
  split.
  - destruct (Hall Runs.two_entities
                (aggregate "BMW7812" (group Runs.two_entities "BMW7812"))
                Hread (or_introl eq_refl)) as [_ [Hrate _]].
    rewrite Hrate. vm_compute. reflexivity.
  - destruct (Hall Runs.two_entities
                (aggregate "CZE1114" (group Runs.two_entities "CZE1114"))
                Hread (or_intror (or_introl eq_refl))) as [_ [Hrate _]].
    rewrite Hrate. vm_compute. reflexivity.
Defined.

End WeeklyHeartRate.

(* ================================================================== *)
(** ** From the weekly table to the features *)

Module PressureText.
Import Pandas Lambda Features.

Lemma digits_no_slash (d : Decimal.uint) :
  Str.contains "/" (NilEmpty.string_of_uint d) = false.
Proof.
  induction d; simpl; try assumption; reflexivity.
Qed.

Lemma show_no_slash (z : Z) : Str.contains "/" (EMR.show z) = false.
Proof.
  unfold EMR.show. destruct (Z.to_int z) as [d|d]; simpl.
  - destruct d; try reflexivity; simpl; apply digits_no_slash.
  - destruct d; try reflexivity; simpl; apply digits_no_slash.
Qed.

Lemma Z_to_numeric_plain (s : string) :
  (forall r, s <> String "+" r) ->
  Z_to_numeric s = option_map Z.of_int (NilZero.int_of_string s).
Proof.
  intros Hplain. destruct s as [|c r]; [reflexivity|].
  destruct c as [[] [] [] [] [] [] [] []]; try reflexivity.
  now contradiction (Hplain r).
Qed.

Lemma show_parses (z : Z) : Z_to_numeric (EMR.show z) = Some z.
Proof.
  unfold EMR.show. rewrite Z_to_numeric_plain.
  - rewrite NilZero.isi.
    + simpl. now rewrite DecimalZ.of_to.
    + destruct z; simpl; try discriminate.
      intros H. injection H as H. now apply Unsigned.to_uint_nonnil in H.
    + destruct z; simpl; try discriminate.
      intros H. injection H as H. now apply Unsigned.to_uint_nonnil in H.
  - intros r. destruct (Z.to_int z) as [d|d]; simpl; [|discriminate].
    destruct d; simpl; discriminate.
Qed.

Lemma cast_round_0 (x : Q) :
  (- 2147483648 <= EMR.half_up x <= 2147483647)%Z ->
  EMR.cast_int (EMR.round x 0) = EMR.half_up x.
Proof.
  intros Hrange.
  unfold EMR.round. change (inject_Z (10 ^ Z.of_nat 0)) with 1%Q.
  rewrite (@Aggregation.half_up_comp (x * 1)%Q x) by ring.
  unfold EMR.cast_int. cbn [Qnum Qden Qdiv Qmult Qinv inject_Z].
  rewrite Pos.mul_1_r, Z.mul_1_r, Z.quot_1_r. lia.
Qed.

Lemma slash_in (l r : string) : Str.contains "/" (l ++ "/" ++ r) = true.
Proof.
  induction l as [|c l IH]; simpl in *; [reflexivity|].
  rewrite IH. apply orb_true_r.
Qed.

Lemma column_In (f : EMR.vitals -> option Z) (g : list EMR.vitals) (z : Z) :
  In z (EMR.column f g) <-> exists v, In v g /\ f v = Some z.
Proof.
  unfold EMR.column. rewrite in_flat_map. split.
  - intros [v [Hv Hz]]. exists v. split; [exact Hv|].
    destruct (f v) as [y|]; [|contradiction].
    destruct Hz as [->|[]]. reflexivity.
  - intros [v [Hv Hz]]. exists v. split; [exact Hv|].
    rewrite Hz. now left.
Qed.

(** The text of a rounded mean of 32-bit values that are not negative. *)
Lemma text_of_mean (values : list Z) :
  values <> [] ->
  (forall z, In z values -> 0 <= z < 2147483648)%Z ->
  option_map (fun x => EMR.show (EMR.cast_int x)) (EMR.round_avg values)
  = Some (EMR.show
            (Qfloor (inject_Z (fold_right Z.add 0%Z values)
                     / inject_Z (Z.of_nat (List.length values)) + (1 # 2)))).
Proof.
  intros Hne Hrange.
  assert (Hsome : EMR.round_avg values
                  = Some (EMR.round (EMR.avg (map inject_Z values)) 0))
    by (unfold EMR.round_avg; destruct values; [congruence | reflexivity]).
  rewrite Hsome. cbn [option_map]. do 2 f_equal.
  rewrite <- (@WeeklyFacts.half_up_mean values Hne)
    by (intros y Hy; apply Hrange; exact Hy).
  apply cast_round_0.
  assert (H : (0 <= EMR.half_up (EMR.avg (map inject_Z values))
               <= 2147483647)%Z).
  { apply WeeklyFacts.half_up_bounds. apply WeeklyFacts.avg_bounds;
      [exact Hne|]. intros y Hy. specialize (Hrange y Hy). lia. }
  lia.
Qed.

Lemma text_of_nothing (values : list Z) :
  values = [] ->
  option_map (fun x => EMR.show (EMR.cast_int x)) (EMR.round_avg values) = None.
Proof. now intros ->. Qed.

(** X20.  On a table within the bounds of 32-bit readings: a record
    whose "Blood Pressure" is the text the aggregation job wrote for an
    entity that has a systolic and a diastolic reading is not refused for
    its pressure, and its "BP_Systolic" and "BP_Diastolic" features are the
    means of the entity's own readings rounded to the nearest integer, a
    half going up; for an entity all of whose systolic cells, or all of
    whose diastolic cells, are empty, the text has no "/" and the record is
    refused with [KeyError: 1]. *)
Theorem weekly_pressure_reaches_the_model :
  forall (sim : list EMR.vitals) (a : EMR.weekly) (row : dict Z)
         (F : list string) (sex diet : cell Z),
    EMR.readable sim ->
    In a (EMR.agg sim) ->
    assoc_cell "Blood Pressure" row = Some (CStr (EMR.w_blood_pressure a)) ->
    assoc_cell "Sex" row = Some sex ->
    assoc_cell "Diet" row = Some diet ->
    let own :=
      filter (fun v => String.eqb (EMR.v_patient v) (EMR.w_patient a)) sim in
    let sys :=
      flat_map (fun v => match EMR.v_bp_systolic v with
                         | Some z => [z]
                         | None => []
                         end) own in
    let dia :=
      flat_map (fun v => match EMR.v_bp_diastolic v with
                         | Some z => [z]
                         | None => []
                         end) own in
    let nearest (l : list Z) :=
      Qfloor (inject_Z (fold_right Z.add 0%Z l)
              / inject_Z (Z.of_nat (List.length l)) + (1 # 2)) in
    (sys <> [] -> dia <> [] ->
     exists out,
       preprocess_row row F = Ok out
       /\ (In "BP_Systolic" F ->
           df_get out "BP_Systolic" = Some [CNum (nearest sys)])
       /\ (In "BP_Diastolic" F ->
           df_get out "BP_Diastolic" = Some [CNum (nearest dia)]))
    /\ (sys = [] \/ dia = [] ->
        preprocess_row row F = Raise (KeyErrorPos 1)).
Proof.
  intros sim a row F sex diet [_ Hread] Ha Hbp Hsex Hdiet own sys dia nearest.
  destruct (WeeklyFacts.agg_row _ _ Ha) as [_ [_ Heq]].
  change (EMR.group sim (EMR.w_patient a)) with own in Heq.
  assert (Htext : EMR.w_blood_pressure a
                  = EMR.concat_ws "/"
                      [option_map (fun x => EMR.show (EMR.cast_int x))
                                  (EMR.round_avg sys);
                       option_map (fun x => EMR.show (EMR.cast_int x))
                                  (EMR.round_avg dia)]).
  { rewrite Heq at 1. reflexivity. }
  assert (Hsys : forall z, In z sys -> (0 <= z < 2147483648)%Z).
  { intros z Hz. apply (column_In EMR.v_bp_systolic own z) in Hz.
    destruct Hz as [v [Hv Hz]]. apply filter_In in Hv.
    apply (proj2 (Hread v (proj1 Hv)) z). now left. }
  assert (Hdia : forall z, In z dia -> (0 <= z < 2147483648)%Z).
  { intros z Hz. apply (column_In EMR.v_bp_diastolic own z) in Hz.
    destruct Hz as [v [Hv Hz]]. apply filter_In in Hv.
    apply (proj2 (Hread v (proj1 Hv)) z). now right. }
  rewrite Htext in Hbp. clear Htext Heq. split.
  - intros Hs Hd.
    rewrite (text_of_mean Hs Hsys), (text_of_mean Hd Hdia) in Hbp.
    fold (nearest sys) in Hbp. fold (nearest dia) in Hbp.
    change (EMR.concat_ws "/" [Some (EMR.show (nearest sys));
                               Some (EMR.show (nearest dia))])
      with (EMR.show (nearest sys) ++ "/" ++ EMR.show (nearest dia)) in Hbp.
    assert (Hsplit : bp_splits row = true).
    { unfold bp_splits. rewrite Hbp. cbn [astype_str]. apply slash_in. }
    exists {| index := 1;
              data := map (fun c => (c, [match feature_of row c with
                                         | Some v => v
                                         | None => CNum zero
                                         end])) F |}.
    split.
    { rewrite RowFacts.preprocess_row_result, Hsplit, Hsex, Hdiet.
      reflexivity. }
    pose proof (@PreprocessRow.split1_append
                  (EMR.show (nearest sys)) (EMR.show (nearest dia))
                  (show_no_slash _)) as Hparts.
    unfold df_get. cbn [data].
    split; intros Hin;
      rewrite (@RowFacts.assoc_named Z
                 (fun c => [match feature_of row c with
                            | Some v => v
                            | None => CNum zero
                            end]) F _ Hin);
      unfold feature_of; rewrite Hbp; cbn [astype_str];
      rewrite Hparts;
      cbn -[EMR.show nearest Z_to_numeric];
      unfold number, coerce; cbn [to_numeric Z_numeric];
      rewrite show_parses; reflexivity.
  - intros Hnone.
    assert (Hflat : Str.contains "/" (astype_str
                      (CStr (EMR.concat_ws "/"
                         [option_map (fun x => EMR.show (EMR.cast_int x))
                                     (EMR.round_avg sys);
                          option_map (fun x => EMR.show (EMR.cast_int x))
                                     (EMR.round_avg dia)]))) = false).
    { cbn [astype_str].
      destruct Hnone as [E|E]; rewrite (text_of_nothing E).
      - destruct (option_map _ (EMR.round_avg dia)) as [t|] eqn:Et;
          [|reflexivity].
        unfold EMR.round_avg in Et. destruct dia; [discriminate|].
        injection Et as <-. apply show_no_slash.
      - destruct (option_map _ (EMR.round_avg sys)) as [t|] eqn:Et;
          [|reflexivity].
        unfold EMR.round_avg in Et. destruct sys; [discriminate|].
        injection Et as <-.
        change (EMR.concat_ws "/" [Some ?t; None]) with t.
        unfold EMR.concat_ws. cbn [flat_map app String.concat].
        apply show_no_slash. }
    rewrite RowFacts.preprocess_row_result. unfold bp_splits.
    rewrite Hbp, Hflat. reflexivity.
Qed.

Lemma weekly_pressure_reaches_the_model_witness :
  (exists out,
      preprocess_row
        [("Sex", CStr "Male"); ("Diet", CStr "Healthy");
         ("Blood Pressure",
          CStr (EMR.w_blood_pressure
                  (EMR.aggregate "BMW7812"
                     (EMR.group Runs.two_entities "BMW7812"))))]
        Samples.schema
      = Ok out
      /\ df_get out "BP_Systolic" = Some [CNum 130%Z]
      /\ df_get out "BP_Diastolic" = Some [CNum 86%Z])
  /\ preprocess_row
       [("Sex", CStr "Male"); ("Diet", CStr "Healthy");
        ("Blood Pressure",
         CStr (EMR.w_blood_pressure
                 (EMR.aggregate "CZE1114"
                    (EMR.group Runs.two_entities "CZE1114"))))]
       Samples.schema
     = Raise (KeyErrorPos 1).
Proof.
  assert (Hread : EMR.readable Runs.two_entities).
  { split.
    { intros pid.
      pose proof (filter_length_le
                    (fun v => String.eqb (EMR.v_patient v) pid)
                    Runs.two_entities) as Hle.
      change (List.length Runs.two_entities) with 5%nat in Hle. lia. }
    intros v Hv. simpl in Hv.
    repeat (destruct Hv as [<-|Hv];
            [split; [simpl; lia|];
             intros z [H|H]; try discriminate H; injection H as <-; lia|]).
    contradiction. }
  split.
  - destruct (proj1 (@weekly_pressure_reaches_the_model Runs.two_entities
                (EMR.aggregate "BMW7812"
                   (EMR.group Runs.two_entities "BMW7812"))
                [("Sex", CStr "Male"); ("Diet", CStr "Healthy");
                 ("Blood Pressure",
                  CStr (EMR.w_blood_pressure
                          (EMR.aggregate "BMW7812"
                             (EMR.group Runs.two_entities "BMW7812"))))]
                Samples.schema (CStr "Male") (CStr "Healthy")
                Hread (or_introl eq_refl) eq_refl eq_refl eq_refl))
      as [out [Hout [Hsys Hdia]]]; try discriminate.
    exists out. split; [exact Hout|]. split.
    + rewrite Hsys by (simpl; tauto). reflexivity.
    + rewrite Hdia by (simpl; tauto). reflexivity.
  - apply (proj2 (@weekly_pressure_reaches_the_model Runs.two_entities
             (EMR.aggregate "CZE1114"
                (EMR.group Runs.two_entities "CZE1114"))
             [("Sex", CStr "Male"); ("Diet", CStr "Healthy");
              ("Blood Pressure",
               CStr (EMR.w_blood_pressure
                       (EMR.aggregate "CZE1114"
                          (EMR.group Runs.two_entities "CZE1114"))))]
             Samples.schema (CStr "Male") (CStr "Healthy")
             Hread (or_intror (or_introl eq_refl)) eq_refl eq_refl eq_refl)).
    left. reflexivity.
Defined.

End PressureText.

(* ================================================================== *)
(** ** The simulated table *)

Module SimulationFacts.
Import EMR Simulation.

Lemma length_group (sim : list vitals) (pid : string) :
  List.length (group sim pid)
  = count_occ string_dec (map v_patient sim) pid.
Proof.
  unfold group. induction sim as [|v sim IH]; [reflexivity|].
  cbn [filter map count_occ].
  destruct (String.eqb_spec (v_patient v) pid) as [E|E];
    destruct (string_dec (v_patient v) pid) as [E'|E']; try contradiction;
    cbn [List.length]; now rewrite IH.
Qed.

Lemma simulated_patients (rt : Runtime) :
  map v_patient (simulated_vitals rt)
  = flat_map (fun pid => repeat pid 7) patient_ids.
Proof. reflexivity. Qed.

Lemma simulated_reading (rt : Runtime) (v : vitals) :
  In v (simulated_vitals rt) ->
  exists k pid i, v = r_vitals (make_record rt k pid i).
Proof.
  unfold simulated_vitals, records. rewrite in_map_iff.
  intros [r [<- Hr]]. apply in_flat_map in Hr.
  destruct Hr as [[n pid] [_ Hr]]. apply in_map_iff in Hr.
  destruct Hr as [i [<- _]]. now exists (7 * n + i)%nat, pid, i.
Qed.

(** X21.  The simulated table has 140 rows: seven for each of the twenty
    entities of [patient_ids], whatever the draws, and none for anyone
    else. *)
Theorem simulation_gives_each_patient_a_week :
  forall rt : Runtime,
    List.length (records rt) = 140
    /\ forall pid,
         List.length (group (simulated_vitals rt) pid)
         = if Str.mem pid patient_ids then 7 else 0.
Proof.
  intros rt. split; [reflexivity|].
  intros pid. rewrite length_group, simulated_patients.
  destruct (Str.mem pid patient_ids) eqn:Hmem.
  - apply FrameFacts.mem_In in Hmem. simpl in Hmem.
    repeat (destruct Hmem as [<-|Hmem]; [reflexivity|]). contradiction.
  - apply FrameFacts.mem_false_In in Hmem. apply count_occ_not_In.
    intros Hin. apply in_flat_map in Hin. destruct Hin as [p [Hp Hin]].
    apply repeat_spec in Hin. subst p. contradiction.
Qed.

(** X22.  When [random.randint] answers within its bounds, the weekly
    table of the simulated table has, for each of its rows, an entity of
    [patient_ids], a heart rate from 60 to 110 and from 0 to 7 active
    days. *)
Theorem simulated_week_is_in_range :
  forall (rt : Runtime) (a : weekly),
    fair rt ->
    In a (agg (simulated_vitals rt)) ->
    In (w_patient a) patient_ids
    /\ (inject_Z 60 <= w_heart_rate a <= inject_Z 110)%Q
    /\ (0 <= w_activity_days a <= 7)%Z.
Proof.
  intros rt a Hfair Ha.
  assert (Hpid : In (w_patient a) patient_ids).
  { apply (in_map w_patient) in Ha.
    rewrite Aggregation.agg_patients in Ha.
    apply (proj1 (Aggregation.distinct_In _ _)) in Ha.
    rewrite simulated_patients in Ha.
    apply in_flat_map in Ha. destruct Ha as [p [Hp Hin]].
    apply repeat_spec in Hin. now subst p. }
  split; [exact Hpid|]. split.
  - apply (@WeeklyFacts.heart_rate_bounds (simulated_vitals rt)); [|exact Ha].
    intros v Hv. apply simulated_reading in Hv.
    destruct Hv as [k [pid [i ->]]]. cbn [make_record r_vitals v_heart_rate].
    apply Hfair. lia.
  - destruct (@WeeklyFacts.active_days (simulated_vitals rt) a) as [_ Hdays];
      [|exact Ha|].
    + intros v Hv. apply simulated_reading in Hv.
      destruct Hv as [k [pid [i ->]]]. cbn [make_record r_vitals v_activity].
      pose proof (Hfair (4 * k + 3)%nat 0%Z 1%Z). lia.
    + rewrite length_group, simulated_patients in Hdays.
      assert (Hweek : count_occ string_dec
                        (flat_map (fun pid => repeat pid 7) patient_ids)
                        (w_patient a) = 7).
      { unfold patient_ids in Hpid at 1. simpl in Hpid.
        repeat (destruct Hpid as [<-|Hpid]; [reflexivity|]). contradiction. }
      rewrite Hweek in Hdays. exact Hdays.
Qed.

Lemma simulated_week_is_in_range_witness :
  (0 <= w_activity_days
          (aggregate "BMW7812"
             (group (simulated_vitals
                       {| randint := fun _ lo _ => lo;
                          uniform := fun _ lo _ => lo;
                          time := fun _ => 0%Z;
                          round1 := fun x => x |}) "BMW7812")) <= 7)%Z.
Proof.
  apply (@simulated_week_is_in_range
           {| randint := fun _ lo _ => lo;
              uniform := fun _ lo _ => lo;
              time := fun _ => 0%Z;
              round1 := fun x => x |}).
  - intros k lo hi H. simpl. lia.
  - left. reflexivity.
Defined.

End SimulationFacts.
